(** * DoxygenRunner: a shallow embedding of arduino/render-docs

    The development embeds the class [DoxygenRunner] (installation check,
    Doxygen configuration, execution, filtering of the warnings printed on
    stderr, check of the XML output) and the two filesystem helpers
    [createDirectories] and [cleanDirectory] it calls.

    Conventions of the model:
    - a JavaScript string is a [string]: one [ascii] per code unit, so the
      model covers texts whose code units are below 256 (the line terminators
      U+2028 and U+2029 are outside it);
    - an effectful method is a function from a [World] (filesystem and the
      chronological trace of observable events) to an [outcome] and a new
      [World]; [process.exit] and [throw] are the two abnormal outcomes;
    - the filesystem is a tree of directories and regular files; the working
      directory is its root, and a path is resolved component by component
      against the tree, as the kernel does: [x/..] and a final slash need a
      directory before them;
    - the npm package [doxygen] is an interface record ([Doxygen.Lib]) the
      runner is parameterised by. *)

From Stdlib Require Import String Ascii List Bool Arith Lia DecimalString.
Import ListNotations.
Local Open Scope list_scope.
Local Open Scope string_scope.

(** ** JavaScript string primitives *)

Module JsString.

(** The one-character string, as in [String c ""]. *)
Definition char (c : ascii) : string := String c EmptyString.

Definition LF : ascii := ascii_of_nat 10.
Definition CR : ascii := ascii_of_nat 13.
Definition SP : ascii := " "%char.

(** [s.startsWith(p)]. *)
Fixpoint startsWith (p s : string) : bool :=
  match p, s with
  | EmptyString, _ => true
  | String a p', String b s' => Ascii.eqb a b && startsWith p' s'
  | String _ _, EmptyString => false
  end.

(** What follows the prefix [p] in [s], when [s] starts with [p]. *)
Fixpoint afterPrefix (p s : string) : option string :=
  match p, s with
  | EmptyString, _ => Some s
  | String a p', String b s' => if Ascii.eqb a b then afterPrefix p' s' else None
  | String _ _, EmptyString => None
  end.

(** [s.includes(p)]: some suffix of [s] starts with [p]. *)
Fixpoint includes (p s : string) : bool :=
  startsWith p s ||
  match s with
  | EmptyString => false
  | String _ s' => includes p s'
  end.

(** [s.split(sep)] for a one-character separator: the pieces between the
    separators, so that the result is never empty and [[""]] for [""]. *)
Fixpoint split (sep : ascii) (s : string) : list string :=
  match s with
  | EmptyString => [EmptyString]
  | String c s' =>
      if Ascii.eqb c sep then EmptyString :: split sep s'
      else match split sep s' with
           | [] => [char c]
           | piece :: pieces => String c piece :: pieces
           end
  end.

(** [arr.join(sep)]. *)
Definition join (sep : string) (arr : list string) : string :=
  String.concat sep arr.

(** [arr.includes(x)] on an array of strings. *)
Definition arrayIncludes (x : string) (arr : list string) : bool :=
  existsb (String.eqb x) arr.

(** [s.replace(/\n  /g, " ")]: scanning from the left, every match of a line
    feed followed by two spaces is replaced by one space and the scan resumes
    after the match. *)
Fixpoint replaceIndent (s : string) : string :=
  match s with
  | String c0 (String c1 (String c2 rest) as tl) =>
      if Ascii.eqb c0 LF && Ascii.eqb c1 SP && Ascii.eqb c2 SP
      then String SP (replaceIndent rest)
      else String c0 (replaceIndent tl)
  | String c0 tl => String c0 (replaceIndent tl)
  | EmptyString => EmptyString
  end.

(** Decimal rendering of a number inside a template literal. *)
Definition ofNat (n : nat) : string :=
  NilEmpty.string_of_uint (Nat.to_uint n).

End JsString.

(** ** Regular expressions

    The two patterns of the runner use literals, character classes, [+] and
    one capture group.  A pattern is a term of [regex]; whether a whole
    string matches is decided with Brzozowski derivatives, which is what a
    backtracking matcher computes for a pattern anchored with [^] and [$]. *)

Module JsRegExp.
Import JsString.

Inductive cclass : Type :=
| Lit (c : ascii)              (* an ordinary character *)
| NoneOf (cs : list ascii)     (* [^...] *)
| Digit                        (* \d *)
| Dot.                         (* .  : anything but a line terminator *)

Definition isDigit (c : ascii) : bool :=
  let n := nat_of_ascii c in ((48 <=? n) && (n <=? 57))%nat.

Definition isLineTerminator (c : ascii) : bool :=
  Ascii.eqb c LF || Ascii.eqb c CR.

Definition inClass (k : cclass) (c : ascii) : bool :=
  match k with
  | Lit a => Ascii.eqb c a
  | NoneOf cs => negb (existsb (Ascii.eqb c) cs)
  | Digit => isDigit c
  | Dot => negb (isLineTerminator c)
  end.

Inductive regex : Type :=
| Void                          (* matches nothing *)
| Eps                           (* matches the empty string *)
| Cls (k : cclass)
| Cat (r1 r2 : regex)
| Alt (r1 r2 : regex)
| Star (r : regex).

(** [r+] *)
Definition Plus (r : regex) : regex := Cat r (Star r).

(** A literal run of ordinary characters. *)
Fixpoint Str (s : string) : regex :=
  match s with
  | EmptyString => Eps
  | String c s' => Cat (Cls (Lit c)) (Str s')
  end.

Fixpoint nullable (r : regex) : bool :=
  match r with
  | Void => false
  | Eps => true
  | Cls _ => false
  | Cat r1 r2 => nullable r1 && nullable r2
  | Alt r1 r2 => nullable r1 || nullable r2
  | Star _ => true
  end.

Fixpoint deriv (c : ascii) (r : regex) : regex :=
  match r with
  | Void => Void
  | Eps => Void
  | Cls k => if inClass k c then Eps else Void
  | Cat r1 r2 =>
      if nullable r1 then Alt (Cat (deriv c r1) r2) (deriv c r2)
      else Cat (deriv c r1) r2
  | Alt r1 r2 => Alt (deriv c r1) (deriv c r2)
  | Star r1 => Cat (deriv c r1) (Star r1)
  end.

(** [/^r$/.test(s)] *)
Fixpoint fullMatch (r : regex) (s : string) : bool :=
  match s with
  | EmptyString => nullable r
  | String c s' => fullMatch (deriv c r) s'
  end.

(** The strings a pattern denotes. *)
Inductive Matches : regex -> string -> Prop :=
| MEps : Matches Eps EmptyString
| MCls k c : inClass k c = true -> Matches (Cls k) (String c EmptyString)
| MCat r1 r2 s1 s2 :
    Matches r1 s1 -> Matches r2 s2 -> Matches (Cat r1 r2) (s1 ++ s2)
| MAltL r1 r2 s : Matches r1 s -> Matches (Alt r1 r2) s
| MAltR r1 r2 s : Matches r2 s -> Matches (Alt r1 r2) s
| MStarNil r : Matches (Star r) EmptyString
| MStarApp r s1 s2 :
    Matches r s1 -> Matches (Star r) s2 -> Matches (Star r) (s1 ++ s2).

(** Every character of [s] is in the class [k]. *)
Fixpoint allInClass (k : cclass) (s : string) : bool :=
  match s with
  | EmptyString => true
  | String c s' => inClass k c && allInClass k s'
  end.

(** The longest prefix of [s] made of characters of the class [k]: what a
    greedy [k+] or [k*] consumes when nothing follows it in the pattern. *)
Fixpoint takeClass (k : cclass) (s : string) : string :=
  match s with
  | EmptyString => EmptyString
  | String c s' => if inClass k c then String c (takeClass k s') else EmptyString
  end.

(** [s.match(new RegExp(lit + "(.+)"))] for a literal [lit] without
    metacharacters: the leftmost position where [lit] is followed by at least
    one character that is not a line terminator.  The result is the match
    array [[whole; group1]], or [None] for JavaScript's [null]. *)
Fixpoint matchLitThenGroup (lit s : string) : option (list string) :=
  let here :=
    match afterPrefix lit s with
    | Some rest =>
        match takeClass Dot rest with
        | EmptyString => None
        | g => Some [lit ++ g; g]
        end
    | None => None
    end in
  match here with
  | Some m => Some m
  | None =>
      match s with
      | EmptyString => None
      | String _ s' => matchLitThenGroup lit s'
      end
  end.

End JsRegExp.

(** ** The filesystem

    A tree of directories and regular files (no symbolic links, no
    permissions).  The tree is the whole filesystem and the working directory
    of the process is its root, so that a leading slash changes nothing and
    [..] at the root stays there.  A path string is resolved as the kernel
    resolves it, component by component: every component, be it a name,
    [.], [..] or the empty one after a final slash, is taken from a
    directory that exists.  So [nope/../build] resolves only where [nope]
    is a directory, and [a.h/] does not resolve where [a.h] is a regular
    file. *)

Module Fs.
Import JsString.

#[warnings="-register-all"]
Inductive node : Type :=
| File (content : string)
| Dir (entries : list (string * node)).

Definition isDirectory (n : node) : bool :=
  match n with Dir _ => true | File _ => false end.

(** The first entry called [x]. *)
Fixpoint assoc (x : string) (es : list (string * node)) : option node :=
  match es with
  | [] => None
  | (y, c) :: es' => if String.eqb x y then Some c else assoc x es'
  end.

(** Applies [g] to the first entry called [x]. *)
Fixpoint alterFirst (x : string) (g : node -> node) (es : list (string * node))
  : list (string * node) :=
  match es with
  | [] => []
  | (y, c) :: es' =>
      if String.eqb x y then (y, g c) :: es' else (y, c) :: alterFirst x g es'
  end.

(** Removes the first entry called [x]. *)
Fixpoint removeFirst (x : string) (es : list (string * node))
  : list (string * node) :=
  match es with
  | [] => []
  | (y, c) :: es' =>
      if String.eqb x y then es' else (y, c) :: removeFirst x es'
  end.

(** The components of a path string, as written. *)
Definition resolve (path : string) : list string := split "/" path.

(** One component, applied to the names that lead to the directory reached
    so far. *)
Definition step (stack : list string) (comp : string) : list string :=
  if String.eqb comp "" || String.eqb comp "." then stack
  else if String.eqb comp ".." then removelast stack
  else (stack ++ [comp])%list.

(** The names a path string comes down to once [.], [..] and empty
    components are accounted for: where the path leads if it resolves. *)
Definition normalize (path : string) : list string :=
  fold_left step (resolve path) [].

(** The node the names [p] lead to, from [n]. *)
Fixpoint nodeAt (p : list string) (n : node) : option node :=
  match p with
  | [] => Some n
  | x :: p' =>
      match n with
      | Dir es => match assoc x es with
                  | Some c => nodeAt p' c
                  | None => None
                  end
      | File _ => None
      end
  end.

(** Resolution of the components [comps] from the directory at [cur]: each
    component is looked up in a node that must be a directory, and the node
    reached last must exist. *)
Fixpoint walk (t : node) (comps cur : list string) : option (list string) :=
  match comps with
  | [] => match nodeAt cur t with Some _ => Some cur | None => None end
  | c :: comps' =>
      match nodeAt cur t with
      | Some (Dir _) => walk t comps' (step cur c)
      | _ => None
      end
  end.

(** Why components do not resolve: [ENOTDIR] where one is taken from a
    regular file, [ENOENT] where a name is missing. *)
Fixpoint errno (t : node) (comps cur : list string) : string :=
  match comps with
  | [] => "ENOENT"
  | c :: comps' =>
      match nodeAt cur t with
      | Some (Dir _) => errno t comps' (step cur c)
      | Some (File _) => "ENOTDIR"
      | None => "ENOENT"
      end
  end.

(** The names that lead to what [path] denotes, if it denotes anything. *)
Definition realpath (path : string) (t : node) : option (list string) :=
  walk t (resolve path) [].

(** What the components [comps] denote, if anything. *)
Definition lookup (comps : list string) (t : node) : option node :=
  match walk t comps [] with
  | Some p => nodeAt p t
  | None => None
  end.

(** No component is [..]. *)
Definition noDotDot (comps : list string) : bool :=
  negb (existsb (String.eqb "..") comps).

(** The last component that is not empty. *)
Definition lastComponent (comps : list string) : string :=
  last (filter (fun c => negb (String.eqb c "")) comps) "".

(** Rewrites the entries of the directory at [p] (nothing happens when [p]
    is not a directory). *)
Fixpoint alterDir (p : list string)
         (f : list (string * node) -> list (string * node)) (n : node) : node :=
  match n with
  | File c => File c
  | Dir es =>
      match p with
      | [] => Dir (f es)
      | x :: p' => Dir (alterFirst x (alterDir p' f) es)
      end
  end.

(** [mkdir -p]: creates the missing directories along [p]; [None] when a
    regular file is in the way. *)
Fixpoint mkdirP (p : list string) (n : node) : option node :=
  match n with
  | File _ => None
  | Dir es =>
      match p with
      | [] => Some n
      | x :: p' =>
          match assoc x es with
          | Some c =>
              option_map (fun c' => Dir (alterFirst x (fun _ => c') es))
                         (mkdirP p' c)
          | None =>
              option_map (fun c' => Dir (es ++ [(x, c')])%list)
                         (mkdirP p' (Dir []))
          end
      end
  end.

(** No regular file lies on [p]: the condition under which [p] is, or can be
    made, a directory. *)
Fixpoint noFileOnPath (p : list string) (n : node) : bool :=
  match n with
  | File _ => false
  | Dir es =>
      match p with
      | [] => true
      | x :: p' =>
          match assoc x es with
          | Some c => noFileOnPath p' c
          | None => true
          end
      end
  end.

(** [mkdir] with [recursive: true], on the components as written: the
    directories named so far are created where a [..] is met and at the end,
    so that [nope/../build] creates [nope] as well as [build].  The flag
    tells whether every directory could be made; what was created before a
    regular file got in the way stays. *)
Fixpoint mkdirWalk (comps cur : list string) (t : node) : bool * node :=
  match comps with
  | [] => match mkdirP cur t with
          | Some t' => (true, t')
          | None => (false, t)
          end
  | c :: comps' =>
      if String.eqb c ".." then
        match mkdirP cur t with
        | Some t' => mkdirWalk comps' (removelast cur) t'
        | None => (false, t)
        end
      else mkdirWalk comps' (step cur c) t
  end.

(** The parent and the last name of the names [p]. *)
Fixpoint unsnoc (p : list string) : option (list string * string) :=
  match p with
  | [] => None
  | [x] => Some ([], x)
  | x :: p' => option_map (fun '(q, y) => (x :: q, y)) (unsnoc p')
  end.

Fixpoint height (n : node) : nat :=
  match n with
  | File _ => 0
  | Dir es =>
      S ((fix deepest (l : list (string * node)) : nat :=
            match l with
            | [] => 0
            | (_, c) :: l' => Nat.max (height c) (deepest l')
            end) es)
  end.

(** A name [readdir] can return: not empty, no slash, neither [.] nor [..]. *)
Definition validName (x : string) : bool :=
  negb (String.eqb x "") && negb (String.eqb x ".") && negb (String.eqb x "..")
  && negb (includes "/" x).

(** Every entry below [n] has a valid name. *)
Fixpoint wfNames (n : node) : bool :=
  match n with
  | File _ => true
  | Dir es =>
      (fix all (l : list (string * node)) : bool :=
         match l with
         | [] => true
         | (x, c) :: l' => validName x && wfNames c && all l'
         end) es
  end.

End Fs.

(** ** Effects: exceptions, process exit, console, filesystem calls *)

Module Js.
Import JsString.

(** A thrown [Error]: every error has a [message]; the errors of
    [child_process.execSync] also carry the [stderr] of the child. *)
Record JsError : Type := mkError { message : string; stderr : option string }.

Definition TypeError (msg : string) : JsError := mkError ("TypeError: " ++ msg) None.
Definition RangeError (msg : string) : JsError := mkError ("RangeError: " ++ msg) None.
Definition SystemError (code path : string) : JsError :=
  mkError (code ++ ": " ++ path) None.

Inductive outcome (A : Type) : Type :=
| Returned (a : A)           (* normal completion *)
| Thrown (e : JsError)       (* an exception propagates *)
| Exited (code : nat).       (* process.exit(code) *)

Arguments Returned {A} a.
Arguments Thrown {A} e.
Arguments Exited {A} code.

(** The generated Doxygen options: an object literal, keys in source order. *)
Definition config : Type := list (string * string).

Inductive event : Type :=
| ConsoleLog (text : string)
| ConsoleWarn (text : string)
| ConsoleError (text : string)
| CallIsInstalled (version : string)
| CallDownloadVersion (version : string)
| CallCreateConfig (cfg : config) (configFile : string)
| CallRun (configFile version : string)
| FsExistsSync (path : string)
| FsReaddirSync (path : string)
| FsStatSync (path : string)
| FsUnlinkSync (path : string)
| FsRmdirSync (path : string)
| FsMkdirSync (path : string).

Record World : Type := mkWorld { fs : Fs.node; trace : list event }.

Definition M (A : Type) : Type := World -> outcome A * World.

Definition ret {A} (a : A) : M A := fun w => (Returned a, w).

Definition bind {A B} (m : M A) (k : A -> M B) : M B :=
  fun w =>
    match m w with
    | (Returned a, w') => k a w'
    | (Thrown e, w') => (Thrown e, w')
    | (Exited c, w') => (Exited c, w')
    end.

Definition throw {A} (e : JsError) : M A := fun w => (Thrown e, w).

(** [process.exit(code)]: nothing after it runs, and no [catch] sees it. *)
Definition exit {A} (code : nat) : M A := fun w => (Exited code, w).

(** [try { body } catch (error) { handler }] *)
Definition tryCatch {A} (body : M A) (handler : JsError -> M A) : M A :=
  fun w =>
    match body w with
    | (Thrown e, w') => handler e w'
    | r => r
    end.

Definition emit (e : event) : M unit :=
  fun w => (Returned tt, mkWorld (fs w) (trace w ++ [e])%list).

(** A call that reads or changes the filesystem, recorded in the trace. *)
Definition syscall {A} (e : event) (f : Fs.node -> outcome A * Fs.node) : M A :=
  fun w =>
    let (r, fs') := f (fs w) in
    (r, mkWorld fs' (trace w ++ [e])%list).

Module Import Notations.
  Notation "x <- m ;; k" := (bind m (fun x => k))
    (at level 61, m at next level, right associativity).
  Notation "m ;; k" := (bind m (fun _ => k))
    (at level 61, right associativity).
End Notations.

(** [for (const x of xs) body(x)] *)
Fixpoint forOf {A} (xs : list A) (body : A -> M unit) : M unit :=
  match xs with
  | [] => ret tt
  | x :: xs' => body x ;; forOf xs' body
  end.

Definition console_log (text : string) : M unit := emit (ConsoleLog text).
Definition console_warn (text : string) : M unit := emit (ConsoleWarn text).
Definition console_error (text : string) : M unit := emit (ConsoleError text).

(** *** Node's [fs] module

    The empty path names nothing: [existsSync("")] is [false] and the other
    calls fail with [ENOENT].  Every call hands the path string to the
    kernel as it is, so [Fs.lookup (Fs.resolve path)] decides what it
    sees. *)

Definition existsSync (path : string) : M bool :=
  syscall (FsExistsSync path) (fun t =>
    if String.eqb path "" then (Returned false, t)
    else match Fs.lookup (Fs.resolve path) t with
         | Some _ => (Returned true, t)
         | None => (Returned false, t)
         end).

Definition readdirSync (path : string) : M (list string) :=
  syscall (FsReaddirSync path) (fun t =>
    if String.eqb path "" then (Thrown (SystemError "ENOENT" path), t)
    else match Fs.lookup (Fs.resolve path) t with
         | Some (Fs.Dir es) => (Returned (map fst es), t)
         | Some (Fs.File _) => (Thrown (SystemError "ENOTDIR" path), t)
         | None =>
             (Thrown (SystemError (Fs.errno t (Fs.resolve path) []) path), t)
         end).

(** [fs.statSync(path)]; the model keeps the node itself as the [Stats]. *)
Definition statSync (path : string) : M Fs.node :=
  syscall (FsStatSync path) (fun t =>
    if String.eqb path "" then (Thrown (SystemError "ENOENT" path), t)
    else match Fs.lookup (Fs.resolve path) t with
         | Some n => (Returned n, t)
         | None =>
             (Thrown (SystemError (Fs.errno t (Fs.resolve path) []) path), t)
         end).

Definition unlinkSync (path : string) : M unit :=
  syscall (FsUnlinkSync path) (fun t =>
    if String.eqb path "" then (Thrown (SystemError "ENOENT" path), t)
    else match Fs.realpath path t with
         | Some p =>
             match Fs.nodeAt p t, Fs.unsnoc p with
             | Some (Fs.File _), Some (parent, name) =>
                 (Returned tt, Fs.alterDir parent (Fs.removeFirst name) t)
             | _, _ => (Thrown (SystemError "EISDIR" path), t)
             end
         | None =>
             (Thrown (SystemError (Fs.errno t (Fs.resolve path) []) path), t)
         end).

(** [fs.rmdirSync(path)]: the path must end in the name of the directory,
    not in [.] or [..]. *)
Definition rmdirSync (path : string) : M unit :=
  syscall (FsRmdirSync path) (fun t =>
    if String.eqb path "" then (Thrown (SystemError "ENOENT" path), t)
    else match Fs.realpath path t with
         | Some p =>
             if String.eqb (Fs.lastComponent (Fs.resolve path)) "."
             then (Thrown (SystemError "EINVAL" path), t)
             else if String.eqb (Fs.lastComponent (Fs.resolve path)) ".."
             then (Thrown (SystemError "ENOTEMPTY" path), t)
             else
               match Fs.nodeAt p t, Fs.unsnoc p with
               | Some (Fs.Dir []), Some (parent, name) =>
                   (Returned tt, Fs.alterDir parent (Fs.removeFirst name) t)
               | Some (Fs.Dir []), None => (Thrown (SystemError "EBUSY" path), t)
               | Some (Fs.Dir (_ :: _)), _ =>
                   (Thrown (SystemError "ENOTEMPTY" path), t)
               | _, _ => (Thrown (SystemError "ENOTDIR" path), t)
               end
         | None =>
             (Thrown (SystemError (Fs.errno t (Fs.resolve path) []) path), t)
         end).

(** [fs.mkdirSync(path, { recursive: true })]: [EEXIST] where the path itself
    is a regular file, [ENOTDIR] where a regular file is above it. *)
Definition mkdirSyncRecursive (path : string) : M unit :=
  syscall (FsMkdirSync path) (fun t =>
    if String.eqb path "" then (Thrown (SystemError "ENOENT" path), t)
    else match Fs.mkdirWalk (Fs.resolve path) [] t with
         | (true, t') => (Returned tt, t')
         | (false, t') =>
             match Fs.lookup (Fs.resolve path) t' with
             | Some (Fs.File _) => (Thrown (SystemError "EEXIST" path), t')
             | _ => (Thrown (SystemError "ENOTDIR" path), t')
             end
         end).

End Js.

(** ** The helpers [createDirectories] and [cleanDirectory] *)

Module Helpers.
Import JsString Js Js.Notations.

Definition createDirectories (dirs : list string) : M unit :=
  forOf dirs (fun dir =>
    present <- existsSync dir ;;
    if negb present then mkdirSyncRecursive dir else ret tt).

(** [cleanDirectory] calls itself on every subdirectory; [depth] bounds the
    nesting of these calls, and running out of it is the engine's stack
    overflow. *)
Fixpoint cleanDirectoryRec (depth : nat) (dir : string) : M unit :=
  match depth with
  | O => throw (RangeError "Maximum call stack size exceeded")
  | S depth' =>
      present <- existsSync dir ;;
      if present then
        files <- readdirSync dir ;;
        forOf files (fun file =>
          let path := dir ++ "/" ++ file in
          stat <- statSync path ;;
          if Fs.isDirectory stat then
            cleanDirectoryRec depth' path ;;
            rmdirSync path
          else
            unlinkSync path)
      else ret tt
  end.

(** Deletes all files and subdirectories in the given directory.  The calls
    nest at most as deep as the tree is high. *)
Definition cleanDirectory (dir : string) : M unit :=
  fun w => cleanDirectoryRec (S (Fs.height (fs w))) dir w.

End Helpers.

(** ** The npm package [doxygen], as the runner uses it *)

Module Doxygen.
Import Js.

Record Lib : Type := mkLib {
  isDoxygenExecutableInstalled : string -> Fs.node -> bool;
  (** the value the returned promise resolves to, or its rejection *)
  downloadVersion : string -> Fs.node -> outcome bool * Fs.node;
  createConfig : config -> string -> Fs.node -> outcome unit * Fs.node;
  (** throws the error of [execSync] when Doxygen exits with a failure *)
  run : string -> string -> Fs.node -> outcome unit * Fs.node
}.

End Doxygen.

(** ** The class [DoxygenRunner] *)

Module DoxygenRunner.
Import JsString JsRegExp Js Js.Notations Helpers.

Record Options : Type := mkOptions {
  sourceFolder : string;
  doxygenVersion : string;
  outputXML : bool;
  xmlFolder : string;
  fileExtensions : list string;
  exclude : option string;
  accessLevel : string;
  debug : bool;
  doxygenConfigFile : string
}.

(** The same options with the [debug] flag set to [d]. *)
Definition withDebug (d : bool) (o : Options) : Options :=
  mkOptions (sourceFolder o) (doxygenVersion o) (outputXML o) (xmlFolder o)
            (fileExtensions o) (exclude o) (accessLevel o) d
            (doxygenConfigFile o).

(** [obj.KEY] on the options object handed to Doxygen. *)
Fixpoint get (key : string) (cfg : config) : option string :=
  match cfg with
  | [] => None
  | (k, v) :: cfg' => if String.eqb key k then Some v else get key cfg'
  end.

(** [/^(?:[^:\n]+):(?:\d+): warning: (?:.+)$/] *)
Definition warningMessageRegex : regex :=
  Cat (Plus (Cls (NoneOf [":"%char; LF])))
 (Cat (Str ":")
 (Cat (Plus (Cls Digit))
 (Cat (Str ": warning: ")
      (Plus (Cls Dot))))).

Definition missingLibsErrorMessage : string :=
  "error while loading shared libraries:".

Section Runner.

Variable doxygen : Doxygen.Lib.
Variable options : Options.

Definition checkInstallation : M unit :=
  installed <- syscall (CallIsInstalled (doxygenVersion options)) (fun t =>
    (Returned (Doxygen.isDoxygenExecutableInstalled doxygen
                 (doxygenVersion options) t), t)) ;;
  if negb installed then
    console_log "Doxygen is not installed. Downloading ..." ;;
    success <- syscall (CallDownloadVersion (doxygenVersion options))
                 (Doxygen.downloadVersion doxygen (doxygenVersion options)) ;;
    if negb success then
      console_error "Failed to download Doxygen" ;;
      exit 1
    else ret tt
  else ret tt.

Definition checkXMLOutput : M unit :=
  xmlFiles <- readdirSync (xmlFolder options) ;;
  if (length xmlFiles =? 0)%nat then
    console_error ("❌ No XML files found in " ++ xmlFolder options ++ ".") ;;
    exit 1
  else if debug options then
    console_log ("✅ Found " ++ ofNat (length xmlFiles) ++ " XML files.") ;;
    forOf xmlFiles (fun file => console_log ("📄 " ++ file))
  else ret tt.

(** The configuration options for Doxygen. *)
Definition doxyFileOptions : config :=
  [ ("INPUT", sourceFolder options);
    ("RECURSIVE", "YES");
    ("GENERATE_HTML", "NO");
    ("GENERATE_LATEX", "NO");
    ("GENERATE_XML", if outputXML options then "YES" else "NO");
    ("XML_OUTPUT", xmlFolder options);
    ("CASE_SENSE_NAMES", "NO");
    ("FILE_PATTERNS", join " " (fileExtensions options));
    ("EXCLUDE_PATTERNS", match exclude options with
                         | Some e => e
                         | None => ""
                         end);
    ("EXTRACT_PRIVATE", if String.eqb (accessLevel options) "private"
                        then "YES" else "NO");
    ("EXTRACT_STATIC", "NO");
    ("QUIET", if debug options then "NO" else "YES");
    ("WARN_NO_PARAMDOC", "YES");
    ("WARN_AS_ERROR", "FAIL_ON_WARNINGS");
    ("ENABLE_PREPROCESSING", "NO") ].

Definition prepare : M unit :=
  (if debug options
   then console_log ("🔧 Creating Doxygen config file "
                     ++ doxygenConfigFile options ++ " ...")
   else ret tt) ;;
  syscall (CallCreateConfig doxyFileOptions (doxygenConfigFile options))
    (Doxygen.createConfig doxygen doxyFileOptions (doxygenConfigFile options)) ;;
  (if debug options then console_log "🏃 Running Doxygen ..." else ret tt) ;;
  match get "GENERATE_XML" doxyFileOptions with
  | Some v =>
      if String.eqb v "YES" then
        cleanDirectory (xmlFolder options) ;;
        createDirectories [xmlFolder options] ;;
        console_log ("🔨 Generating XML documentation at "
                     ++ xmlFolder options ++ " ...")
      else ret tt
  | None => ret tt
  end.

(** The lines of stderr after melding the continuation lines. *)
Definition errorMessagesOf (text : string) : list string :=
  split LF (replaceIndent text).

Definition isWarning (message : string) : bool :=
  fullMatch warningMessageRegex message.

Definition extractValidationMessages (error : JsError) : M (list string) :=
  match stderr error with
  | None => throw (TypeError "Cannot read properties of undefined (reading 'toString')")
  | Some text =>
      let errorMessages := errorMessagesOf text in
      let filteredMessages := filter isWarning errorMessages in
      (if debug options then
         let remainingMessages :=
           filter (fun message =>
                     negb (arrayIncludes message filteredMessages)
                     && negb (String.eqb message ""))
                  errorMessages in
         forOf remainingMessages (fun message => console_warn ("🤔 " ++ message))
       else ret tt) ;;
      ret filteredMessages
  end.

(** The [catch] block of [run]. *)
Definition onRunError (error : JsError) : M (list string) :=
  if includes missingLibsErrorMessage (message error) then
    match matchLitThenGroup (missingLibsErrorMessage ++ " ") (message error) with
    | None =>
        (* [matches] is [null] *)
        throw (TypeError "Cannot read properties of null (reading 'length')")
    | Some matches =>
        console_error ("❌ Failed to run Doxygen due to missing libraries: "
                       ++ (if (1 <? length matches)%nat
                           then nth 1 matches ""
                           else "unknown")) ;;
        exit 1
    end
  else extractValidationMessages error.

(** The [try] statement of [run]; its value is [validationMessages]. *)
Definition execute : M (list string) :=
  tryCatch
    (syscall (CallRun (doxygenConfigFile options) (doxygenVersion options))
       (Doxygen.run doxygen (doxygenConfigFile options) (doxygenVersion options)) ;;
     ret [])
    onRunError.

Definition run : M (list string) :=
  checkInstallation ;;
  prepare ;;
  validationMessages <- execute ;;
  (if outputXML options then checkXMLOutput else ret tt) ;;
  ret validationMessages.

(** [run] up to the point where the XML output is checked. *)
Definition beforeOutputCheck : M (list string) :=
  checkInstallation ;;
  prepare ;;
  execute.

End Runner.

End DoxygenRunner.

(** ** Vocabulary of the specification *)

Module Spec.
Import JsString Js.

(** [l1] is [l2] with some elements left out, the others in the same order. *)
Inductive Subsequence {A : Type} : list A -> list A -> Prop :=
| sub_nil : Subsequence [] []
| sub_skip x l1 l2 : Subsequence l1 l2 -> Subsequence l1 (x :: l2)
| sub_keep x l1 l2 : Subsequence l1 l2 -> Subsequence (x :: l1) (x :: l2).

Fixpoint leadingSpaces (s : string) : nat :=
  match s with
  | String c s' => if Ascii.eqb c SP then S (leadingSpaces s') else 0
  | EmptyString => 0
  end.

(** The normalisation as the specification words it: a line feed is replaced,
    together with the spaces after it, by one space when it is followed by
    exactly two spaces, and is kept otherwise. *)
Fixpoint replaceExactlyTwo (s : string) : string :=
  match s with
  | EmptyString => EmptyString
  | String c s' =>
      if Ascii.eqb c LF && (leadingSpaces s' =? 2)%nat
      then match s' with
           | String _ (String _ rest) => String SP (replaceExactlyTwo rest)
           | _ => String c (replaceExactlyTwo s')
           end
      else String c (replaceExactlyTwo s')
  end.

Definition isConsole (e : event) : bool :=
  match e with
  | ConsoleLog _ | ConsoleWarn _ | ConsoleError _ => true
  | _ => false
  end.

(** A call of Node's [fs] module. *)
Definition isFsCall (e : event) : bool :=
  match e with
  | FsExistsSync _ | FsReaddirSync _ | FsStatSync _
  | FsUnlinkSync _ | FsRmdirSync _ | FsMkdirSync _ => true
  | _ => false
  end.

Definition isCreateConfig (e : event) : bool :=
  match e with CallCreateConfig _ _ => true | _ => false end.

Definition isRun (e : event) : bool :=
  match e with CallRun _ _ => true | _ => false end.

End Spec.

(** ** Sample inputs: a Doxygen package, options, a tree *)

Module Samples.
Import JsString Js Fs DoxygenRunner.

Definition nl : string := char LF.

(** The stderr text of testable property 3. *)
Definition rawErrorText : string :=
  "a.h:10: warning: Parameter 'x' not documented" ++ nl ++
  "  (see declaration)" ++ nl ++
  "b.h:20: warning: Undocumented return value" ++ nl ++
  "Random noise line".

(** A line feed followed by three spaces. *)
Definition threeSpaces : string := "a" ++ nl ++ "   b".

Fixpoint upsert (x : string) (c : node) (es : list (string * node))
  : list (string * node) :=
  match es with
  | [] => [(x, c)]
  | (y, d) :: es' =>
      if String.eqb x y then (y, c) :: es' else (y, d) :: upsert x c es'
  end.

(** [fs.writeFileSync(path, content)]: the components before the last one
    must resolve to a directory, and the last one must be a name that is not
    a directory there. *)
Definition writeFile (path content : string) (t : node) : outcome unit * node :=
  if String.eqb path "" then (Thrown (SystemError "ENOENT" path), t) else
  let name := last (resolve path) "" in
  match lookup (removelast (resolve path)) t, walk t (removelast (resolve path)) [] with
  | Some (Dir es), Some parent =>
      if validName name
      then match assoc name es with
           | Some (Dir _) => (Thrown (SystemError "EISDIR" path), t)
           | _ => (Returned tt, alterDir parent (upsert name (File content)) t)
           end
      else (Thrown (SystemError "EISDIR" path), t)
  | Some (File _), _ => (Thrown (SystemError "ENOTDIR" path), t)
  | _, _ => (Thrown (SystemError "ENOENT" path), t)
  end.

Definition renderConfig (cfg : config) : string :=
  join nl (map (fun kv => fst kv ++ " = " ++ snd kv) cfg).

(** A Doxygen package whose answers are fixed: whether the version is
    installed, whether a download succeeds, and the error of the run, if any.
    [createConfig] writes the options to the config file. *)
Definition sampleLib (installed download : bool) (failure : option JsError)
  : Doxygen.Lib :=
  Doxygen.mkLib
    (fun _ _ => installed)
    (fun _ t => (Returned download, t))
    (fun cfg configFile t => writeFile configFile (renderConfig cfg) t)
    (fun _ _ t =>
       match failure with
       | Some e => (Thrown e, t)
       | None => (Returned tt, t)
       end).

Definition sampleOptions (xml dbg : bool) : Options :=
  mkOptions "./src" "1.9.8" xml "./build/xml/" [".h"; ".cpp"] None "public" dbg
            "./doxygen.config".

(** A tree with stale XML output of an earlier run. *)
Definition staleTree : node :=
  Dir [("build",
        Dir [("xml",
              Dir [("index.xml", File "<doxygenindex/>");
                   ("old", Dir [("class_a.xml", File "<doxygen/>");
                                ("empty", Dir [])])]);
             ("md", Dir [])]);
       ("src", Dir [("a.h", File "int f(int x);")])].

(** The same tree after a run that produced no XML file. *)
Definition emptyOutputTree : node :=
  Dir [("build", Dir [("xml", Dir []); ("md", Dir [])]);
       ("src", Dir [("a.h", File "int f(int x);")])].

Definition staleWorld : World := mkWorld staleTree [].
Definition emptyOutputWorld : World := mkWorld emptyOutputTree [].

(** The failure of a Doxygen binary that lacks a shared library. *)
Definition missingLibError : JsError :=
  mkError ("Command failed: doxygen ./doxygen.config" ++ nl ++
           "doxygen: error while loading shared libraries: libclang.so.9: " ++
           "cannot open shared object file")
          (Some "").

(** The same failure with nothing after the marker. *)
Definition bareMarkerError : JsError :=
  mkError "doxygen: error while loading shared libraries:" (Some "").

Definition warningsError : JsError :=
  mkError "Command failed: doxygen ./doxygen.config" (Some rawErrorText).

End Samples.

(** ** Vocabulary of the further properties *)

Module Frames.
Import JsString Fs Js.

(** [p] and [q] part ways: at some depth they name different entries of the
    same directory, so neither path is above the other. *)
Fixpoint diverges (p q : list string) : bool :=
  match p, q with
  | x :: p', y :: q' => if String.eqb x y then diverges p' q' else true
  | _, _ => false
  end.

(** [n'] is where [n] was and is of the same kind: a regular file with its
    content, or a directory. *)
Definition sameKind (n n' : node) : Prop :=
  match n with
  | File s => n' = File s
  | Dir _ => isDirectory n' = true
  end.

(** Nothing of [t] is removed or replaced in [t']: what was at a path is
    still there, a file with its content, a directory as a directory. *)
Definition keeps (t t' : node) : Prop :=
  forall q c, nodeAt q t = Some c ->
              exists c', nodeAt q t' = Some c' /\ sameKind c c'.

(** Whatever its outcome, [m] only appends to the trace, and what it appends
    satisfies [P]. *)
Definition emits {A} (P : event -> bool) (m : M A) : Prop :=
  forall w, exists evs,
    trace (snd (m w)) = (trace w ++ evs)%list /\ forallb P evs = true.

(** Continuation lines as Doxygen wraps them: each on a line of its own,
    indented by two spaces. *)
Fixpoint wrapped (conts : list string) : string :=
  match conts with
  | [] => ""
  | c :: cs => char LF ++ "  " ++ c ++ wrapped cs
  end.

(** The same lines, each after one space, on one line. *)
Fixpoint melded (conts : list string) : string :=
  match conts with
  | [] => ""
  | c :: cs => " " ++ c ++ melded cs
  end.

(** [m] returns or throws: it never ends the process. *)
Definition neverExits {A} (m : M A) : Prop :=
  forall w c, fst (m w) <> Exited c.

Definition isDownload (e : event) : bool :=
  match e with CallDownloadVersion _ => true | _ => false end.

(** A tree where a regular file is in the way of [./build/xml/]. *)
Definition obstructedTree : node :=
  Dir [("build", File "not a directory"); ("src", Dir [])].

(** A tree where [./build/xml/] itself is a regular file. *)
Definition fileTree : node :=
  Dir [("build", Dir [("xml", File "not a directory")]); ("src", Dir [])].

(** A tree without [./build]. *)
Definition bareTree : node :=
  Dir [("src", Dir [("a.h", File "int f(int x);")])].

(** Options whose config file lies inside the XML folder. *)
Definition configInsideOptions : DoxygenRunner.Options :=
  DoxygenRunner.mkOptions "./src" "1.9.8" true "./build/xml/" [".h"; ".cpp"] None
                          "public" false "./build/xml/doxygen.config".

(** Options whose config file lies below [./build]. *)
Definition configBelowBuildOptions : DoxygenRunner.Options :=
  DoxygenRunner.mkOptions "./src" "1.9.8" true "./build/xml/" [".h"; ".cpp"] None
                          "public" true "./build/doxygen.config".

(** An error that is not the failure of a child process: no [stderr]. *)
Definition plainError : JsError := mkError "spawnSync /bin/sh ENOENT" None.

(** Options whose XML folder is named through a directory that is not
    there. *)
Definition dotDotOptions : DoxygenRunner.Options :=
  DoxygenRunner.mkOptions "./src" "1.9.8" true "./nope/../build/xml" [".h"; ".cpp"]
                          None "public" false "./doxygen.config".

(** The rejection of a download without network. *)
Definition networkError : JsError :=
  mkError "getaddrinfo ENOTFOUND www.doxygen.nl" None.

(** A Doxygen package that is not installed and whose download is rejected
    rather than resolved to [false]. *)
Definition rejectingLib : Doxygen.Lib :=
  Doxygen.mkLib
    (fun _ _ => false)
    (fun _ t => (Thrown networkError, t))
    (fun cfg configFile t =>
       Samples.writeFile configFile (Samples.renderConfig cfg) t)
    (fun _ _ t => (Returned tt, t)).

(** The step completed normally. *)
Definition returns {A} (r : outcome A) : bool :=
  match r with Returned _ => true | _ => false end.

(** A directory whose first entry is a subdirectory, with a file after it. *)
Definition nestedTree : node :=
  Dir [("build",
        Dir [("xml",
              Dir [("old", Dir [("class_a.xml", File "<doxygen/>")]);
                   ("index.xml", File "<doxygenindex/>")])])].

(** The events of the four steps of [run]. *)
Definition isInstallEvent (e : event) : bool :=
  match e with
  | CallIsInstalled _ | CallDownloadVersion _ | ConsoleLog _ | ConsoleError _ => true
  | _ => false
  end.

Definition isPrepareEvent (e : event) : bool :=
  match e with
  | CallCreateConfig _ _ | ConsoleLog _
  | FsExistsSync _ | FsReaddirSync _ | FsStatSync _
  | FsUnlinkSync _ | FsRmdirSync _ | FsMkdirSync _ => true
  | _ => false
  end.

Definition isExecuteEvent (e : event) : bool :=
  match e with
  | CallRun _ _ | ConsoleWarn _ | ConsoleError _ => true
  | _ => false
  end.

Definition isOutputEvent (e : event) : bool :=
  match e with
  | FsReaddirSync _ | ConsoleLog _ | ConsoleError _ => true
  | _ => false
  end.

End Frames.

(** * Properties *)

(** ** Strings *)

Module JsStringFacts.
Import JsString.

Lemma append_nil_r (s : string) : s ++ "" = s.
Proof. induction s as [|c s IH]; simpl; congruence. Qed.

Lemma append_assoc (a b c : string) : (a ++ b) ++ c = a ++ (b ++ c).
Proof. induction a as [|x a IH]; simpl; congruence. Qed.

Lemma split_not_nil (sep : ascii) (s : string) : split sep s <> [].
Proof.
  induction s as [|c s IH]; simpl; [discriminate|].
  destruct (Ascii.eqb c sep); [discriminate|].
  destruct (split sep s); discriminate.
Qed.

(** Splitting distributes over a separator in the middle. *)
Lemma split_app (sep : ascii) (a b : string) :
  split sep (a ++ String sep b) = (split sep a ++ split sep b)%list.
Proof.
  induction a as [|c a IH]; simpl.
  - now rewrite Ascii.eqb_refl.
  - destruct (Ascii.eqb c sep); [now rewrite IH|].
    rewrite IH.
    pose proof (split_not_nil sep a) as Hne.
    destruct (split sep a); [contradiction|reflexivity].
Qed.

(** [includes] of a one-character needle is membership of that character. *)
Lemma includes_char_cons (x c : ascii) (s : string) :
  includes (char x) (String c s) = Ascii.eqb x c || includes (char x) s.
Proof. simpl. now rewrite andb_true_r. Qed.

Lemma split_no_sep (sep : ascii) (s : string) :
  includes (char sep) s = false -> split sep s = [s].
Proof.
  induction s as [|c s IH]; [reflexivity|].
  rewrite includes_char_cons. intros H.
  apply orb_false_iff in H as [Hc Hs].
  simpl. rewrite Ascii.eqb_sym, Hc, (IH Hs). reflexivity.
Qed.

End JsStringFacts.


(** ** The normalisation of continuation lines *)

Module ReplaceFacts.
Import JsString JsStringFacts.

Lemma replaceIndent_match (rest : string) :
  replaceIndent (String LF (String SP (String SP rest))) = String SP (replaceIndent rest).
Proof. reflexivity. Qed.

Lemma startsWith_two_spaces (s : string) :
  startsWith "  " s = true -> exists rest, s = String SP (String SP rest).
Proof.
  destruct s as [|c1 [|c2 rest]]; cbn [startsWith]; try discriminate.
  - now rewrite andb_false_r.
  - rewrite andb_true_r. intros H. apply andb_true_iff in H as [H1 H2].
    apply Ascii.eqb_eq in H1, H2. subst. now exists rest.
Qed.

Lemma replaceIndent_no_match (c0 : ascii) (tl : string) :
  Ascii.eqb c0 LF && startsWith "  " tl = false ->
  replaceIndent (String c0 tl) = String c0 (replaceIndent tl).
Proof.
  destruct tl as [|c1 [|c2 rest]]; try reflexivity.
  cbn [startsWith replaceIndent]. rewrite andb_true_r, (Ascii.eqb_sym " " c1), (Ascii.eqb_sym " " c2).
  unfold SP. rewrite andb_assoc. now intros ->.
Qed.

Lemma startsWith_two_spaces_app_LF (tl z : string) :
  startsWith "  " tl = false -> startsWith "  " (tl ++ String LF z) = false.
Proof.
  destruct tl as [|c1 [|c2 rest]]; cbn [startsWith append]; intros H;
    try reflexivity; exact H.
Qed.

(** Every line feed followed by two spaces is replaced by one space, and the
    text before and after it is normalised on its own. *)
Lemma replaceIndent_app_indent (a b : string) :
  replaceIndent (a ++ String LF (String SP (String SP b))) = replaceIndent a ++ String SP (replaceIndent b).
Proof.
  remember (String.length a) as n eqn:Hn.
  revert a Hn. induction n as [n IH] using lt_wf_ind. intros a Hn.
  destruct a as [|c0 tl]; [reflexivity|].
  destruct (Ascii.eqb c0 LF && startsWith "  " tl) eqn:Hm.
  - apply andb_true_iff in Hm as [Hc Hs].
    apply Ascii.eqb_eq in Hc. apply startsWith_two_spaces in Hs as [rest ->].
    subst c0. cbn [append]. rewrite !replaceIndent_match. cbn [append].
    f_equal. apply (IH (String.length rest)); [simpl in Hn; lia|reflexivity].
  - cbn [append]. rewrite !replaceIndent_no_match; trivial.
    + cbn [append]. f_equal.
      apply (IH (String.length tl)); [simpl in Hn; lia|reflexivity].
    + apply andb_false_iff in Hm as [Hc|Hs]; [now rewrite Hc|].
      rewrite (startsWith_two_spaces_app_LF tl _ Hs). apply andb_false_r.
Qed.

(** A line feed that is not followed by two spaces stays. *)
Lemma replaceIndent_app_LF (a b : string) :
  startsWith "  " b = false ->
  replaceIndent (a ++ String LF b) = replaceIndent a ++ String LF (replaceIndent b).
Proof.
  intros Hb.
  remember (String.length a) as n eqn:Hn.
  revert a Hn. induction n as [n IH] using lt_wf_ind. intros a Hn.
  destruct a as [|c0 tl].
  - cbn [append]. apply replaceIndent_no_match. rewrite Hb. apply andb_false_r.
  - destruct (Ascii.eqb c0 LF && startsWith "  " tl) eqn:Hm.
    + apply andb_true_iff in Hm as [Hc Hs].
      apply Ascii.eqb_eq in Hc. apply startsWith_two_spaces in Hs as [rest ->].
      subst c0. cbn [append]. rewrite !replaceIndent_match. cbn [append].
      f_equal. apply (IH (String.length rest)); [simpl in Hn; lia|reflexivity].
    + cbn [append]. rewrite !replaceIndent_no_match; trivial.
      * cbn [append]. f_equal.
        apply (IH (String.length tl)); [simpl in Hn; lia|reflexivity].
      * apply andb_false_iff in Hm as [Hc|Hs]; [now rewrite Hc|].
        rewrite (startsWith_two_spaces_app_LF tl _ Hs). apply andb_false_r.
Qed.

(** A text without line feed is left as it is. *)
Lemma replaceIndent_no_LF (s : string) :
  includes (char LF) s = false -> replaceIndent s = s.
Proof.
  induction s as [|c s IH]; [reflexivity|].
  rewrite includes_char_cons. intros H. apply orb_false_iff in H as [Hc Hs].
  rewrite replaceIndent_no_match; [now rewrite IH|].
  now rewrite Ascii.eqb_sym, Hc.
Qed.

Lemma includes_char_app (x : ascii) (a b : string) :
  includes (char x) (a ++ b) = includes (char x) a || includes (char x) b.
Proof.
  induction a as [|c a IH].
  - destruct b; reflexivity.
  - cbn [append]. rewrite !includes_char_cons, IH. apply orb_assoc.
Qed.

End ReplaceFacts.


(** ** The matcher decides the language of a pattern *)

Module RegExpFacts.
Import JsString JsStringFacts JsRegExp.

Lemma append_eq_nil (s1 s2 : string) : s1 ++ s2 = "" -> s1 = "" /\ s2 = "".
Proof. destruct s1; cbn [append]; [intros ->; now split|discriminate]. Qed.

Lemma nullable_Matches (r : regex) : nullable r = true <-> Matches r "".
Proof.
  induction r as [| |k|r1 IH1 r2 IH2|r1 IH1 r2 IH2|r IH]; cbn [nullable].
  - split; [discriminate|]. intros H. inversion H.
  - split; [constructor|reflexivity].
  - split; [discriminate|]. intros H. inversion H.
  - rewrite andb_true_iff, IH1, IH2. split.
    + intros [H1 H2]. exact (MCat r1 r2 "" "" H1 H2).
    + intros H. inversion H as [| |? ? s1 s2 H1 H2 Hr Hs| | | |]; subst.
      apply append_eq_nil in Hs as [-> ->]. now split.
  - rewrite orb_true_iff, IH1, IH2. split.
    + intros [H|H]; [now apply MAltL|now apply MAltR].
    + intros H. inversion H; subst; [now left|now right].
  - split; [constructor|reflexivity].
Qed.

(** A non-empty match of [r*] starts with a non-empty match of [r]. *)
Lemma Matches_Star_cons (r : regex) (c : ascii) (s : string) :
  Matches (Star r) (String c s) ->
  exists s1 s2, s = s1 ++ s2 /\ Matches r (String c s1) /\ Matches (Star r) s2.
Proof.
  intros H. remember (Star r) as r' eqn:Hr. remember (String c s) as s' eqn:Hs.
  revert s Hs.
  induction H as [| | | | | |r0 s1 s2 H1 _ H2 IH2]; try discriminate.
  injection Hr as ->. intros s Hs.
  destruct s1 as [|c1 s1].
  - now apply IH2.
  - cbn [append] in Hs. injection Hs as -> <-. now exists s1, s2.
Qed.

Lemma deriv_Matches (c : ascii) (r : regex) :
  forall s, Matches (deriv c r) s <-> Matches r (String c s).
Proof.
  induction r as [| |k|r1 IH1 r2 IH2|r1 IH1 r2 IH2|r IH]; intros s; cbn [deriv].
  - split; intros H; inversion H.
  - split; intros H; inversion H.
  - destruct (inClass k c) eqn:Hk; split; intros H; inversion H; subst.
    + now constructor.
    + constructor.
    + congruence.
  - assert (Hcat : Matches (Cat (deriv c r1) r2) s <->
                   exists s1 s2, s = s1 ++ s2 /\ Matches r1 (String c s1)
                                 /\ Matches r2 s2).
    { split.
      - intros H. inversion H as [| |? ? s1 s2 H1 H2 Hr Hs| | | |]; subst.
        exists s1, s2. now rewrite <- IH1.
      - intros (s1 & s2 & -> & H1 & H2). constructor; [now apply IH1|assumption]. }
    assert (Hsplit : Matches (Cat r1 r2) (String c s) <->
                     (exists s1 s2, s = s1 ++ s2 /\ Matches r1 (String c s1)
                                    /\ Matches r2 s2)
                     \/ (Matches r1 "" /\ Matches r2 (String c s))).
    { split.
      - intros H. inversion H as [| |? ? s1 s2 H1 H2 Hr Hs| | | |]; subst.
        destruct s1 as [|c1 s1].
        + cbn [append] in Hs. subst s2. now right.
        + cbn [append] in Hs. injection Hs as -> <-. left. now exists s1, s2.
      - intros [(s1 & s2 & -> & H1 & H2)|[H1 H2]].
        + exact (MCat r1 r2 (String c s1) s2 H1 H2).
        + exact (MCat r1 r2 "" (String c s) H1 H2). }
    rewrite Hsplit. destruct (nullable r1) eqn:Hn.
    + split.
      * intros H. inversion H; subst; [left; now apply Hcat|right].
        split; [now apply nullable_Matches|now apply IH2].
      * intros [H|[_ H]]; [apply MAltL; now apply Hcat|apply MAltR; now apply IH2].
    + rewrite Hcat. split; [now left|]. intros [H|[H _]]; [assumption|].
      apply nullable_Matches in H. congruence.
  - split.
    + intros H. inversion H; subst; [apply MAltL; now apply IH1|apply MAltR; now apply IH2].
    + intros H. inversion H; subst; [apply MAltL; now apply IH1|apply MAltR; now apply IH2].
  - split.
    + intros H. inversion H as [| |? ? s1 s2 H1 H2 Hr Hs| | | |]; subst.
      apply IH in H1. exact (MStarApp r (String c s1) s2 H1 H2).
    + intros H. apply Matches_Star_cons in H as (s1 & s2 & -> & H1 & H2).
      constructor; [now apply IH|assumption].
Qed.

(** [fullMatch] decides membership in the language of the pattern. *)
Lemma fullMatch_Matches (r : regex) (s : string) :
  fullMatch r s = true <-> Matches r s.
Proof.
  revert r. induction s as [|c s IH]; intros r; cbn [fullMatch].
  - apply nullable_Matches.
  - rewrite IH. apply deriv_Matches.
Qed.

Lemma Matches_Cat (r1 r2 : regex) (s : string) :
  Matches (Cat r1 r2) s <->
  exists s1 s2, s = s1 ++ s2 /\ Matches r1 s1 /\ Matches r2 s2.
Proof.
  split.
  - intros H. inversion H as [| |? ? s1 s2 H1 H2 Hr Hs| | | |]; subst.
    now exists s1, s2.
  - intros (s1 & s2 & -> & H1 & H2). now constructor.
Qed.

Lemma Matches_Cls (k : cclass) (s : string) :
  Matches (Cls k) s <-> exists c, s = String c "" /\ inClass k c = true.
Proof.
  split.
  - intros H. inversion H; subst. now eexists.
  - intros (c & -> & H). now constructor.
Qed.

(** A literal matches itself only. *)
Lemma Matches_Str (lit s : string) : Matches (Str lit) s <-> s = lit.
Proof.
  revert s. induction lit as [|c lit IH]; intros s; cbn [Str].
  - split; [intros H; now inversion H|intros ->; constructor].
  - rewrite Matches_Cat. split.
    + intros (s1 & s2 & -> & H1 & H2). apply IH in H2. subst s2.
      apply Matches_Cls in H1 as (x & -> & Hx). cbn [inClass] in Hx.
      apply Ascii.eqb_eq in Hx. now subst.
    + intros ->. exists (String c ""), lit. split; [reflexivity|].
      split; [|now apply IH]. constructor. cbn [inClass]. apply Ascii.eqb_refl.
Qed.

Lemma Matches_Star_class (k : cclass) (s : string) :
  Matches (Star (Cls k)) s <-> allInClass k s = true.
Proof.
  split.
  - intros H. remember (Star (Cls k)) as r eqn:Hr.
    induction H as [| | | | | |r0 s1 s2 H1 _ H2 IH2]; try discriminate.
    + reflexivity.
    + injection Hr as ->. inversion H1; subst. cbn [append allInClass].
      apply andb_true_iff. split; [assumption|now apply IH2].
  - induction s as [|c s IH]; cbn [allInClass]; [constructor|].
    intros H. apply andb_true_iff in H as [Hc Hs].
    exact (MStarApp (Cls k) (String c "") s (MCls k c Hc) (IH Hs)).
Qed.

(** [k+] matches the non-empty strings of characters of the class [k]. *)
Lemma Matches_Plus_class (k : cclass) (s : string) :
  Matches (Plus (Cls k)) s <-> s <> "" /\ allInClass k s = true.
Proof.
  unfold Plus. rewrite Matches_Cat. split.
  - intros (s1 & s2 & -> & H1 & H2).
    apply Matches_Cls in H1 as (c & -> & Hc). apply Matches_Star_class in H2.
    split; [discriminate|]. cbn [append allInClass]. now rewrite Hc, H2.
  - intros [Hne H]. destruct s as [|c s]; [contradiction|].
    cbn [allInClass] in H. apply andb_true_iff in H as [Hc Hs].
    exists (String c ""), s. split; [reflexivity|].
    split; [now constructor|now apply Matches_Star_class].
Qed.

End RegExpFacts.

(** ** Effects *)

Module JsFacts.
Import Js Js.Notations.

Lemma world_eta (w : World) : mkWorld (fs w) (trace w) = w.
Proof. now destruct w. Qed.

(** A loop that only emits events returns, with one event per element. *)
Lemma forOf_emit {A} (f : A -> event) (l : list A) (w : World) :
  forOf l (fun x => emit (f x)) w =
  (Returned tt, mkWorld (fs w) (trace w ++ map f l)%list).
Proof.
  revert w. induction l as [|x l IH]; intros w; cbn [forOf map].
  - unfold ret. now rewrite app_nil_r, world_eta.
  - unfold bind, emit at 1. rewrite IH. cbn [fs trace].
    now rewrite <- app_assoc.
Qed.

End JsFacts.

(** ** The filter of validation messages *)

Module FilterFacts.
Import JsString JsStringFacts ReplaceFacts JsRegExp RegExpFacts.
Import Js Js.Notations JsFacts DoxygenRunner Spec Samples.

Lemma arrayIncludes_In (x : string) (l : list string) :
  arrayIncludes x l = true <-> In x l.
Proof.
  unfold arrayIncludes. rewrite existsb_exists. split.
  - intros (y & Hy & Heq). apply String.eqb_eq in Heq. now subst.
  - intros H. exists x. split; [assumption|apply String.eqb_refl].
Qed.

(** On a line of the text, "not among the filtered messages" is "does not
    match". *)
Lemma not_filtered_iff (p : string -> bool) (l : list string) (m : string) :
  In m l -> arrayIncludes m (filter p l) = p m.
Proof.
  intros Hin. destruct (p m) eqn:Hp.
  - apply arrayIncludes_In, filter_In. now split.
  - destruct (arrayIncludes m (filter p l)) eqn:Hi; [|reflexivity].
    apply arrayIncludes_In, filter_In in Hi as [_ Hi]. congruence.
Qed.

Lemma remaining_messages (p : string -> bool) (l : list string) :
  filter (fun m => negb (arrayIncludes m (filter p l)) && negb (String.eqb m "")) l
  = filter (fun m => negb (p m) && negb (String.eqb m "")) l.
Proof.
  apply filter_ext_in. intros m Hin. now rewrite not_filtered_iff.
Qed.

(** What [extractValidationMessages] returns and prints. *)
Lemma extract_eq (options : Options) (msg text : string) (w : World) :
  extractValidationMessages options (mkError msg (Some text)) w =
  (Returned (filter isWarning (errorMessagesOf text)),
   mkWorld (fs w)
     (trace w ++
      if debug options
      then map (fun m => ConsoleWarn ("🤔 " ++ m))
               (filter (fun m => negb (isWarning m) && negb (String.eqb m ""))
                       (errorMessagesOf text))
      else [])%list).
Proof.
  unfold extractValidationMessages. cbn [stderr]. unfold bind.
  destruct (debug options).
  - unfold console_warn.
    rewrite (forOf_emit (fun m => ConsoleWarn ("🤔 " ++ m))), remaining_messages.
    reflexivity.
  - unfold ret. now rewrite app_nil_r, world_eta.
Qed.

Lemma filter_Subsequence {A} (p : A -> bool) (l : list A) :
  Subsequence (filter p l) l.
Proof.
  induction l as [|x l IH]; cbn [filter]; [constructor|].
  destruct (p x); now constructor.
Qed.

Lemma count_occ_filter (p : string -> bool) (l : list string) (m : string) :
  count_occ string_dec (filter p l) m =
  if p m then count_occ string_dec l m else 0.
Proof.
  induction l as [|x l IH]; cbn [filter count_occ].
  - now destruct (p m).
  - destruct (string_dec x m) as [->|Hne].
    + destruct (p m) eqn:Hp; cbn [count_occ].
      * destruct (string_dec m m); [now rewrite IH|contradiction].
      * exact IH.
    + destruct (p x); cbn [count_occ]; [|exact IH].
      destruct (string_dec x m); [contradiction|exact IH].
Qed.

(** The lines the filter keeps: a locator without colon or line feed, a
    colon, digits, [": warning: "], and a text without line terminator, each
    of the three parts non-empty. *)
Lemma isWarning_shape (m : string) :
  isWarning m = true <->
  exists loc digits text,
    m = loc ++ ":" ++ digits ++ ": warning: " ++ text
    /\ loc <> "" /\ allInClass (NoneOf [":"%char; LF]) loc = true
    /\ digits <> "" /\ allInClass Digit digits = true
    /\ text <> "" /\ allInClass Dot text = true.
Proof.
  unfold isWarning, warningMessageRegex. rewrite fullMatch_Matches.
  rewrite Matches_Cat. split.
  - intros (loc & s1 & -> & Hloc & H).
    apply Matches_Cat in H as (colon & s2 & -> & Hcolon & H).
    apply Matches_Cat in H as (digits & s3 & -> & Hdigits & H).
    apply Matches_Cat in H as (warn & text & -> & Hwarn & Htext).
    apply Matches_Str in Hcolon, Hwarn. subst colon warn.
    apply Matches_Plus_class in Hloc as [? ?], Hdigits as [? ?], Htext as [? ?].
    exists loc, digits, text. repeat split; assumption.
  - intros (loc & digits & text & -> & ? & ? & ? & ? & ? & ?).
    exists loc, (":" ++ digits ++ ": warning: " ++ text).
    split; [reflexivity|]. split; [now apply Matches_Plus_class|].
    apply Matches_Cat. exists ":", (digits ++ ": warning: " ++ text).
    split; [reflexivity|]. split; [now apply Matches_Str|].
    apply Matches_Cat. exists digits, (": warning: " ++ text).
    split; [reflexivity|]. split; [now apply Matches_Plus_class|].
    apply Matches_Cat. exists ": warning: ", text.
    split; [reflexivity|]. split; [now apply Matches_Str|].
    now apply Matches_Plus_class.
Qed.

(** C3: the stderr text of testable property 3 yields exactly its two
    warnings, the first with its continuation line melded in, in the order of
    the text; "Random noise line" is not among them.  This holds with and
    without [debug], in every world. *)
Theorem extract_sample_text (options : Options) (msg : string) (w : World) :
  fst (extractValidationMessages options (mkError msg (Some rawErrorText)) w) =
  Returned
    ["a.h:10: warning: Parameter 'x' not documented (see declaration)";
     "b.h:20: warning: Undocumented return value"]
  /\ isWarning "Random noise line" = false
  /\ ~ In "Random noise line" (filter isWarning (errorMessagesOf rawErrorText)).
Proof.
  rewrite extract_eq. cbn [fst].
  split; [vm_compute; reflexivity|].
  split; [vm_compute; reflexivity|].
  intros H. apply filter_In in H as [_ H]. vm_compute in H. discriminate.
Qed.

(** C4: the messages returned are the lines of the normalised text that match
    the warning pattern: a subsequence of the lines, in their order, holding
    each matching line as many times as the text has it. *)
Theorem extract_keeps_matching_lines_in_order
        (options : Options) (msg text : string) (w : World) :
  exists msgs,
    fst (extractValidationMessages options (mkError msg (Some text)) w)
    = Returned msgs
    /\ msgs = filter isWarning (errorMessagesOf text)
    /\ Subsequence msgs (errorMessagesOf text)
    /\ (forall m, In m msgs <-> In m (errorMessagesOf text) /\ isWarning m = true)
    /\ (forall m, count_occ string_dec msgs m =
                  if isWarning m
                  then count_occ string_dec (errorMessagesOf text) m
                  else 0).
Proof.
  exists (filter isWarning (errorMessagesOf text)).
  rewrite extract_eq. cbn [fst].
  split; [reflexivity|]. split; [reflexivity|].
  split; [apply filter_Subsequence|].
  split; intros m; [apply filter_In|apply count_occ_filter].
Qed.

(** C5: with [debug] on and off the filter returns the same value.  Without
    [debug] the world is untouched; with [debug] the filesystem is untouched
    and the trace grows by one [console.warn] per line that neither matches
    nor is empty. *)
Theorem extract_result_independent_of_debug
        (options : Options) (error : JsError) (w : World) :
  fst (extractValidationMessages (withDebug true options) error w)
  = fst (extractValidationMessages (withDebug false options) error w)
  /\ snd (extractValidationMessages (withDebug false options) error w) = w
  /\ fs (snd (extractValidationMessages (withDebug true options) error w)) = fs w
  /\ trace (snd (extractValidationMessages (withDebug true options) error w))
     = (trace w ++
        match stderr error with
        | Some text =>
            map (fun m => ConsoleWarn ("🤔 " ++ m))
                (filter (fun m => negb (isWarning m) && negb (String.eqb m ""))
                        (errorMessagesOf text))
        | None => []
        end)%list.
Proof.
  destruct error as [msg [text|]].
  - rewrite !extract_eq. cbn [fst snd fs trace withDebug debug stderr].
    rewrite app_nil_r, world_eta. repeat split.
  - cbn [stderr]. unfold extractValidationMessages, throw. cbn [stderr fst snd].
    rewrite app_nil_r. repeat split.
Qed.

End FilterFacts.

(** ** Normalisation: what the specification says and what the code does *)

Module Normalisation.
Import JsString JsStringFacts ReplaceFacts DoxygenRunner Spec Samples.

(** C2, as the specification words it, fails: after a line feed followed by
    three spaces the code removes the line feed and two of the spaces, where
    "exactly two spaces" leaves the text as it is. *)
Lemma replaceIndent_three_spaces :
  leadingSpaces "   b" = 3
  /\ replaceExactlyTwo threeSpaces = threeSpaces
  /\ replaceIndent threeSpaces = "a  b"
  /\ replaceIndent threeSpaces <> replaceExactlyTwo threeSpaces.
Proof.
  split; [reflexivity|]. split; [reflexivity|]. split; [reflexivity|].
  vm_compute. discriminate.
Qed.

(** C2, amended: every line feed followed by two spaces is replaced, with
    these two spaces, by one space, whatever follows them; a line feed
    followed by fewer than two spaces stays; a text without line feed is
    unchanged; so a continuation line indented by two spaces is melded into
    the line before it when the text is split. *)
Theorem replaceIndent_melds_indented_lines (a b : string) :
  replaceIndent (a ++ nl ++ "  " ++ b) = replaceIndent a ++ " " ++ replaceIndent b
  /\ (startsWith "  " b = false ->
      replaceIndent (a ++ nl ++ b) = replaceIndent a ++ nl ++ replaceIndent b)
  /\ (includes nl a = false -> replaceIndent a = a)
  /\ (includes nl a = false -> includes nl b = false ->
      errorMessagesOf (a ++ nl ++ "  " ++ b) = [a ++ " " ++ b]).
Proof.
  change (a ++ nl ++ "  " ++ b) with (a ++ String LF (String SP (String SP b))).
  change (a ++ nl ++ b) with (a ++ String LF b).
  split; [apply replaceIndent_app_indent|].
  split; [apply replaceIndent_app_LF|].
  split; [apply replaceIndent_no_LF|].
  intros Ha Hb. unfold errorMessagesOf.
  rewrite replaceIndent_app_indent, (replaceIndent_no_LF a Ha), (replaceIndent_no_LF b Hb).
  apply split_no_sep. change (String SP b) with (char SP ++ b).
  rewrite !includes_char_app. unfold nl in Ha, Hb. now rewrite Ha, Hb.
Qed.

Lemma replaceIndent_melds_indented_lines_witness :
  startsWith "  " "(see declaration)" = false
  /\ includes nl "a.h:10: warning: Parameter 'x' not documented" = false
  /\ includes nl "(see declaration)" = false
  /\ errorMessagesOf ("a.h:10: warning: Parameter 'x' not documented" ++ nl ++
                      "  " ++ "(see declaration)")
     = ["a.h:10: warning: Parameter 'x' not documented" ++ " " ++ "(see declaration)"].
Proof.
  split; [reflexivity|]. split; [reflexivity|]. split; [reflexivity|].
  exact (proj2 (proj2 (proj2
    (replaceIndent_melds_indented_lines
       "a.h:10: warning: Parameter 'x' not documented" "(see declaration)")))
    eq_refl eq_refl).
Defined.

End Normalisation.

(** ** The generated configuration *)

Module ConfigFacts.
Import JsString Js DoxygenRunner.

Lemma get_GENERATE_XML (options : Options) :
  get "GENERATE_XML" (doxyFileOptions options)
  = Some (if outputXML options then "YES" else "NO").
Proof. reflexivity. Qed.

Lemma get_EXTRACT_PRIVATE (options : Options) :
  get "EXTRACT_PRIVATE" (doxyFileOptions options)
  = Some (if String.eqb (accessLevel options) "private" then "YES" else "NO").
Proof. reflexivity. Qed.

(** C9: [EXTRACT_PRIVATE] is [YES] exactly when the access level is
    ["private"], and [NO] otherwise (so for ["public"]); [EXTRACT_STATIC] is
    [NO] whatever the access level. *)
Theorem extract_private_iff_private (options : Options) :
  (get "EXTRACT_PRIVATE" (doxyFileOptions options) = Some "YES"
   <-> accessLevel options = "private")
  /\ (get "EXTRACT_PRIVATE" (doxyFileOptions options) = Some "NO"
      <-> accessLevel options <> "private")
  /\ (accessLevel options = "public" ->
      get "EXTRACT_PRIVATE" (doxyFileOptions options) = Some "NO")
  /\ get "EXTRACT_STATIC" (doxyFileOptions options) = Some "NO".
Proof.
  rewrite get_EXTRACT_PRIVATE.
  destruct (String.eqb_spec (accessLevel options) "private") as [He|Hne].
  - split; [now split|]. split; [split; [discriminate|contradiction]|].
    split; [|reflexivity]. intros Hp. rewrite Hp in He. discriminate.
  - split; [split; [discriminate|contradiction]|]. split; [now split|].
    split; reflexivity.
Qed.

End ConfigFacts.

(** ** The run: installation check, configuration, execution, output check *)

Module RunFacts.
Import JsString JsRegExp Js Js.Notations JsFacts.
Import Helpers DoxygenRunner Spec Samples ConfigFacts.

(** A match array of [matchLitThenGroup] has the whole match and the group. *)
Lemma matchLitThenGroup_length (lit s : string) (matches : list string) :
  matchLitThenGroup lit s = Some matches -> length matches = 2.
Proof.
  induction s as [|c s IH]; cbn [matchLitThenGroup].
  - destruct (afterPrefix lit "") as [rest|]; [|discriminate].
    destruct (takeClass Dot rest); [discriminate|].
    intros H. injection H as <-. reflexivity.
  - destruct (afterPrefix lit (String c s)) as [rest|]; [|exact IH].
    destruct (takeClass Dot rest); [exact IH|].
    intros H. injection H as <-. reflexivity.
Qed.

Lemma afterPrefix_Some (p s rest : string) :
  afterPrefix p s = Some rest <-> s = p ++ rest.
Proof.
  revert s. induction p as [|a p IH]; intros s; cbn [afterPrefix append].
  - split; [intros H; now injection H|now intros ->].
  - destruct s as [|b s]; [split; discriminate|].
    destruct (Ascii.eqb_spec a b) as [->|Hne].
    + rewrite IH. split; [now intros ->|intros H; now injection H].
    + split; [discriminate|]. intros H. injection H as <- _. contradiction.
Qed.

(** The pattern has no match exactly when the literal is nowhere followed by
    a character other than a line terminator. *)
Lemma matchLitThenGroup_None (lit s : string) :
  matchLitThenGroup lit s = None <->
  forall pre rest, s = pre ++ lit ++ rest -> takeClass Dot rest = "".
Proof.
  induction s as [|c s IH]; cbn [matchLitThenGroup].
  - split.
    + intros H pre rest Hs. destruct pre; [|discriminate]. cbn [append] in Hs.
      apply afterPrefix_Some in Hs. rewrite Hs in H.
      now destruct (takeClass Dot rest).
    + intros H. destruct (afterPrefix lit "") as [rest|] eqn:Ha; [|reflexivity].
      apply afterPrefix_Some in Ha. now rewrite (H "" rest Ha).
  - split.
    + intros H pre rest Hs. destruct pre as [|c' pre].
      * cbn [append] in Hs. apply afterPrefix_Some in Hs.
        rewrite Hs in H. now destruct (takeClass Dot rest).
      * cbn [append] in Hs. injection Hs as _ Hs.
        destruct (afterPrefix lit (String c s)) as [r|];
          [destruct (takeClass Dot r); [|discriminate]|];
          exact (proj1 IH H pre rest Hs).
    + intros H.
      assert (Hrec : matchLitThenGroup lit s = None).
      { apply IH. intros pre rest ->. exact (H (String c pre) rest eq_refl). }
      destruct (afterPrefix lit (String c s)) as [rest|] eqn:Ha; [|exact Hrec].
      apply afterPrefix_Some in Ha. now rewrite (H "" rest Ha).
Qed.

(** The [catch] block on a missing-library failure: either the pattern
    matches, the group is reported and the process exits with status 1, or
    the pattern does not match and reading [matches.length] throws.  The
    branch that reports "unknown" is never taken. *)
Lemma onRunError_missing_libs (options : Options) (error : JsError) (w : World) :
  includes missingLibsErrorMessage (message error) = true ->
  (exists whole group,
      matchLitThenGroup (missingLibsErrorMessage ++ " ") (message error)
      = Some [whole; group]
      /\ onRunError options error w =
         (Exited 1,
          mkWorld (fs w)
            (trace w ++
             [ConsoleError ("❌ Failed to run Doxygen due to missing libraries: "
                            ++ group)])%list))
  \/ (matchLitThenGroup (missingLibsErrorMessage ++ " ") (message error) = None
      /\ onRunError options error w =
         (Thrown (TypeError "Cannot read properties of null (reading 'length')"),
          w)).
Proof.
  intros Hinc. unfold onRunError. rewrite Hinc.
  destruct (matchLitThenGroup _ (message error)) as [matches|] eqn:Hm.
  - left. pose proof (matchLitThenGroup_length _ _ _ Hm) as Hlen.
    destruct matches as [|whole [|group [|? ?]]]; try discriminate.
    exists whole, group. split; reflexivity.
  - right. split; reflexivity.
Qed.

(** C1 (failing input): Doxygen fails with the marker and nothing after it.
    The pattern has no match, so [run] throws a [TypeError] instead of
    reporting "unknown" and exiting: nothing is printed on the console and
    the process does not exit. *)
Theorem run_bare_marker_throws :
  includes missingLibsErrorMessage (message bareMarkerError) = true
  /\ matchLitThenGroup (missingLibsErrorMessage ++ " ") (message bareMarkerError)
     = None
  /\ fst (run (sampleLib true true (Some bareMarkerError))
              (sampleOptions false false) staleWorld)
     = Thrown (TypeError "Cannot read properties of null (reading 'length')")
  /\ filter isConsole
       (trace (snd (run (sampleLib true true (Some bareMarkerError))
                        (sampleOptions false false) staleWorld)))
     = [].
Proof. repeat split; vm_compute; reflexivity. Qed.

(** With a library name after the marker the group is reported and the
    process exits with status 1. *)
Lemma run_missing_lib_reported :
  run (sampleLib true true (Some missingLibError)) (sampleOptions false false)
      emptyOutputWorld
  = (Exited 1,
     mkWorld
       (Fs.Dir [("build", Fs.Dir [("xml", Fs.Dir []); ("md", Fs.Dir [])]);
                ("src", Fs.Dir [("a.h", Fs.File "int f(int x);")]);
                ("doxygen.config",
                 Fs.File (renderConfig (doxyFileOptions (sampleOptions false false))))])
       [CallIsInstalled "1.9.8";
        CallCreateConfig (doxyFileOptions (sampleOptions false false))
                         "./doxygen.config";
        CallRun "./doxygen.config" "1.9.8";
        ConsoleError
          ("❌ Failed to run Doxygen due to missing libraries: " ++
           "libclang.so.9: cannot open shared object file")]).
Proof. vm_compute. reflexivity. Qed.

(** When the version is not installed and the download resolves to [false],
    [run] exits with status 1 after the installation check: the events of the
    run are those of the check, none of them a call of [createConfig], and
    the filesystem is the one the download attempt left. *)
Lemma run_exits_when_download_resolves_false
      (doxygen : Doxygen.Lib) (options : Options) (w : World) (t1 : Fs.node) :
  Doxygen.isDoxygenExecutableInstalled doxygen (doxygenVersion options) (fs w)
  = false ->
  Doxygen.downloadVersion doxygen (doxygenVersion options) (fs w)
  = (Returned false, t1) ->
  run doxygen options w =
  (Exited 1,
   mkWorld t1
     (trace w ++
      [CallIsInstalled (doxygenVersion options);
       ConsoleLog "Doxygen is not installed. Downloading ...";
       CallDownloadVersion (doxygenVersion options);
       ConsoleError "Failed to download Doxygen"])%list)
  /\ checkInstallation doxygen options w = (Exited 1, snd (run doxygen options w))
  /\ filter isCreateConfig (trace (snd (run doxygen options w)))
     = filter isCreateConfig (trace w).
Proof.
  intros Hinst Hdl.
  assert (Hc : checkInstallation doxygen options w =
               (Exited 1,
                mkWorld t1
                  (trace w ++
                   [CallIsInstalled (doxygenVersion options);
                    ConsoleLog "Doxygen is not installed. Downloading ...";
                    CallDownloadVersion (doxygenVersion options);
                    ConsoleError "Failed to download Doxygen"])%list)).
  { unfold checkInstallation, bind, syscall, console_log, console_error, emit, exit.
    cbn [fs trace]. rewrite Hinst. cbn [negb fs trace]. rewrite Hdl.
    cbn [negb fs trace]. now rewrite <- !app_assoc. }
  assert (Hr : run doxygen options w =
               (Exited 1, snd (checkInstallation doxygen options w))).
  { unfold run. unfold bind at 1. now rewrite Hc. }
  rewrite Hr, Hc. cbn [snd trace].
  split; [reflexivity|]. split; [reflexivity|].
  rewrite filter_app. cbn [filter isCreateConfig]. apply app_nil_r.
Qed.

(** The installation check never calls [createConfig], whatever its outcome,
    and [run] goes on to [prepare] only when the check has returned. *)
Lemma checkInstallation_before_config
      (doxygen : Doxygen.Lib) (options : Options) (w : World) :
  (exists evs,
      trace (snd (checkInstallation doxygen options w)) = (trace w ++ evs)%list
      /\ filter isCreateConfig evs = [])
  /\ match fst (checkInstallation doxygen options w) with
     | Returned _ => True
     | Thrown e =>
         run doxygen options w = (Thrown e, snd (checkInstallation doxygen options w))
     | Exited c =>
         run doxygen options w = (Exited c, snd (checkInstallation doxygen options w))
     end.
Proof.
  split.
  - unfold checkInstallation, bind, syscall, console_log, console_error, emit,
      exit, ret. cbn [fs trace].
    destruct (Doxygen.isDoxygenExecutableInstalled doxygen _ (fs w)); cbn [negb].
    + eexists. split; reflexivity.
    + cbn [fs trace].
      destruct (Doxygen.downloadVersion doxygen _ (fs w)) as [[[]|e|c] t1];
        cbn [negb fs trace snd]; rewrite <- ?app_assoc;
        eexists; split; reflexivity.
  - destruct (checkInstallation doxygen options w) as [[[]|e|c] w1] eqn:Hc;
      cbn [fst snd]; [exact I| |];
      unfold run; unfold bind at 1; now rewrite Hc.
Qed.

(** When the download is rejected rather than resolved to [false], [run]
    throws the rejection, again before any call of [createConfig]. *)
Lemma run_throws_before_config_when_download_rejects
      (doxygen : Doxygen.Lib) (options : Options) (w : World) (t1 : Fs.node)
      (e : JsError) :
  Doxygen.isDoxygenExecutableInstalled doxygen (doxygenVersion options) (fs w)
  = false ->
  Doxygen.downloadVersion doxygen (doxygenVersion options) (fs w)
  = (Thrown e, t1) ->
  run doxygen options w =
  (Thrown e,
   mkWorld t1
     (trace w ++
      [CallIsInstalled (doxygenVersion options);
       ConsoleLog "Doxygen is not installed. Downloading ...";
       CallDownloadVersion (doxygenVersion options)])%list).
Proof.
  intros Hinst Hdl. unfold run. unfold bind at 1.
  unfold checkInstallation, bind, syscall, console_log, emit.
  cbn [fs trace]. rewrite Hinst. cbn [negb fs trace]. rewrite Hdl.
  now rewrite <- !app_assoc.
Qed.

(** C8 (as stated, refuted): the version is not installed and the download
    is rejected, as it is without network.  [run] throws the rejection; the
    process is not ended with a status, by [process.exit] or otherwise, and
    nothing is printed about the failure. *)
Lemma run_rejected_download_does_not_exit :
  Doxygen.isDoxygenExecutableInstalled Frames.rejectingLib "1.9.8" staleTree = false
  /\ Doxygen.downloadVersion Frames.rejectingLib "1.9.8" staleTree
     = (Thrown Frames.networkError, staleTree)
  /\ run Frames.rejectingLib (sampleOptions true false) staleWorld
     = (Thrown Frames.networkError,
        mkWorld staleTree
          [CallIsInstalled "1.9.8";
           ConsoleLog "Doxygen is not installed. Downloading ...";
           CallDownloadVersion "1.9.8"])
  /\ Frames.returns (fst (run Frames.rejectingLib (sampleOptions true false) staleWorld)) = false
  /\ (forall c, fst (run Frames.rejectingLib (sampleOptions true false) staleWorld)
                <> Exited c).
Proof. repeat split; try (vm_compute; reflexivity). intros c. vm_compute. discriminate. Qed.

(** C8 (amended): when the version is not installed and the download fails,
    whichever way, [run] ends inside the installation check: its events are
    those of the check, among them no call of [createConfig], no run of
    Doxygen and no call of Node's [fs] module, and the filesystem is the one
    the download attempt left.  How the run ends follows the download: a
    download that resolves to [false] is reported and the process exits with
    status 1; a rejected download is thrown on by [run], with no exit. *)
Theorem run_stops_before_config_when_download_fails
        (doxygen : Doxygen.Lib) (options : Options) (w : World)
        (r : outcome bool) (t1 : Fs.node) :
  Doxygen.isDoxygenExecutableInstalled doxygen (doxygenVersion options) (fs w)
  = false ->
  Doxygen.downloadVersion doxygen (doxygenVersion options) (fs w) = (r, t1) ->
  r <> Returned true ->
  exists evs,
    snd (run doxygen options w) = mkWorld t1 (trace w ++ evs)%list
    /\ checkInstallation doxygen options w
       = (match r with
          | Returned _ => Exited 1
          | Thrown e => Thrown e
          | Exited c => Exited c
          end, snd (run doxygen options w))
    /\ filter isCreateConfig evs = []
    /\ filter isRun evs = []
    /\ filter isFsCall evs = []
    /\ match r with
       | Returned _ =>
           fst (run doxygen options w) = Exited 1
           /\ evs = [CallIsInstalled (doxygenVersion options);
                     ConsoleLog "Doxygen is not installed. Downloading ...";
                     CallDownloadVersion (doxygenVersion options);
                     ConsoleError "Failed to download Doxygen"]
       | Thrown e =>
           fst (run doxygen options w) = Thrown e
           /\ evs = [CallIsInstalled (doxygenVersion options);
                     ConsoleLog "Doxygen is not installed. Downloading ...";
                     CallDownloadVersion (doxygenVersion options)]
       | Exited c =>
           fst (run doxygen options w) = Exited c
           /\ evs = [CallIsInstalled (doxygenVersion options);
                     ConsoleLog "Doxygen is not installed. Downloading ...";
                     CallDownloadVersion (doxygenVersion options)]
       end.
Proof.
  intros Hinst Hdl Hr.
  assert (Hc : checkInstallation doxygen options w =
               (match r with
                | Returned _ => Exited 1
                | Thrown e => Thrown e
                | Exited c => Exited c
                end,
                mkWorld t1
                  (trace w ++
                   [CallIsInstalled (doxygenVersion options);
                    ConsoleLog "Doxygen is not installed. Downloading ...";
                    CallDownloadVersion (doxygenVersion options)] ++
                   match r with
                   | Returned _ => [ConsoleError "Failed to download Doxygen"]
                   | _ => []
                   end)%list)).
  { unfold checkInstallation, bind, syscall, console_log, console_error, emit, exit.
    cbn [fs trace]. rewrite Hinst. cbn [negb fs trace]. rewrite Hdl.
    destruct r as [[|]|e|c]; [contradiction| | |];
      cbn [negb fs trace app]; now rewrite <- !app_assoc. }
  assert (Hrun : run doxygen options w =
                 (match r with
                  | Returned _ => Exited 1
                  | Thrown e => Thrown e
                  | Exited c => Exited c
                  end, snd (checkInstallation doxygen options w))).
  { unfold run. unfold bind at 1. rewrite Hc. now destruct r. }
  rewrite Hrun, Hc. cbn [fst snd].
  eexists. split; [reflexivity|]. split; [reflexivity|].
  destruct r as [b|e|c]; repeat split; reflexivity.
Qed.

Lemma run_stops_before_config_when_download_fails_witness :
  fst (run (sampleLib false false None) (sampleOptions true false) staleWorld)
  = Exited 1
  /\ filter isCreateConfig
       (trace (snd (run (sampleLib false false None) (sampleOptions true false)
                        staleWorld)))
     = [].
Proof.
  destruct (run_stops_before_config_when_download_fails
              (sampleLib false false None) (sampleOptions true false) staleWorld
              (Returned false) staleTree eq_refl eq_refl ltac:(discriminate))
    as (evs & Hw & _ & Hcfg & _ & _ & Hexit & _).
  split; [exact Hexit|]. rewrite Hw. exact Hcfg.
Defined.




(** [run] is [beforeOutputCheck] followed by the check of the XML output. *)
Lemma run_after_execution (doxygen : Doxygen.Lib) (options : Options) (w : World) :
  run doxygen options w =
  match beforeOutputCheck doxygen options w with
  | (Returned msgs, w3) =>
      ((if outputXML options then checkXMLOutput options else ret tt) ;;
       ret msgs) w3
  | (Thrown e, w') => (Thrown e, w')
  | (Exited c, w') => (Exited c, w')
  end.
Proof.
  unfold run, beforeOutputCheck, bind.
  destruct (checkInstallation doxygen options w) as [[[]|e|c] w1]; try reflexivity.
  destruct (prepare doxygen options w1) as [[[]|e|c] w2]; reflexivity.
Qed.

(** What [checkXMLOutput] does on a listed directory. *)
Lemma checkXMLOutput_eq (options : Options) (w : World) (es : list (string * Fs.node)) :
  xmlFolder options <> "" ->
  Fs.lookup (Fs.resolve (xmlFolder options)) (fs w) = Some (Fs.Dir es) ->
  checkXMLOutput options w =
  (if (length es =? 0)%nat then Exited 1 else Returned tt,
   mkWorld (fs w)
     (trace w ++
      FsReaddirSync (xmlFolder options) ::
      (if (length es =? 0)%nat
       then [ConsoleError ("❌ No XML files found in " ++ xmlFolder options ++ ".")]
       else if debug options
            then ConsoleLog ("✅ Found " ++ ofNat (length es) ++ " XML files.")
                 :: map (fun file => ConsoleLog ("📄 " ++ file)) (map fst es)
            else []))%list).
Proof.
  intros Hne Hdir. unfold checkXMLOutput, readdirSync.
  unfold bind at 1. unfold syscall.
  rewrite (proj2 (String.eqb_neq _ _) Hne), Hdir, length_map.
  destruct (length es =? 0)%nat.
  - unfold bind, console_error, emit, exit. cbn [fs trace].
    now rewrite <- app_assoc.
  - destruct (debug options).
    + unfold bind, console_log. unfold emit at 1. cbn [fs trace].
      rewrite (forOf_emit (fun file => ConsoleLog ("📄 " ++ file))).
      cbn [fs trace]. now rewrite <- !app_assoc.
    + reflexivity.
Qed.

(** C6: with XML output requested, once the execution has returned, [run]
    lists the XML folder; it exits with status 1 when the folder has no
    entry, and returns the messages when it has one.  The check leaves the
    filesystem as it is, what it adds to the trace after the listing is
    console output only, and its outcome is the same with and without
    [debug]. *)
Theorem run_checks_xml_output
        (doxygen : Doxygen.Lib) (options : Options) (w w3 : World)
        (msgs : list string) (es : list (string * Fs.node)) :
  outputXML options = true ->
  beforeOutputCheck doxygen options w = (Returned msgs, w3) ->
  xmlFolder options <> "" ->
  Fs.lookup (Fs.resolve (xmlFolder options)) (fs w3) = Some (Fs.Dir es) ->
  (es = [] -> fst (run doxygen options w) = Exited 1)
  /\ (es <> [] -> fst (run doxygen options w) = Returned msgs)
  /\ fst (checkXMLOutput (withDebug true options) w3)
     = fst (checkXMLOutput (withDebug false options) w3)
  /\ fs (snd (run doxygen options w)) = fs w3
  /\ exists evs,
       trace (snd (run doxygen options w))
       = (trace w3 ++ FsReaddirSync (xmlFolder options) :: evs)%list
       /\ forallb isConsole evs = true.
Proof.
  intros Hxml Hbefore Hne Hdir.
  rewrite run_after_execution, Hbefore, Hxml.
  unfold bind. rewrite (checkXMLOutput_eq options w3 es Hne Hdir).
  rewrite !(checkXMLOutput_eq (withDebug _ options) w3 es Hne Hdir).
  cbn [fst].
  destruct es as [|[x c] es].
  - cbn [length Nat.eqb fst snd fs trace].
    split; [reflexivity|]. split; [contradiction|]. split; [reflexivity|].
    split; [reflexivity|]. eexists. split; reflexivity.
  - cbn [length Nat.eqb fst snd fs trace]. unfold ret. cbn [fst snd fs trace].
    split; [discriminate|]. split; [reflexivity|]. split; [reflexivity|].
    split; [reflexivity|]. eexists. split; [reflexivity|].
    destruct (debug options); [|reflexivity].
    cbn [forallb isConsole andb map fst].
    clear Hdir. induction es as [|[y d] es IH]; [reflexivity|exact IH].
Qed.

Lemma run_checks_xml_output_witness :
  fst (run (sampleLib true true None) (sampleOptions true true) staleWorld)
  = Exited 1.
Proof.
  refine (proj1 (@run_checks_xml_output
                   (sampleLib true true None) (sampleOptions true true)
                   staleWorld _ [] [] eq_refl _ _ _) eq_refl);
    [vm_compute; reflexivity|discriminate|vm_compute; reflexivity].
Defined.

End RunFacts.

(** ** The filesystem *)

Module FsFacts.
Import JsString JsStringFacts Fs.

Lemma assoc_alterFirst (x : string) (g : node -> node) (es : list (string * node)) :
  assoc x (alterFirst x g es) = option_map g (assoc x es).
Proof.
  induction es as [|[y c] es IH]; [reflexivity|].
  cbn [alterFirst assoc]. destruct (String.eqb x y) eqn:E; cbn [assoc]; rewrite E.
  - reflexivity.
  - exact IH.
Qed.

Lemma alterFirst_ext (x : string) (g h : node -> node) (es : list (string * node)) :
  (forall c, g c = h c) -> alterFirst x g es = alterFirst x h es.
Proof.
  intros Hgh. induction es as [|[y c] es IH]; [reflexivity|].
  cbn [alterFirst]. destruct (String.eqb x y); [now rewrite Hgh|now rewrite IH].
Qed.

Lemma alterFirst_alterFirst (x : string) (g h : node -> node)
      (es : list (string * node)) :
  alterFirst x g (alterFirst x h es) = alterFirst x (fun c => g (h c)) es.
Proof.
  induction es as [|[y c] es IH]; [reflexivity|].
  cbn [alterFirst]. destruct (String.eqb x y) eqn:E; cbn [alterFirst]; rewrite E.
  - reflexivity.
  - now rewrite IH.
Qed.

Lemma alterFirst_id (x : string) (g : node -> node) (es : list (string * node))
      (c : node) :
  assoc x es = Some c -> g c = c -> alterFirst x g es = es.
Proof.
  intros Ha Hg. induction es as [|[y d] es IH]; [reflexivity|].
  cbn [alterFirst assoc] in *. destruct (String.eqb x y).
  - injection Ha as ->. now rewrite Hg.
  - now rewrite IH.
Qed.

Lemma assoc_app_None (x : string) (c : node) (es : list (string * node)) :
  assoc x es = None -> assoc x (es ++ [(x, c)]) = Some c.
Proof.
  induction es as [|[y d] es IH]; cbn [assoc app].
  - now rewrite String.eqb_refl.
  - destruct (String.eqb x y); [discriminate|exact IH].
Qed.

(** Looking up [p] after rewriting below [p]. *)
Lemma nodeAt_alterDir_app (p q : list string)
      (f : list (string * node) -> list (string * node)) (n : node) :
  nodeAt p (alterDir (p ++ q) f n) = option_map (alterDir q f) (nodeAt p n).
Proof.
  revert n. induction p as [|x p IH]; intros n; [reflexivity|].
  destruct n as [c|es]; [reflexivity|].
  cbn [app alterDir nodeAt]. rewrite assoc_alterFirst.
  destruct (assoc x es) as [c|]; [apply IH|reflexivity].
Qed.

Lemma nodeAt_alterDir (p : list string)
      (f : list (string * node) -> list (string * node)) (n : node)
      (es : list (string * node)) :
  nodeAt p n = Some (Dir es) -> nodeAt p (alterDir p f n) = Some (Dir (f es)).
Proof.
  intros Hl. pose proof (nodeAt_alterDir_app p [] f n) as H.
  rewrite app_nil_r, Hl in H. exact H.
Qed.

Lemma alterDir_twice (p : list string)
      (f g : list (string * node) -> list (string * node)) (n : node) :
  alterDir p g (alterDir p f n) = alterDir p (fun es => g (f es)) n.
Proof.
  revert n. induction p as [|x p IH]; intros [c|es]; try reflexivity.
  cbn [alterDir]. apply (f_equal Dir). rewrite alterFirst_alterFirst.
  apply alterFirst_ext. intros c. apply IH.
Qed.

(** Emptying a directory forgets what was rewritten below it. *)
Lemma alterDir_clear_below (p q : list string)
      (f : list (string * node) -> list (string * node)) (n : node) :
  alterDir p (fun _ => []) (alterDir (p ++ q) f n) = alterDir p (fun _ => []) n.
Proof.
  revert n. induction p as [|x p IH]; intros [c|es].
  - destruct q; reflexivity.
  - destruct q; reflexivity.
  - reflexivity.
  - cbn [app alterDir]. apply (f_equal Dir). rewrite alterFirst_alterFirst.
    apply alterFirst_ext. intros c. apply IH.
Qed.

Lemma alterDir_id (p : list string)
      (f : list (string * node) -> list (string * node)) (n : node)
      (es : list (string * node)) :
  nodeAt p n = Some (Dir es) -> f es = es -> alterDir p f n = n.
Proof.
  revert n. induction p as [|x p IH]; intros n Hl Hf.
  - cbn [nodeAt] in Hl. injection Hl as ->. cbn [alterDir]. now rewrite Hf.
  - destruct n as [c|es0]; [discriminate|]. cbn [nodeAt] in Hl.
    destruct (assoc x es0) as [c|] eqn:Ha; [|discriminate].
    cbn [alterDir]. apply (f_equal Dir). apply alterFirst_id with (c := c); [exact Ha|now apply IH].
Qed.

Lemma nodeAt_snoc (p : list string) (x : string) (n : node)
      (es : list (string * node)) :
  nodeAt p n = Some (Dir es) -> nodeAt (p ++ [x]) n = assoc x es.
Proof.
  revert n. induction p as [|y p IH]; intros n Hl.
  - cbn [nodeAt] in Hl. injection Hl as ->. cbn [app nodeAt].
    now destruct (assoc x es).
  - destruct n as [c|es0]; [discriminate|]. cbn [app nodeAt] in *.
    destruct (assoc y es0) as [c|]; [now apply IH|discriminate].
Qed.

Lemma unsnoc_snoc (p : list string) (x : string) : unsnoc (p ++ [x]) = Some (p, x).
Proof.
  induction p as [|y p IH]; [reflexivity|].
  cbn [app unsnoc]. rewrite IH.
  destruct (p ++ [x])%list eqn:E; [now destruct p|reflexivity].
Qed.

Lemma nodeAt_app (p q : list string) (n : node) :
  nodeAt (p ++ q) n =
  match nodeAt p n with Some c => nodeAt q c | None => None end.
Proof.
  revert n. induction p as [|x p IH]; intros n; [reflexivity|].
  destruct n as [s|es]; [reflexivity|]. cbn [app nodeAt].
  destruct (assoc x es) as [c|]; [apply IH|reflexivity].
Qed.

(** What lies below a path lies below a directory. *)
Lemma nodeAt_below (p r : list string) (t n : node) :
  nodeAt (p ++ r) t = Some n -> r <> [] -> exists es, nodeAt p t = Some (Dir es).
Proof.
  rewrite nodeAt_app. destruct (nodeAt p t) as [[s|es]|]; try discriminate.
  - destruct r; [contradiction|discriminate].
  - intros _ _. now exists es.
Qed.

(** *** Path resolution *)

(** A path that resolves leads where its names lead. *)
Lemma walk_fold (t : node) (comps cur p : list string) :
  walk t comps cur = Some p -> p = fold_left step comps cur.
Proof.
  revert cur. induction comps as [|c comps IH]; intros cur; cbn [walk fold_left].
  - destruct (nodeAt cur t); [now intros [= <-]|discriminate].
  - destruct (nodeAt cur t) as [[s|es]|]; try discriminate. apply IH.
Qed.

Lemma realpath_normalize (path : string) (t : node) (p : list string) :
  realpath path t = Some p -> p = normalize path.
Proof. apply walk_fold. Qed.

Lemma lookup_realpath (path : string) (t : node) :
  lookup (resolve path) t =
  match realpath path t with Some p => nodeAt p t | None => None end.
Proof. reflexivity. Qed.

Lemma lookup_nodeAt (path : string) (t n : node) :
  lookup (resolve path) t = Some n -> nodeAt (normalize path) t = Some n.
Proof.
  rewrite lookup_realpath. destruct (realpath path t) as [p|] eqn:Hw; [|discriminate].
  now rewrite (realpath_normalize _ _ _ Hw).
Qed.

(** Where the names lead nowhere, the path does not resolve. *)
Lemma lookup_missing (path : string) (t : node) :
  nodeAt (normalize path) t = None -> lookup (resolve path) t = None.
Proof.
  intros H. destruct (lookup (resolve path) t) as [n|] eqn:E; [|reflexivity].
  apply lookup_nodeAt in E. congruence.
Qed.

Lemma noDotDot_cons (c : string) (comps : list string) :
  noDotDot (c :: comps) = negb (String.eqb ".." c) && noDotDot comps.
Proof. unfold noDotDot. cbn [existsb]. now rewrite negb_orb. Qed.

Lemma step_plain (stack : list string) (c : string) :
  String.eqb ".." c = false ->
  step stack c = stack \/ step stack c = (stack ++ [c])%list.
Proof.
  intros H. unfold step. rewrite String.eqb_sym in H. rewrite H.
  destruct (String.eqb c "" || String.eqb c "."); auto.
Qed.

(** Without [..] the names only grow. *)
Lemma fold_step_plain (comps cur : list string) :
  noDotDot comps = true -> exists r, fold_left step comps cur = (cur ++ r)%list.
Proof.
  revert cur. induction comps as [|c comps IH]; intros cur Hp.
  - exists []. now rewrite app_nil_r.
  - rewrite noDotDot_cons in Hp. apply andb_true_iff in Hp as [Hc Hp].
    apply negb_true_iff in Hc. cbn [fold_left].
    destruct (step_plain cur c Hc) as [-> | ->]; [now apply IH|].
    destruct (IH (cur ++ [c])%list Hp) as [r Hr]. exists (c :: r).
    now rewrite Hr, <- app_assoc.
Qed.

(** Without [..], a path resolves as soon as its names lead to a directory. *)
Lemma walk_plain (t : node) (comps cur : list string) (es : list (string * node)) :
  noDotDot comps = true ->
  nodeAt (fold_left step comps cur) t = Some (Dir es) ->
  walk t comps cur = Some (fold_left step comps cur).
Proof.
  revert cur. induction comps as [|c comps IH]; intros cur Hp Hn.
  - cbn [walk fold_left] in *. now rewrite Hn.
  - assert (Hcur : exists es', nodeAt cur t = Some (Dir es')).
    { destruct (fold_step_plain (c :: comps) cur Hp) as [r Hr].
      rewrite Hr in Hn. destruct r as [|y r].
      - rewrite app_nil_r in Hn. now exists es.
      - apply (nodeAt_below cur (y :: r) t (Dir es) Hn). discriminate. }
    destruct Hcur as [es' Hcur]. cbn [walk fold_left] in *. rewrite Hcur.
    rewrite noDotDot_cons in Hp. apply andb_true_iff in Hp as [_ Hp].
    now apply IH.
Qed.

Lemma realpath_plain (path : string) (t : node) (es : list (string * node)) :
  noDotDot (resolve path) = true ->
  nodeAt (normalize path) t = Some (Dir es) ->
  realpath path t = Some (normalize path).
Proof. intros Hp Hn. exact (walk_plain t (resolve path) [] es Hp Hn). Qed.

Lemma lookup_plain (path : string) (t : node) (es : list (string * node)) :
  noDotDot (resolve path) = true ->
  nodeAt (normalize path) t = Some (Dir es) ->
  lookup (resolve path) t = Some (Dir es).
Proof.
  intros Hp Hn. now rewrite lookup_realpath, (realpath_plain path t es Hp Hn).
Qed.

Lemma walk_app (t : node) (cs cs' cur : list string) :
  walk t (cs ++ cs') cur =
  match walk t cs cur with Some p => walk t cs' p | None => None end.
Proof.
  revert cur. induction cs as [|c cs IH]; intros cur; cbn [app walk].
  - destruct (nodeAt cur t) as [n|] eqn:E; [reflexivity|].
    destruct cs'; cbn [walk]; now rewrite E.
  - destruct (nodeAt cur t) as [[s|es]|]; try reflexivity. apply IH.
Qed.

Lemma validName_inv (x : string) :
  validName x = true ->
  String.eqb x "" = false /\ String.eqb x "." = false
  /\ String.eqb x ".." = false /\ includes "/" x = false.
Proof.
  unfold validName. intros Hv.
  apply andb_true_iff in Hv as [Hv Hslash].
  apply andb_true_iff in Hv as [Hv Hdd].
  apply andb_true_iff in Hv as [He Hd].
  apply negb_true_iff in Hslash, Hdd, He, Hd. auto.
Qed.

Lemma step_name (stack : list string) (x : string) :
  validName x = true -> step stack x = (stack ++ [x])%list.
Proof.
  intros Hv. destruct (validName_inv x Hv) as (He & Hd & Hdd & _).
  unfold step. now rewrite He, Hd, Hdd.
Qed.

(** The path of an entry of [dir]. *)
Lemma resolve_child (dir x : string) :
  validName x = true -> resolve (dir ++ "/" ++ x) = (resolve dir ++ [x])%list.
Proof.
  intros Hv. destruct (validName_inv x Hv) as (_ & _ & _ & Hslash).
  unfold resolve. change (dir ++ "/" ++ x) with (dir ++ String "/" x).
  now rewrite split_app, (split_no_sep _ _ Hslash).
Qed.

Lemma normalize_child (dir x : string) :
  validName x = true -> normalize (dir ++ "/" ++ x) = (normalize dir ++ [x])%list.
Proof.
  intros Hv. unfold normalize. rewrite (resolve_child dir x Hv), fold_left_app.
  cbn [fold_left]. now apply step_name.
Qed.

Lemma noDotDot_child (dir x : string) :
  validName x = true -> noDotDot (resolve dir) = true ->
  noDotDot (resolve (dir ++ "/" ++ x)) = true.
Proof.
  intros Hv Hp. destruct (validName_inv x Hv) as (_ & _ & Hdd & _).
  unfold noDotDot in *. rewrite (resolve_child dir x Hv), existsb_app.
  apply negb_true_iff in Hp. rewrite Hp. cbn [existsb orb].
  now rewrite String.eqb_sym, Hdd.
Qed.

Lemma lastComponent_child (dir x : string) :
  validName x = true -> lastComponent (resolve (dir ++ "/" ++ x)) = x.
Proof.
  intros Hv. destruct (validName_inv x Hv) as (He & _).
  unfold lastComponent. rewrite (resolve_child dir x Hv), filter_app.
  cbn [filter]. rewrite He. cbn [negb]. apply last_last.
Qed.

(** An entry of a directory that resolves without [..] resolves. *)
Lemma realpath_entry (dir x : string) (t : node) (es : list (string * node))
      (c : node) :
  noDotDot (resolve dir) = true ->
  nodeAt (normalize dir) t = Some (Dir es) ->
  assoc x es = Some c -> validName x = true ->
  realpath (dir ++ "/" ++ x) t = Some (normalize dir ++ [x])%list.
Proof.
  intros Hp Hdir Hx Hv. unfold realpath.
  rewrite (resolve_child dir x Hv), walk_app.
  fold (realpath dir t). rewrite (realpath_plain dir t es Hp Hdir).
  cbn [walk]. rewrite Hdir, (step_name _ x Hv), (nodeAt_snoc _ x _ _ Hdir), Hx.
  reflexivity.
Qed.

Lemma lookup_entry (dir x : string) (t : node) (es : list (string * node))
      (c : node) :
  noDotDot (resolve dir) = true ->
  nodeAt (normalize dir) t = Some (Dir es) ->
  assoc x es = Some c -> validName x = true ->
  lookup (resolve (dir ++ "/" ++ x)) t = Some c.
Proof.
  intros Hp Hdir Hx Hv.
  rewrite lookup_realpath, (realpath_entry dir x t es c Hp Hdir Hx Hv).
  now rewrite (nodeAt_snoc _ x _ _ Hdir).
Qed.

(** Without [..], the recursive [mkdir] is [mkdir -p] of the names. *)
Lemma mkdirWalk_plain (comps cur : list string) (t : node) :
  noDotDot comps = true ->
  mkdirWalk comps cur t =
  match mkdirP (fold_left step comps cur) t with
  | Some t' => (true, t')
  | None => (false, t)
  end.
Proof.
  revert cur. induction comps as [|c comps IH]; intros cur Hp; [reflexivity|].
  rewrite noDotDot_cons in Hp. apply andb_true_iff in Hp as [Hc Hp].
  apply negb_true_iff in Hc. cbn [mkdirWalk fold_left].
  rewrite String.eqb_sym, Hc. now apply IH.
Qed.

End FsFacts.

(** ** Clearing and creating directories *)

Module CleanFacts.
Import JsString JsStringFacts Fs FsFacts Js Js.Notations JsFacts Helpers Spec.

Lemma wfNames_cons (x : string) (c : node) (es : list (string * node)) :
  wfNames (Dir ((x, c) :: es)) = validName x && wfNames c && wfNames (Dir es).
Proof. reflexivity. Qed.

Lemma height_cons (x : string) (c : node) (es : list (string * node)) :
  height (Dir ((x, c) :: es)) = Nat.max (S (height c)) (height (Dir es)).
Proof. reflexivity. Qed.

Lemma height_Dir_pos (es : list (string * node)) : 1 <= height (Dir es).
Proof. destruct es as [|[x c] es]; cbn [height]; lia. Qed.

(** What a well-formed directory of height at most [S d] holds. *)
Lemma entries_bounds (d : nat) (es : list (string * node)) :
  wfNames (Dir es) = true -> height (Dir es) <= S d ->
  Forall (fun e => validName (fst e) = true /\ wfNames (snd e) = true
                   /\ height (snd e) <= d) es.
Proof.
  induction es as [|[x c] es IH]; [constructor|].
  rewrite wfNames_cons, height_cons. intros Hwf Hh.
  apply andb_true_iff in Hwf as [Hwf Hes]. apply andb_true_iff in Hwf as [Hx Hc].
  constructor; [cbn [fst snd]; repeat split; trivial; lia|].
  apply IH; [assumption|lia].
Qed.

Lemma height_assoc (x : string) (es : list (string * node)) (c : node) :
  assoc x es = Some c -> height c < height (Dir es).
Proof.
  induction es as [|[y d] es IH]; [discriminate|].
  cbn [assoc]. rewrite height_cons. destruct (String.eqb x y).
  - intros H. injection H as ->. lia.
  - intros H. specialize (IH H). lia.
Qed.

Lemma height_nodeAt (p : list string) (n c : node) :
  nodeAt p n = Some c -> height c <= height n.
Proof.
  revert n. induction p as [|x p IH]; intros n Hl.
  - cbn [nodeAt] in Hl. injection Hl as ->. lia.
  - destruct n as [s|es]; [discriminate|]. cbn [nodeAt] in Hl.
    destruct (assoc x es) as [c'|] eqn:Ha; [|discriminate].
    apply IH in Hl. apply height_assoc in Ha. lia.
Qed.

Lemma wfNames_assoc (x : string) (es : list (string * node)) (c : node) :
  wfNames (Dir es) = true -> assoc x es = Some c -> wfNames c = true.
Proof.
  induction es as [|[y d] es IH]; [discriminate|].
  rewrite wfNames_cons. cbn [assoc]. intros Hwf.
  apply andb_true_iff in Hwf as [Hwf Hes]. apply andb_true_iff in Hwf as [Hx Hd].
  destruct (String.eqb x y).
  - intros H. now injection H as <-.
  - now apply IH.
Qed.

Lemma wfNames_nodeAt (p : list string) (n c : node) :
  wfNames n = true -> nodeAt p n = Some c -> wfNames c = true.
Proof.
  revert n. induction p as [|x p IH]; intros n Hwf Hl.
  - cbn [nodeAt] in Hl. now injection Hl as <-.
  - destruct n as [s|es]; [discriminate|]. cbn [nodeAt] in Hl.
    destruct (assoc x es) as [c'|] eqn:Ha; [|discriminate].
    apply (IH c'); [|assumption]. exact (wfNames_assoc x es c' Hwf Ha).
Qed.

(** Where no regular file is on the path, the path is not a regular file. *)
Lemma noFileOnPath_nodeAt (p : list string) (n : node) (s : string) :
  noFileOnPath p n = true -> nodeAt p n <> Some (File s).
Proof.
  revert n. induction p as [|x p IH]; intros n Hn Hl.
  - cbn [nodeAt] in Hl. injection Hl as ->. discriminate.
  - destruct n as [s'|es]; [discriminate|]. cbn [nodeAt noFileOnPath] in *.
    destruct (assoc x es) as [c|]; [|discriminate]. exact (IH c Hn Hl).
Qed.

Lemma mkdirP_fresh (p : list string) :
  exists c, mkdirP p (Dir []) = Some c /\ nodeAt p c = Some (Dir []).
Proof.
  induction p as [|x p (c & Hc & Hl)]; [now exists (Dir [])|].
  exists (Dir [(x, c)]). cbn [mkdirP assoc]. rewrite Hc. split; [reflexivity|].
  cbn [nodeAt assoc]. now rewrite String.eqb_refl.
Qed.

(** [mkdir -p] of a missing path with no regular file on it makes it an empty
    directory. *)
Lemma mkdirP_missing (p : list string) (n : node) :
  nodeAt p n = None -> noFileOnPath p n = true ->
  exists n', mkdirP p n = Some n' /\ nodeAt p n' = Some (Dir []).
Proof.
  revert n. induction p as [|x p IH]; intros n Hl Hn; [discriminate|].
  destruct n as [s|es]; [discriminate|]. cbn [nodeAt noFileOnPath mkdirP] in *.
  destruct (assoc x es) as [c|] eqn:Ha.
  - destruct (IH c Hl Hn) as (c' & Hc' & Hl'). rewrite Hc'. cbn [option_map].
    eexists. split; [reflexivity|].
    cbn [nodeAt]. rewrite assoc_alterFirst, Ha. exact Hl'.
  - destruct (mkdirP_fresh p) as (c' & Hc' & Hl'). rewrite Hc'. cbn [option_map].
    eexists. split; [reflexivity|].
    cbn [nodeAt]. rewrite (assoc_app_None x c' es Ha). exact Hl'.
Qed.

(** *** The calls of Node's [fs] module, one equation each *)

Lemma bind_Returned {A B} (m : M A) (k : A -> M B) (w w' : World) (a : A) :
  m w = (Returned a, w') -> bind m k w = k a w'.
Proof. intros H. unfold bind. now rewrite H. Qed.

Lemma existsSync_eq (path : string) (w : World) :
  path <> "" ->
  existsSync path w =
  (Returned (match lookup (resolve path) (fs w) with Some _ => true | None => false end),
   mkWorld (fs w) (trace w ++ [FsExistsSync path])%list).
Proof.
  intros Hne. unfold existsSync, syscall.
  rewrite (proj2 (String.eqb_neq _ _) Hne).
  now destruct (lookup (resolve path) (fs w)).
Qed.

Lemma readdirSync_eq (path : string) (w : World) (es : list (string * node)) :
  path <> "" ->
  lookup (resolve path) (fs w) = Some (Dir es) ->
  readdirSync path w =
  (Returned (map fst es), mkWorld (fs w) (trace w ++ [FsReaddirSync path])%list).
Proof.
  intros Hne H. unfold readdirSync, syscall.
  now rewrite (proj2 (String.eqb_neq _ _) Hne), H.
Qed.

Lemma statSync_eq (path : string) (w : World) (n : node) :
  path <> "" ->
  lookup (resolve path) (fs w) = Some n ->
  statSync path w =
  (Returned n, mkWorld (fs w) (trace w ++ [FsStatSync path])%list).
Proof.
  intros Hne H. unfold statSync, syscall.
  now rewrite (proj2 (String.eqb_neq _ _) Hne), H.
Qed.

Lemma unlinkSync_eq (path : string) (w : World) (s : string)
      (parent : list string) (name : string) :
  path <> "" ->
  realpath path (fs w) = Some (parent ++ [name])%list ->
  nodeAt (parent ++ [name]) (fs w) = Some (File s) ->
  unlinkSync path w =
  (Returned tt,
   mkWorld (alterDir parent (removeFirst name) (fs w))
           (trace w ++ [FsUnlinkSync path])%list).
Proof.
  intros Hne H1 H2. unfold unlinkSync, syscall.
  now rewrite (proj2 (String.eqb_neq _ _) Hne), H1, H2, unsnoc_snoc.
Qed.

Lemma rmdirSync_eq (path : string) (w : World)
      (parent : list string) (name : string) :
  path <> "" ->
  lastComponent (resolve path) = name -> validName name = true ->
  realpath path (fs w) = Some (parent ++ [name])%list ->
  nodeAt (parent ++ [name]) (fs w) = Some (Dir []) ->
  rmdirSync path w =
  (Returned tt,
   mkWorld (alterDir parent (removeFirst name) (fs w))
           (trace w ++ [FsRmdirSync path])%list).
Proof.
  intros Hne Hlast Hv H1 H2. unfold rmdirSync, syscall.
  destruct (validName_inv name Hv) as (_ & Hd & Hdd & _).
  now rewrite (proj2 (String.eqb_neq _ _) Hne), H1, Hlast, Hd, Hdd, H2, unsnoc_snoc.
Qed.

Lemma mkdirSyncRecursive_eq (path : string) (w : World) (t : node) :
  path <> "" ->
  mkdirWalk (resolve path) [] (fs w) = (true, t) ->
  mkdirSyncRecursive path w =
  (Returned tt, mkWorld t (trace w ++ [FsMkdirSync path])%list).
Proof.
  intros Hne H. unfold mkdirSyncRecursive, syscall.
  now rewrite (proj2 (String.eqb_neq _ _) Hne), H.
Qed.

(** Without [..] in the path, the recursive [mkdir] makes the directories
    its names call for. *)
Lemma mkdirSyncRecursive_plain (path : string) (w : World) (t : node) :
  path <> "" -> noDotDot (resolve path) = true ->
  mkdirP (normalize path) (fs w) = Some t ->
  mkdirSyncRecursive path w =
  (Returned tt, mkWorld t (trace w ++ [FsMkdirSync path])%list).
Proof.
  intros Hne Hp Hmk. apply (mkdirSyncRecursive_eq path w t Hne).
  rewrite (mkdirWalk_plain _ _ _ Hp). fold (normalize path). now rewrite Hmk.
Qed.

Lemma child_path_not_empty (dir x : string) : dir ++ "/" ++ x <> "".
Proof. destruct dir; discriminate. Qed.

Lemma forallb_isFsCall_app (l1 l2 : list event) :
  forallb isFsCall l1 = true -> forallb isFsCall l2 = true ->
  forallb isFsCall (l1 ++ l2) = true.
Proof. intros H1 H2. now rewrite forallb_app, H1, H2. Qed.

(** The loop of [cleanDirectory] over the entries [rest] still in the
    directory, given that the calls one level down do what they should: it
    returns, and the directory is empty afterwards. *)
Lemma clean_entries (d : nat) (dir : string)
  (IHd : forall (dir' : string) (w : World) (es : list (string * node)),
      dir' <> "" -> noDotDot (resolve dir') = true ->
      nodeAt (normalize dir') (fs w) = Some (Dir es) ->
      wfNames (Dir es) = true -> height (Dir es) <= d ->
      exists evs,
        cleanDirectoryRec d dir' w =
        (Returned tt,
         mkWorld (alterDir (normalize dir') (fun _ => []) (fs w)) (trace w ++ evs)%list)
        /\ forallb isFsCall evs = true)
  (rest : list (string * node)) (w : World) :
  noDotDot (resolve dir) = true ->
  nodeAt (normalize dir) (fs w) = Some (Dir rest) ->
  Forall (fun e => validName (fst e) = true /\ wfNames (snd e) = true
                   /\ height (snd e) <= d) rest ->
  exists evs,
    forOf (map fst rest)
      (fun file =>
         stat <- statSync (dir ++ "/" ++ file) ;;
         if isDirectory stat then
           cleanDirectoryRec d (dir ++ "/" ++ file) ;;
           rmdirSync (dir ++ "/" ++ file)
         else
           unlinkSync (dir ++ "/" ++ file)) w =
    (Returned tt,
     mkWorld (alterDir (normalize dir) (fun _ => []) (fs w)) (trace w ++ evs)%list)
    /\ forallb isFsCall evs = true.
Proof.
  intros Hplain. revert w. induction rest as [|[x c] rest IH]; intros w Hdir Hall.
  - exists []. cbn [map forOf]. unfold ret.
    rewrite (alterDir_id _ _ _ _ Hdir eq_refl), app_nil_r, world_eta.
    now split.
  - inversion Hall as [|e rest' (Hx & Hc & Hh) Hrest]; subst e rest'.
    cbn [fst snd] in Hx, Hc, Hh. cbn [map fst forOf].
    pose proof (normalize_child dir x Hx) as Hpath.
    pose proof (noDotDot_child dir x Hx Hplain) as Hplain'.
    assert (Hx0 : assoc x ((x, c) :: rest) = Some c).
    { cbn [assoc]. now rewrite String.eqb_refl. }
    assert (Hnode : nodeAt (normalize dir ++ [x]) (fs w) = Some c).
    { now rewrite (nodeAt_snoc _ x _ _ Hdir). }
    pose proof (lookup_entry dir x (fs w) _ c Hplain Hdir Hx0 Hx) as Hlook.
    pose proof (realpath_entry dir x (fs w) _ c Hplain Hdir Hx0 Hx) as Hreal.
    pose proof (child_path_not_empty dir x) as Hne.
    set (path := dir ++ "/" ++ x) in *.
    set (w1 := mkWorld (fs w) (trace w ++ [FsStatSync path])%list).
    destruct c as [s|ces].
    + (* a regular file *)
      set (w2 := mkWorld (alterDir (normalize dir) (removeFirst x) (fs w1))
                         (trace w1 ++ [FsUnlinkSync path])%list).
      assert (Hbody :
        (stat <- statSync path ;;
         if isDirectory stat
         then cleanDirectoryRec d path ;; rmdirSync path
         else unlinkSync path) w = (Returned tt, w2)).
      { rewrite (bind_Returned _ _ _ _ _ (statSync_eq _ _ _ Hne Hlook)).
        cbn [isDirectory].
        exact (unlinkSync_eq path w1 s (normalize dir) x Hne Hreal Hnode). }
      destruct (IH w2) as (evs & Hloop & Hevs); [|exact Hrest|].
      { cbn [fs w2 w1]. rewrite (nodeAt_alterDir _ _ _ _ Hdir). cbn [removeFirst].
        now rewrite String.eqb_refl. }
      exists ([FsStatSync path; FsUnlinkSync path] ++ evs)%list.
      split; [|exact Hevs].
      rewrite (bind_Returned _ _ _ _ _ Hbody), Hloop. cbn [fs trace w2 w1].
      rewrite alterDir_twice, <- !app_assoc. reflexivity.
    + (* a directory *)
      assert (Hnode' : nodeAt (normalize path) (fs w1) = Some (Dir ces)).
      { now rewrite Hpath. }
      destruct (IHd path w1 ces Hne Hplain' Hnode' Hc Hh) as (evs1 & Hrec & Hevs1).
      set (w2 := mkWorld (alterDir (normalize path) (fun _ => []) (fs w1))
                         (trace w1 ++ evs1)%list) in *.
      set (w3 := mkWorld (alterDir (normalize dir) (removeFirst x) (fs w2))
                         (trace w2 ++ [FsRmdirSync path])%list).
      assert (Hempty : nodeAt (normalize path) (fs w2) = Some (Dir [])).
      { cbn [fs w2]. exact (nodeAt_alterDir _ (fun _ => []) _ _ Hnode'). }
      assert (Hbody :
        (stat <- statSync path ;;
         if isDirectory stat
         then cleanDirectoryRec d path ;; rmdirSync path
         else unlinkSync path) w = (Returned tt, w3)).
      { rewrite (bind_Returned _ _ _ _ _ (statSync_eq _ _ _ Hne Hlook)).
        cbn [isDirectory]. rewrite (bind_Returned _ _ _ _ _ Hrec).
        pose proof (realpath_plain path (fs w2) [] Hplain' Hempty) as Hreal2.
        rewrite Hpath in Hreal2, Hempty.
        exact (rmdirSync_eq path w2 (normalize dir) x Hne
                 (lastComponent_child dir x Hx) Hx Hreal2 Hempty). }
      destruct (IH w3) as (evs & Hloop & Hevs); [|exact Hrest|].
      { cbn [fs w3 w2 w1]. rewrite Hpath.
        erewrite nodeAt_alterDir;
          [|rewrite nodeAt_alterDir_app, Hdir; reflexivity].
        cbn [alterDir alterFirst]. rewrite String.eqb_refl.
        cbn [removeFirst]. now rewrite String.eqb_refl. }
      exists ([FsStatSync path] ++ evs1 ++ [FsRmdirSync path] ++ evs)%list.
      split.
      * rewrite (bind_Returned _ _ _ _ _ Hbody), Hloop. cbn [fs trace w3 w2 w1].
        rewrite alterDir_twice, Hpath, alterDir_clear_below, <- !app_assoc.
        reflexivity.
      * cbn [app forallb isFsCall andb].
        apply forallb_isFsCall_app; [exact Hevs1|exact Hevs].
Qed.

(** [cleanDirectory] on a well-formed directory whose path has no [..], with
    calls nested at most [depth] deep where the directory has height at most
    [depth]: it returns and leaves the directory empty and everything else
    as it was; all its events are calls of Node's [fs] module. *)
Lemma cleanDirectoryRec_spec (depth : nat) :
  forall (dir : string) (w : World) (es : list (string * node)),
    dir <> "" -> noDotDot (resolve dir) = true ->
    nodeAt (normalize dir) (fs w) = Some (Dir es) ->
    wfNames (Dir es) = true -> height (Dir es) <= depth ->
    exists evs,
      cleanDirectoryRec depth dir w =
      (Returned tt,
       mkWorld (alterDir (normalize dir) (fun _ => []) (fs w)) (trace w ++ evs)%list)
      /\ forallb isFsCall evs = true.
Proof.
  induction depth as [|d IHd]; intros dir w es Hne Hplain Hnode Hwf Hh.
  - pose proof (height_Dir_pos es). lia.
  - pose proof (lookup_plain dir (fs w) es Hplain Hnode) as Hdir.
    set (w1 := mkWorld (fs w) (trace w ++ [FsExistsSync dir])%list).
    set (w2 := mkWorld (fs w1) (trace w1 ++ [FsReaddirSync dir])%list).
    destruct (clean_entries d dir IHd es w2 Hplain Hnode (entries_bounds d es Hwf Hh))
      as (evs & Hloop & Hevs).
    exists ([FsExistsSync dir; FsReaddirSync dir] ++ evs)%list.
    split; [|exact Hevs].
    cbn [cleanDirectoryRec].
    rewrite (bind_Returned _ _ _ _ _ (existsSync_eq dir w Hne)), Hdir.
    rewrite (bind_Returned _ _ _ _ _ (readdirSync_eq dir w1 es Hne Hdir)).
    fold w1 w2. cbv zeta. rewrite Hloop. cbn [fs trace w2 w1].
    now rewrite <- !app_assoc.
Qed.

(** [cleanDirectory] never runs out of depth on a well-formed tree. *)
Lemma cleanDirectory_spec (dir : string) (w : World) (es : list (string * node)) :
  dir <> "" -> noDotDot (resolve dir) = true ->
  nodeAt (normalize dir) (fs w) = Some (Dir es) ->
  wfNames (fs w) = true ->
  exists evs,
    cleanDirectory dir w =
    (Returned tt,
     mkWorld (alterDir (normalize dir) (fun _ => []) (fs w)) (trace w ++ evs)%list)
    /\ forallb isFsCall evs = true.
Proof.
  intros Hne Hplain Hdir Hwf. unfold cleanDirectory.
  apply (cleanDirectoryRec_spec (S (height (fs w))) dir w es Hne Hplain Hdir).
  - exact (wfNames_nodeAt _ _ _ Hwf Hdir).
  - apply height_nodeAt in Hdir. lia.
Qed.

(** ... and does nothing where the path does not resolve. *)
Lemma cleanDirectory_missing (dir : string) (w : World) :
  dir <> "" ->
  lookup (resolve dir) (fs w) = None ->
  cleanDirectory dir w =
  (Returned tt, mkWorld (fs w) (trace w ++ [FsExistsSync dir])%list).
Proof.
  intros Hne Hdir. unfold cleanDirectory. cbn [cleanDirectoryRec].
  now rewrite (bind_Returned _ _ _ _ _ (existsSync_eq dir w Hne)), Hdir.
Qed.

Lemma createDirectories_existing (dir : string) (w : World) (n : node) :
  dir <> "" ->
  lookup (resolve dir) (fs w) = Some n ->
  createDirectories [dir] w =
  (Returned tt, mkWorld (fs w) (trace w ++ [FsExistsSync dir])%list).
Proof.
  intros Hne Hdir. unfold createDirectories. cbn [forOf].
  assert (Hbody :
    (present <- existsSync dir ;;
     if negb present then mkdirSyncRecursive dir else ret tt) w
    = (Returned tt, mkWorld (fs w) (trace w ++ [FsExistsSync dir])%list)).
  { now rewrite (bind_Returned _ _ _ _ _ (existsSync_eq dir w Hne)), Hdir. }
  now rewrite (bind_Returned _ _ _ _ _ Hbody).
Qed.

Lemma createDirectories_missing (dir : string) (w : World) (t : node) :
  dir <> "" -> noDotDot (resolve dir) = true ->
  lookup (resolve dir) (fs w) = None ->
  mkdirP (normalize dir) (fs w) = Some t ->
  createDirectories [dir] w =
  (Returned tt, mkWorld t (trace w ++ [FsExistsSync dir; FsMkdirSync dir])%list).
Proof.
  intros Hne Hplain Hdir Hmk. unfold createDirectories. cbn [forOf].
  set (w1 := mkWorld (fs w) (trace w ++ [FsExistsSync dir])%list).
  assert (Hbody :
    (present <- existsSync dir ;;
     if negb present then mkdirSyncRecursive dir else ret tt) w
    = (Returned tt, mkWorld t (trace w1 ++ [FsMkdirSync dir])%list)).
  { rewrite (bind_Returned _ _ _ _ _ (existsSync_eq dir w Hne)), Hdir. cbn [negb].
    exact (mkdirSyncRecursive_plain dir w1 t Hne Hplain Hmk). }
  rewrite (bind_Returned _ _ _ _ _ Hbody). unfold ret. cbn [trace w1].
  now rewrite <- app_assoc.
Qed.

(** Clearing and then creating, on a path without [..]: the directory exists
    and is empty. *)
Lemma clean_then_create (dir : string) (w : World) :
  dir <> "" -> noDotDot (resolve dir) = true ->
  wfNames (fs w) = true -> noFileOnPath (normalize dir) (fs w) = true ->
  exists w' evs,
    (cleanDirectory dir ;; createDirectories [dir]) w = (Returned tt, w')
    /\ nodeAt (normalize dir) (fs w') = Some (Dir [])
    /\ trace w' = (trace w ++ evs)%list
    /\ forallb isFsCall evs = true.
Proof.
  intros Hne Hplain Hwf Hno.
  destruct (nodeAt (normalize dir) (fs w)) as [[s|es]|] eqn:Hdir.
  - now apply noFileOnPath_nodeAt with (s := s) in Hno.
  - destruct (cleanDirectory_spec dir w es Hne Hplain Hdir Hwf) as (evs & Hclean & Hevs).
    pose proof (nodeAt_alterDir _ (fun _ => []) _ _ Hdir) as Hempty.
    cbv beta in Hempty.
    set (w1 := mkWorld (alterDir (normalize dir) (fun _ => []) (fs w))
                       (trace w ++ evs)%list) in *.
    eexists. exists (evs ++ [FsExistsSync dir])%list.
    rewrite (bind_Returned _ _ _ _ _ Hclean).
    rewrite (createDirectories_existing dir w1 (Dir []) Hne
               (lookup_plain dir (fs w1) [] Hplain Hempty)).
    cbn [fs trace]. split; [reflexivity|]. split; [exact Hempty|].
    split; [now rewrite app_assoc|].
    now apply forallb_isFsCall_app.
  - destruct (mkdirP_missing _ _ Hdir Hno) as (t & Hmk & Hempty).
    pose proof (lookup_missing dir (fs w) Hdir) as Hlook.
    eexists. exists [FsExistsSync dir; FsExistsSync dir; FsMkdirSync dir].
    rewrite (bind_Returned _ _ _ _ _ (cleanDirectory_missing dir w Hne Hlook)).
    rewrite (createDirectories_missing dir
               (mkWorld (fs w) (trace w ++ [FsExistsSync dir])%list) t
               Hne Hplain Hlook Hmk).
    cbn [fs trace]. split; [reflexivity|]. split; [exact Hempty|].
    split; [now rewrite <- app_assoc|reflexivity].
Qed.

Lemma no_run_among_fs_calls (evs : list event) :
  forallb isFsCall evs = true -> filter isRun evs = [].
Proof.
  induction evs as [|e evs IH]; [reflexivity|].
  cbn [forallb filter]. intros H. apply andb_true_iff in H as [He Hevs].
  destruct e; try discriminate; cbn [isRun]; now apply IH.
Qed.

End CleanFacts.

(** ** [prepare] with XML output *)

Module PrepareFacts.
Import JsString Fs FsFacts Js Js.Notations JsFacts Helpers CleanFacts.
Import DoxygenRunner Spec Samples Frames ConfigFacts.

Lemma bind_assoc {A B C} (m : M A) (f : A -> M B) (g : B -> M C) (w : World) :
  bind (bind m f) g w = bind m (fun a => bind (f a) g) w.
Proof. unfold bind. destruct (m w) as [[a|e|c] w']; reflexivity. Qed.

(** C7 (as stated, refuted): an XML folder named through a directory that is
    not there, [./nope/../build/xml].  The path does not resolve, so
    [cleanDirectory] deletes nothing; the recursive [mkdir] then creates
    [nope], [prepare] returns, and the path now resolves to the folder with
    every stale entry still in it. *)
Lemma prepare_keeps_stale_files_behind_missing_directory :
  outputXML dotDotOptions = true
  /\ nodeAt ["build"; "xml"] staleTree
     = Some (Dir [("index.xml", File "<doxygenindex/>");
                  ("old", Dir [("class_a.xml", File "<doxygen/>"); ("empty", Dir [])])])
  /\ lookup (resolve (xmlFolder dotDotOptions)) staleTree = None
  /\ fst (prepare (sampleLib true true None) dotDotOptions staleWorld) = Returned tt
  /\ filter isFsCall
       (trace (snd (prepare (sampleLib true true None) dotDotOptions staleWorld)))
     = [FsExistsSync "./nope/../build/xml"; FsExistsSync "./nope/../build/xml";
        FsMkdirSync "./nope/../build/xml"]
  /\ lookup (resolve (xmlFolder dotDotOptions))
       (fs (snd (prepare (sampleLib true true None) dotDotOptions staleWorld)))
     = Some (Dir [("index.xml", File "<doxygenindex/>");
                  ("old", Dir [("class_a.xml", File "<doxygen/>"); ("empty", Dir [])])])
  /\ nodeAt ["nope"]
       (fs (snd (prepare (sampleLib true true None) dotDotOptions staleWorld)))
     = Some (Dir []).
Proof. repeat split; vm_compute; reflexivity. Qed.

(** C7 (amended): with XML output requested and an XML folder whose path has
    no [..], once [createConfig] has returned on a well-formed tree where no
    regular file is on the path of the XML folder, [prepare] returns, and the
    XML folder exists and has no entry: whatever files and directories it
    held, however deep, are gone.  No event of [prepare] is a run of Doxygen,
    and [run] executes Doxygen in the world [prepare] returns. *)
Theorem prepare_clears_xml_folder
        (doxygen : Doxygen.Lib) (options : Options) (w : World) (t1 : node) :
  outputXML options = true ->
  xmlFolder options <> "" ->
  noDotDot (resolve (xmlFolder options)) = true ->
  Doxygen.createConfig doxygen (doxyFileOptions options)
    (doxygenConfigFile options) (fs w) = (Returned tt, t1) ->
  wfNames t1 = true ->
  noFileOnPath (normalize (xmlFolder options)) t1 = true ->
  exists w' evs,
    prepare doxygen options w = (Returned tt, w')
    /\ lookup (resolve (xmlFolder options)) (fs w') = Some (Dir [])
    /\ trace w' = (trace w ++ evs)%list
    /\ filter isRun evs = []
    /\ forall w0, checkInstallation doxygen options w0 = (Returned tt, w) ->
                  beforeOutputCheck doxygen options w0 = execute doxygen options w'.
Proof.
  intros Hxml Hne Hplain Hcfg Hwf Hno.
  set (pre := ((if debug options
                then [ConsoleLog ("🔧 Creating Doxygen config file "
                                  ++ doxygenConfigFile options ++ " ...")]
                else []) ++
               [CallCreateConfig (doxyFileOptions options) (doxygenConfigFile options)] ++
               (if debug options then [ConsoleLog "🏃 Running Doxygen ..."] else []))%list).
  set (w1 := mkWorld t1 (trace w ++ pre)%list).
  destruct (clean_then_create (xmlFolder options) w1 Hne Hplain Hwf Hno)
    as (w2 & evs & Hcc & Hempty & Htrace & Hevs).
  set (done := ConsoleLog ("🔨 Generating XML documentation at "
                           ++ xmlFolder options ++ " ...")).
  assert (Hprep : prepare doxygen options w =
                  (Returned tt, mkWorld (fs w2) (trace w2 ++ [done])%list)).
  { unfold prepare. rewrite get_GENERATE_XML, Hxml.
    change (String.eqb "YES" "YES") with true. cbv iota.
    assert (Hpre : forall (k : M unit),
      ((if debug options
        then console_log ("🔧 Creating Doxygen config file "
                          ++ doxygenConfigFile options ++ " ...")
        else ret tt) ;;
       syscall (CallCreateConfig (doxyFileOptions options) (doxygenConfigFile options))
         (Doxygen.createConfig doxygen (doxyFileOptions options)
            (doxygenConfigFile options)) ;;
       (if debug options then console_log "🏃 Running Doxygen ..." else ret tt) ;;
       k) w = k w1).
    { intros k. unfold bind, syscall, console_log, emit, ret, w1, pre.
      destruct (debug options); cbn [fs trace]; rewrite Hcfg; cbn [fs trace app];
        rewrite <- ?app_assoc; reflexivity. }
    rewrite Hpre. rewrite <- bind_assoc.
    rewrite (bind_Returned _ _ _ _ _ Hcc). reflexivity. }
  exists (mkWorld (fs w2) (trace w2 ++ [done])%list), (pre ++ evs ++ [done])%list.
  split; [exact Hprep|].
  split; [exact (lookup_plain (xmlFolder options) (fs w2) [] Hplain Hempty)|].
  split; [cbn [trace]; rewrite Htrace; cbn [trace w1]; now rewrite <- !app_assoc|].
  split.
  - rewrite !filter_app, (no_run_among_fs_calls evs Hevs). unfold pre.
    now destruct (debug options).
  - intros w0 Hcheck. unfold beforeOutputCheck.
    rewrite (bind_Returned _ _ _ _ _ Hcheck).
    now rewrite (bind_Returned _ _ _ _ _ Hprep).
Qed.

Lemma prepare_clears_xml_folder_witness :
  lookup (resolve "./build/xml/") staleTree
  = Some (Dir [("index.xml", File "<doxygenindex/>");
               ("old", Dir [("class_a.xml", File "<doxygen/>"); ("empty", Dir [])])])
  /\ lookup (resolve "./build/xml/")
       (fs (snd (prepare (sampleLib true true None) (sampleOptions true false)
                         staleWorld)))
     = Some (Dir []).
Proof.
  split; [reflexivity|].
  destruct (prepare_clears_xml_folder
              (sampleLib true true None) (sampleOptions true false) staleWorld
              (Dir [("build",
                     Dir [("xml",
                           Dir [("index.xml", File "<doxygenindex/>");
                                ("old", Dir [("class_a.xml", File "<doxygen/>");
                                             ("empty", Dir [])])]);
                          ("md", Dir [])]);
                    ("src", Dir [("a.h", File "int f(int x);")]);
                    ("doxygen.config",
                     File (renderConfig (doxyFileOptions (sampleOptions true false))))])
              eq_refl ltac:(discriminate) eq_refl eq_refl eq_refl eq_refl)
    as (w' & evs & Hprep & Hempty & _).
  rewrite Hprep. exact Hempty.
Defined.

End PrepareFacts.

(** ** The model at work *)

Module Examples.
Import JsString JsRegExp Js Fs DoxygenRunner Samples.

Example split_lines : split LF ("a" ++ nl ++ "b" ++ nl) = ["a"; "b"; ""].
Proof. reflexivity. Qed.

Example split_empty : split LF "" = [""].
Proof. reflexivity. Qed.

Example replaceIndent_sample :
  replaceIndent ("w" ++ nl ++ "  x" ++ nl ++ " y" ++ nl ++ "z")
  = "w x" ++ nl ++ " y" ++ nl ++ "z".
Proof. reflexivity. Qed.

Example isWarning_samples :
  map isWarning
      ["a.h:10: warning: x"; "src/a.h:7: warning: Member f (function)";
       "a.h:10: warning: "; ":10: warning: x"; "a.h:: warning: x";
       "a.h:1x: warning: y"; "a.h:10: error: x"; "C:/a.h:10: warning: x"; ""]
  = [true; true; false; false; false; false; false; false; false].
Proof. vm_compute. reflexivity. Qed.

Example normalize_samples :
  map normalize ["./build/xml/"; "./build/xml//index.xml"; "build/../src"; "."]
  = [["build"; "xml"]; ["build"; "xml"; "index.xml"]; ["src"]; []].
Proof. vm_compute. reflexivity. Qed.

(** What resolves on the stale tree: [..] needs a directory before it, and a
    final slash needs a directory. *)
Example realpath_samples :
  map (fun path => realpath path staleTree)
      ["./build/xml/"; "./build/xml//index.xml"; "./build/xml/index.xml/";
       "build/../src"; "nope/../src"; "src/a.h/../a.h"; "./src/a.h"; "."]
  = [Some ["build"; "xml"]; Some ["build"; "xml"; "index.xml"]; None;
     Some ["src"]; None; None; Some ["src"; "a.h"]; Some []].
Proof. vm_compute. reflexivity. Qed.

(** The recursive [mkdir] creates what is named before a [..]. *)
Example mkdirWalk_sample :
  mkdirWalk (resolve "nope/../src/lib") [] staleTree
  = (true,
     Dir [("build",
           Dir [("xml",
                 Dir [("index.xml", File "<doxygenindex/>");
                      ("old", Dir [("class_a.xml", File "<doxygen/>");
                                   ("empty", Dir [])])]);
                ("md", Dir [])]);
          ("src", Dir [("a.h", File "int f(int x);"); ("lib", Dir [])]);
          ("nope", Dir [])]).
Proof. vm_compute. reflexivity. Qed.

(** A run whose warnings make Doxygen fail returns them as data. *)
Example run_returns_warnings :
  fst (run (sampleLib true true (Some warningsError)) (sampleOptions false false)
           staleWorld)
  = Returned
      ["a.h:10: warning: Parameter 'x' not documented (see declaration)";
       "b.h:20: warning: Undocumented return value"].
Proof. vm_compute. reflexivity. Qed.

(** A clean run with stale XML output and Doxygen producing nothing: the
    stale files are cleared, and the empty folder ends the process. *)
Example run_clears_stale_output :
  run (sampleLib true true None) (sampleOptions true false) staleWorld
  = (Exited 1,
     mkWorld
       (Dir [("build", Dir [("xml", Dir []); ("md", Dir [])]);
             ("src", Dir [("a.h", File "int f(int x);")]);
             ("doxygen.config",
              File (renderConfig (doxyFileOptions (sampleOptions true false))))])
       [CallIsInstalled "1.9.8";
        CallCreateConfig (doxyFileOptions (sampleOptions true false))
                         "./doxygen.config";
        FsExistsSync "./build/xml/"; FsReaddirSync "./build/xml/";
        FsStatSync "./build/xml//index.xml"; FsUnlinkSync "./build/xml//index.xml";
        FsStatSync "./build/xml//old";
        FsExistsSync "./build/xml//old"; FsReaddirSync "./build/xml//old";
        FsStatSync "./build/xml//old/class_a.xml";
        FsUnlinkSync "./build/xml//old/class_a.xml";
        FsStatSync "./build/xml//old/empty";
        FsExistsSync "./build/xml//old/empty";
        FsReaddirSync "./build/xml//old/empty";
        FsRmdirSync "./build/xml//old/empty";
        FsRmdirSync "./build/xml//old";
        FsExistsSync "./build/xml/";
        ConsoleLog "🔨 Generating XML documentation at ./build/xml/ ...";
        CallRun "./doxygen.config" "1.9.8";
        FsReaddirSync "./build/xml/";
        ConsoleError "❌ No XML files found in ./build/xml/."]).
Proof. vm_compute. reflexivity. Qed.

End Examples.

(** ** More on the filesystem *)

Module FsFrames.
Import JsString JsStringFacts Fs FsFacts Frames.

Lemma assoc_alterFirst_other (x y : string) (g : node -> node)
      (es : list (string * node)) :
  String.eqb y x = false -> assoc y (alterFirst x g es) = assoc y es.
Proof.
  intros Hne. induction es as [|[z c] es IH]; [reflexivity|].
  cbn [alterFirst]. destruct (String.eqb_spec x z) as [->|Hxz]; cbn [assoc].
  - now rewrite Hne.
  - now rewrite IH.
Qed.

Lemma assoc_app_Some (y : string) (c : node) (es es' : list (string * node)) :
  assoc y es = Some c -> assoc y (es ++ es') = Some c.
Proof.
  induction es as [|[z d] es IH]; [discriminate|].
  cbn [assoc app]. destruct (String.eqb y z); [trivial|exact IH].
Qed.

Lemma assoc_app_other (x y : string) (c : node) (es : list (string * node)) :
  String.eqb y x = false -> assoc y (es ++ [(x, c)]) = assoc y es.
Proof.
  intros Hne. induction es as [|[z d] es IH]; cbn [assoc app].
  - now rewrite Hne.
  - destruct (String.eqb y z); [reflexivity|exact IH].
Qed.

(** Rewriting below [p] is not seen from a path that parts ways with [p]. *)
Lemma nodeAt_alterDir_diverges (p q : list string)
      (f : list (string * node) -> list (string * node)) (n : node) :
  diverges p q = true -> nodeAt q (alterDir p f n) = nodeAt q n.
Proof.
  revert q n. induction p as [|x p IH]; intros [|y q] n Hd; try discriminate.
  destruct n as [c|es]; [reflexivity|].
  cbn [diverges] in Hd. cbn [alterDir nodeAt].
  destruct (String.eqb_spec x y) as [->|Hxy].
  - rewrite assoc_alterFirst. destruct (assoc y es) as [c|]; [|reflexivity].
    cbn [option_map]. now apply IH.
  - rewrite assoc_alterFirst_other; [reflexivity|].
    apply String.eqb_neq. congruence.
Qed.

(** [mkdir -p] succeeds exactly where no regular file is on the path. *)
Lemma mkdirP_Some (p : list string) (n : node) :
  noFileOnPath p n = true -> exists n', mkdirP p n = Some n'.
Proof.
  revert n. induction p as [|x p IH]; intros [s|es] Hn; try discriminate.
  - now exists (Dir es).
  - cbn [noFileOnPath mkdirP] in *. destruct (assoc x es) as [c|].
    + destruct (IH c Hn) as (c' & ->). now eexists.
    + destruct (CleanFacts.mkdirP_fresh p) as (c' & -> & _). now eexists.
Qed.

Lemma mkdirP_None (p : list string) (n : node) :
  noFileOnPath p n = false -> mkdirP p n = None.
Proof.
  revert n. induction p as [|x p IH]; intros [s|es] Hn; try reflexivity;
    try discriminate.
  cbn [noFileOnPath mkdirP] in *. destruct (assoc x es) as [c|]; [|discriminate].
  now rewrite (IH c Hn).
Qed.

(** After [mkdir -p] the path is a directory. *)
Lemma mkdirP_nodeAt (p : list string) (n n' : node) :
  mkdirP p n = Some n' -> exists es, nodeAt p n' = Some (Dir es).
Proof.
  revert n n'. induction p as [|x p IH]; intros [s|es] n' Hm; try discriminate.
  - cbn [mkdirP] in Hm. injection Hm as <-. now exists es.
  - cbn [mkdirP] in Hm. destruct (assoc x es) as [c|] eqn:Ha.
    + destruct (mkdirP p c) as [c'|] eqn:Hc; [|discriminate].
      cbn [option_map] in Hm. injection Hm as <-.
      cbn [nodeAt]. rewrite assoc_alterFirst, Ha. cbn [option_map].
      exact (IH c c' Hc).
    + destruct (mkdirP p (Dir [])) as [c'|] eqn:Hc; [|discriminate].
      cbn [option_map] in Hm. injection Hm as <-.
      cbn [nodeAt]. rewrite (assoc_app_None x c' es Ha).
      exact (IH (Dir []) c' Hc).
Qed.

(** [mkdir -p] removes nothing: what was at a path is still there, a file
    with its content, a directory as a directory. *)
Lemma mkdirP_keeps (p : list string) (n n' : node) :
  mkdirP p n = Some n' ->
  forall q c, nodeAt q n = Some c ->
              exists c', nodeAt q n' = Some c' /\ sameKind c c'.
Proof.
  revert n n'. induction p as [|x p IH]; intros [s|es] n' Hm q c Hq;
    try discriminate.
  - cbn [mkdirP] in Hm. injection Hm as <-. exists c. split; [exact Hq|].
    now destruct c.
  - cbn [mkdirP] in Hm. destruct q as [|y q].
    + cbn [nodeAt] in Hq. injection Hq as <-.
      destruct (assoc x es); destruct (mkdirP p _); try discriminate;
        cbn [option_map] in Hm; injection Hm as <-; eexists;
        (split; [reflexivity|reflexivity]).
    + cbn [nodeAt] in Hq.
      destruct (assoc y es) as [d|] eqn:Hy; [|discriminate].
      destruct (String.eqb_spec y x) as [->|Hyx].
      * rewrite Hy in Hm. destruct (mkdirP p d) as [d'|] eqn:Hd; [|discriminate].
        cbn [option_map] in Hm. injection Hm as <-.
        cbn [nodeAt]. rewrite assoc_alterFirst, Hy. cbn [option_map].
        exact (IH d d' Hd q c Hq).
      * apply String.eqb_neq in Hyx.
        destruct (assoc x es) as [e|]; destruct (mkdirP p _) as [e'|];
          try discriminate; cbn [option_map] in Hm; injection Hm as <-;
          cbn [nodeAt].
        -- rewrite (assoc_alterFirst_other x y _ es Hyx), Hy.
           exists c. split; [exact Hq|now destruct c].
        -- rewrite (assoc_app_other x y e' es Hyx), Hy.
           exists c. split; [exact Hq|now destruct c].
Qed.

(** ... and puts no regular file on any path. *)
Lemma mkdirP_noFileOnPath (p : list string) (n n' : node) :
  mkdirP p n = Some n' ->
  forall q, noFileOnPath q n = true -> noFileOnPath q n' = true.
Proof.
  revert n n'. induction p as [|x p IH]; intros [s|es] n' Hm q Hq;
    try discriminate.
  - cbn [mkdirP] in Hm. now injection Hm as <-.
  - cbn [mkdirP] in Hm. destruct q as [|y q].
    + destruct (assoc x es); destruct (mkdirP p _); try discriminate;
        cbn [option_map] in Hm; now injection Hm as <-.
    + cbn [noFileOnPath] in Hq.
      destruct (String.eqb_spec y x) as [->|Hyx].
      * destruct (assoc x es) as [d|] eqn:Hx.
        -- destruct (mkdirP p d) as [d'|] eqn:Hd; [|discriminate].
           cbn [option_map] in Hm. injection Hm as <-.
           cbn [noFileOnPath]. rewrite assoc_alterFirst, Hx. cbn [option_map].
           exact (IH d d' Hd q Hq).
        -- destruct (mkdirP p (Dir [])) as [d'|] eqn:Hd; [|discriminate].
           cbn [option_map] in Hm. injection Hm as <-.
           cbn [noFileOnPath]. rewrite (assoc_app_None x d' es Hx).
           apply (IH (Dir []) d' Hd q). now destruct q.
      * apply String.eqb_neq in Hyx.
        destruct (assoc x es) as [e|]; destruct (mkdirP p _) as [e'|];
          try discriminate; cbn [option_map] in Hm; injection Hm as <-;
          cbn [noFileOnPath].
        -- now rewrite (assoc_alterFirst_other x y _ es Hyx).
        -- now rewrite (assoc_app_other x y e' es Hyx).
Qed.

Lemma sameKind_trans (a b c : node) : sameKind a b -> sameKind b c -> sameKind a c.
Proof.
  destruct a as [s|es]; cbn [sameKind].
  - intros ->. trivial.
  - destruct b as [s|es']; [discriminate|]. trivial.
Qed.

Lemma keeps_refl (t : node) : keeps t t.
Proof. intros q c Hq. exists c. split; [exact Hq|now destruct c]. Qed.

Lemma keeps_trans (t1 t2 t3 : node) : keeps t1 t2 -> keeps t2 t3 -> keeps t1 t3.
Proof.
  intros H12 H23 q c Hq. destruct (H12 q c Hq) as (c2 & Hq2 & Hk2).
  destruct (H23 q c2 Hq2) as (c3 & Hq3 & Hk3).
  exists c3. split; [exact Hq3|exact (sameKind_trans _ _ _ Hk2 Hk3)].
Qed.

(** The recursive [mkdir] removes nothing, on any path and whether or not it
    succeeds. *)
Lemma mkdirWalk_keeps (comps cur : list string) (t : node) :
  keeps t (snd (mkdirWalk comps cur t)).
Proof.
  revert cur t. induction comps as [|c comps IH]; intros cur t; cbn [mkdirWalk].
  - destruct (mkdirP cur t) as [t'|] eqn:Hm; cbn [snd];
      [exact (mkdirP_keeps _ _ _ Hm)|apply keeps_refl].
  - destruct (String.eqb c ".."); [|apply IH].
    destruct (mkdirP cur t) as [t'|] eqn:Hm; [|apply keeps_refl].
    exact (keeps_trans _ _ _ (mkdirP_keeps _ _ _ Hm) (IH _ t')).
Qed.

(** [mkdir -p] of a new entry [x] of the directory at [p]. *)
Lemma mkdirP_snoc_existing (p : list string) (x : string) (n : node)
      (es : list (string * node)) :
  nodeAt p n = Some (Dir es) -> assoc x es = None ->
  exists n', mkdirP (p ++ [x]) n = Some n'
             /\ nodeAt p n' = Some (Dir (es ++ [(x, Dir [])])).
Proof.
  revert n. induction p as [|y p IH]; intros n Hl Hx.
  - cbn [nodeAt] in Hl. injection Hl as ->. cbn [app mkdirP]. rewrite Hx.
    cbn [option_map]. now eexists.
  - destruct n as [s|es0]; [discriminate|]. cbn [nodeAt] in Hl.
    destruct (assoc y es0) as [c|] eqn:Hy; [|discriminate].
    destruct (IH c Hl Hx) as (c' & Hc' & Hl').
    cbn [app mkdirP]. rewrite Hy, Hc'. cbn [option_map]. eexists.
    split; [reflexivity|]. cbn [nodeAt]. now rewrite assoc_alterFirst, Hy.
Qed.

Lemma mkdirP_snoc_fresh (p : list string) (x : string) :
  exists c, mkdirP (p ++ [x]) (Dir []) = Some c
            /\ nodeAt p c = Some (Dir [(x, Dir [])]).
Proof.
  induction p as [|y p (c & Hc & Hl)]; [now eexists|].
  cbn [app mkdirP assoc]. rewrite Hc. cbn [option_map]. eexists.
  split; [reflexivity|]. cbn [nodeAt assoc app]. now rewrite String.eqb_refl.
Qed.

(** [mkdir -p] of [x] below a missing [p]: [p] is created with [x] alone. *)
Lemma mkdirP_snoc_missing (p : list string) (x : string) (n : node) :
  nodeAt p n = None -> noFileOnPath p n = true ->
  exists n', mkdirP (p ++ [x]) n = Some n'
             /\ nodeAt p n' = Some (Dir [(x, Dir [])]).
Proof.
  revert n. induction p as [|y p IH]; intros n Hl Hn; [discriminate|].
  destruct n as [s|es]; [discriminate|]. cbn [nodeAt noFileOnPath] in *.
  cbn [app mkdirP]. destruct (assoc y es) as [c|] eqn:Hy.
  - destruct (IH c Hl Hn) as (c' & Hc' & Hl'). rewrite Hc'. cbn [option_map].
    eexists. split; [reflexivity|]. cbn [nodeAt].
    now rewrite assoc_alterFirst, Hy.
  - destruct (mkdirP_snoc_fresh p x) as (c' & Hc' & Hl'). rewrite Hc'.
    cbn [option_map]. eexists. split; [reflexivity|]. cbn [nodeAt].
    now rewrite (assoc_app_None y c' es Hy).
Qed.

Lemma nodeAt_None_snoc (p : list string) (x : string) (n : node) :
  nodeAt p n = None -> nodeAt (p ++ [x]) n = None.
Proof.
  revert n. induction p as [|y p IH]; intros n Hl; [discriminate|].
  destruct n as [s|es]; [reflexivity|]. cbn [app nodeAt] in *.
  destruct (assoc y es) as [c|]; [now apply IH|reflexivity].
Qed.

(** [mkdir -p] is not seen from a path that parts ways with it. *)
Lemma nodeAt_mkdirP_diverges (p q : list string) (n n' : node) :
  mkdirP p n = Some n' -> diverges p q = true -> nodeAt q n' = nodeAt q n.
Proof.
  revert q n n'. induction p as [|x p IH]; intros [|y q] [s|es] n' Hm Hd;
    try discriminate.
  cbn [diverges] in Hd. cbn [mkdirP] in Hm. cbn [nodeAt].
  destruct (String.eqb_spec x y) as [->|Hxy].
  - destruct (assoc y es) as [c|] eqn:Hy.
    + destruct (mkdirP p c) as [c'|] eqn:Hc; [|discriminate].
      cbn [option_map] in Hm. injection Hm as <-.
      cbn [nodeAt]. rewrite assoc_alterFirst, Hy. cbn [option_map].
      exact (IH q c c' Hc Hd).
    + destruct (mkdirP p (Dir [])) as [c'|] eqn:Hc; [|discriminate].
      cbn [option_map] in Hm. injection Hm as <-.
      cbn [nodeAt]. rewrite (assoc_app_None y c' es Hy).
      rewrite (IH q (Dir []) c' Hc Hd).
      destruct q; [destruct p; discriminate|reflexivity].
  - assert (Hyx : String.eqb y x = false) by (apply String.eqb_neq; congruence).
    destruct (assoc x es) as [e|]; destruct (mkdirP p _) as [e'|];
      try discriminate; cbn [option_map] in Hm; injection Hm as <-;
      cbn [nodeAt].
    + now rewrite (assoc_alterFirst_other x y _ es Hyx).
    + now rewrite (assoc_app_other x y e' es Hyx).
Qed.

End FsFrames.

(** ** [cleanDirectory] and [createDirectories] on their own *)

Module HelperFacts.
Import JsString JsStringFacts Fs FsFacts Js Js.Notations JsFacts Helpers Spec.
Import CleanFacts Frames FsFrames Samples.

(** [cleanDirectory] on a directory whose path has no [..] and whose entries
    have valid names: it returns, the directory is still there and has no
    entry, and every path that parts ways with it holds what it held. *)
Theorem cleanDirectory_empties_and_frames
        (dir : string) (w : World) (es : list (string * node)) :
  dir <> "" -> noDotDot (resolve dir) = true ->
  lookup (resolve dir) (fs w) = Some (Dir es) ->
  wfNames (Dir es) = true ->
  fst (cleanDirectory dir w) = Returned tt
  /\ lookup (resolve dir) (fs (snd (cleanDirectory dir w))) = Some (Dir [])
  /\ forall q, diverges (normalize dir) q = true ->
               nodeAt q (fs (snd (cleanDirectory dir w))) = nodeAt q (fs w).
Proof.
  intros Hne Hplain Hdir Hwf. apply lookup_nodeAt in Hdir.
  destruct (cleanDirectoryRec_spec (S (height (fs w))) dir w es Hne Hplain Hdir Hwf)
    as (evs & Hclean & _).
  { apply height_nodeAt in Hdir. lia. }
  unfold cleanDirectory. rewrite Hclean. cbn [fst snd fs].
  split; [reflexivity|]. split.
  - apply (lookup_plain dir _ [] Hplain).
    exact (nodeAt_alterDir _ (fun _ => []) _ _ Hdir).
  - intros q Hq. now apply nodeAt_alterDir_diverges.
Qed.

Lemma cleanDirectory_empties_and_frames_witness :
  lookup (resolve "./build/xml/")
    (fs (snd (cleanDirectory "./build/xml/" staleWorld))) = Some (Dir [])
  /\ nodeAt ["src"; "a.h"]
       (fs (snd (cleanDirectory "./build/xml/" staleWorld)))
     = Some (File "int f(int x);").
Proof.
  destruct (cleanDirectory_empties_and_frames "./build/xml/" staleWorld
              [("index.xml", File "<doxygenindex/>");
               ("old", Dir [("class_a.xml", File "<doxygen/>"); ("empty", Dir [])])]
              ltac:(discriminate) eq_refl eq_refl eq_refl) as (_ & Hempty & Hframe).
  split; [exact Hempty|]. exact (Hframe ["src"; "a.h"] eq_refl).
Defined.

(** [cleanDirectory] where there is nothing (or on the empty path): it
    returns after the one test of existence and changes nothing. *)
Theorem cleanDirectory_missing_is_noop (dir : string) (w : World) :
  dir = "" \/ lookup (resolve dir) (fs w) = None ->
  cleanDirectory dir w =
  (Returned tt, mkWorld (fs w) (trace w ++ [FsExistsSync dir])%list).
Proof.
  intros H. unfold cleanDirectory. cbn [cleanDirectoryRec].
  unfold bind, existsSync, syscall.
  destruct H as [->|H]; [reflexivity|].
  destruct (String.eqb dir ""); [reflexivity|]. now rewrite H.
Qed.

Lemma cleanDirectory_missing_is_noop_witness :
  fs (snd (cleanDirectory "./build/xml/" (mkWorld bareTree []))) = bareTree.
Proof.
  now rewrite (cleanDirectory_missing_is_noop "./build/xml/" (mkWorld bareTree [])
                 (or_intror eq_refl)).
Defined.

(** [cleanDirectory] on a regular file: the listing throws, nothing is
    deleted. *)
Theorem cleanDirectory_on_file_throws (dir : string) (w : World) (s : string) :
  dir <> "" ->
  lookup (resolve dir) (fs w) = Some (File s) ->
  exists e,
    cleanDirectory dir w =
    (Thrown e,
     mkWorld (fs w) (trace w ++ [FsExistsSync dir; FsReaddirSync dir])%list).
Proof.
  intros Hne Hdir. eexists. unfold cleanDirectory. cbn [cleanDirectoryRec].
  rewrite (bind_Returned _ _ _ _ _ (existsSync_eq dir w Hne)), Hdir.
  unfold bind, readdirSync, syscall. cbn [fs trace].
  rewrite (proj2 (String.eqb_neq _ _) Hne), Hdir.
  now rewrite <- app_assoc.
Qed.

Lemma cleanDirectory_on_file_throws_witness :
  lookup (resolve "./build/xml") fileTree = Some (File "not a directory")
  /\ exists e,
       cleanDirectory "./build/xml" (mkWorld fileTree []) =
       (Thrown e, mkWorld fileTree [FsExistsSync "./build/xml";
                                    FsReaddirSync "./build/xml"]).
Proof.
  split; [reflexivity|].
  exact (cleanDirectory_on_file_throws "./build/xml" (mkWorld fileTree [])
           "not a directory" ltac:(discriminate) eq_refl).
Defined.

(** With a final slash the path of a regular file does not resolve, and
    [cleanDirectory] returns without listing anything. *)
Lemma cleanDirectory_on_file_with_slash :
  lookup (resolve "./build/xml/") fileTree = None
  /\ cleanDirectory "./build/xml/" (mkWorld fileTree []) =
     (Returned tt, mkWorld fileTree [FsExistsSync "./build/xml/"]).
Proof. split; vm_compute; reflexivity. Qed.

(** Clearing twice is clearing once, on a path without [..]: the second
    [cleanDirectory] returns and leaves the filesystem as the first left
    it. *)
Theorem cleanDirectory_idempotent
        (dir : string) (w : World) (es : list (string * node)) :
  dir <> "" -> noDotDot (resolve dir) = true ->
  lookup (resolve dir) (fs w) = Some (Dir es) ->
  wfNames (Dir es) = true ->
  fst ((cleanDirectory dir ;; cleanDirectory dir) w) = Returned tt
  /\ fs (snd ((cleanDirectory dir ;; cleanDirectory dir) w))
     = fs (snd (cleanDirectory dir w)).
Proof.
  intros Hne Hplain Hdir Hwf. apply lookup_nodeAt in Hdir.
  destruct (cleanDirectoryRec_spec (S (height (fs w))) dir w es Hne Hplain Hdir Hwf)
    as (evs & Hclean & _).
  { apply height_nodeAt in Hdir. lia. }
  fold (cleanDirectory dir w) in Hclean.
  set (w1 := mkWorld (alterDir (normalize dir) (fun _ => []) (fs w))
                     (trace w ++ evs)%list) in *.
  assert (Hempty : nodeAt (normalize dir) (fs w1) = Some (Dir [])).
  { exact (nodeAt_alterDir _ (fun _ => []) _ _ Hdir). }
  destruct (cleanDirectoryRec_spec (S (height (fs w1))) dir w1 [] Hne Hplain Hempty
              eq_refl)
    as (evs' & Hclean' & _).
  { apply height_nodeAt in Hempty. lia. }
  fold (cleanDirectory dir w1) in Hclean'.
  rewrite (bind_Returned _ _ _ _ _ Hclean), Hclean', Hclean. cbn [fst snd fs].
  split; [reflexivity|].
  exact (alterDir_id _ (fun _ => []) _ _ Hempty eq_refl).
Qed.

Lemma cleanDirectory_idempotent_witness :
  fs (snd ((cleanDirectory "./build/xml/" ;; cleanDirectory "./build/xml/")
             staleWorld))
  = fs (snd (cleanDirectory "./build/xml/" staleWorld)).
Proof.
  exact (proj2 (cleanDirectory_idempotent "./build/xml/" staleWorld
                  [("index.xml", File "<doxygenindex/>");
                   ("old", Dir [("class_a.xml", File "<doxygen/>");
                                ("empty", Dir [])])]
                  ltac:(discriminate) eq_refl eq_refl eq_refl)).
Defined.

(** A directory named through one of its own subdirectories,
    [./build/xml/old/..]: once [old] has been cleared and removed the path
    resolves no more, the next [statSync] throws, and the entries after
    [old] stay. *)
Theorem cleanDirectory_through_removed_entry_throws :
  lookup (resolve "./build/xml/old/..") nestedTree
  = nodeAt ["build"; "xml"] nestedTree
  /\ exists e,
     cleanDirectory "./build/xml/old/.." (mkWorld nestedTree [])
     = (Thrown e,
        mkWorld
          (Dir [("build",
                 Dir [("xml", Dir [("index.xml", File "<doxygenindex/>")])])])
          [FsExistsSync "./build/xml/old/.."; FsReaddirSync "./build/xml/old/..";
           FsStatSync "./build/xml/old/../old";
           FsExistsSync "./build/xml/old/../old";
           FsReaddirSync "./build/xml/old/../old";
           FsStatSync "./build/xml/old/../old/class_a.xml";
           FsUnlinkSync "./build/xml/old/../old/class_a.xml";
           FsRmdirSync "./build/xml/old/../old";
           FsStatSync "./build/xml/old/../index.xml"]).
Proof. split; [|eexists]; vm_compute; reflexivity. Qed.

(** One round of the loop of [createDirectories]. *)
Lemma createDirectories_cons (dir : string) (dirs : list string) (w : World) :
  createDirectories (dir :: dirs) w =
  ((present <- existsSync dir ;;
    if negb present then mkdirSyncRecursive dir else ret tt) ;;
   createDirectories dirs) w.
Proof. reflexivity. Qed.

Lemma createDirectories_step (dir : string) (w : World) :
  dir <> "" -> noDotDot (resolve dir) = true ->
  noFileOnPath (normalize dir) (fs w) = true ->
  exists w1,
    (present <- existsSync dir ;;
     if negb present then mkdirSyncRecursive dir else ret tt) w
    = (Returned tt, w1)
    /\ (exists es, nodeAt (normalize dir) (fs w1) = Some (Dir es))
    /\ (forall q c, nodeAt q (fs w) = Some c ->
                    exists c', nodeAt q (fs w1) = Some c' /\ sameKind c c')
    /\ (forall q, noFileOnPath q (fs w) = true -> noFileOnPath q (fs w1) = true).
Proof.
  intros Hne Hplain Hno.
  rewrite (bind_Returned _ _ _ _ _ (existsSync_eq dir w Hne)).
  set (w0 := mkWorld (fs w) (trace w ++ [FsExistsSync dir])%list).
  destruct (nodeAt (normalize dir) (fs w)) as [[s|es]|] eqn:Hdir.
  - now apply noFileOnPath_nodeAt with (s := s) in Hno.
  - rewrite (lookup_plain dir (fs w) es Hplain Hdir).
    exists w0. split; [reflexivity|]. split; [now exists es|].
    split; [|trivial]. intros q c Hq. exists c. split; [exact Hq|now destruct c].
  - rewrite (lookup_missing dir (fs w) Hdir).
    destruct (mkdirP_Some _ _ Hno) as (t & Hmk).
    exists (mkWorld t (trace w0 ++ [FsMkdirSync dir])%list).
    split; [exact (mkdirSyncRecursive_plain dir w0 t Hne Hplain Hmk)|]. cbn [fs].
    split; [exact (mkdirP_nodeAt _ _ _ Hmk)|].
    split; [exact (mkdirP_keeps _ _ _ Hmk)|exact (mkdirP_noFileOnPath _ _ _ Hmk)].
Qed.

(** [createDirectories] where no listed path is empty, has a [..] or has a
    regular file on it: it returns, every listed path is a directory
    afterwards, and nothing that was there is removed or replaced. *)
Theorem createDirectories_creates_all (dirs : list string) (w : World) :
  Forall (fun dir => dir <> "" /\ noDotDot (resolve dir) = true
                     /\ noFileOnPath (normalize dir) (fs w) = true) dirs ->
  exists w',
    createDirectories dirs w = (Returned tt, w')
    /\ Forall (fun dir => exists es, lookup (resolve dir) (fs w') = Some (Dir es))
              dirs
    /\ forall q c, nodeAt q (fs w) = Some c ->
                   exists c', nodeAt q (fs w') = Some c' /\ sameKind c c'.
Proof.
  revert w. induction dirs as [|dir dirs IH]; intros w Hall.
  - exists w. split; [reflexivity|]. split; [constructor|].
    intros q c Hq. exists c. split; [exact Hq|now destruct c].
  - inversion Hall as [|d ds (Hne & Hplain & Hno) Hrest]; subst d ds.
    destruct (createDirectories_step dir w Hne Hplain Hno)
      as (w1 & Hstep & (es & Hdir) & Hkeep & Hnofile).
    destruct (IH w1) as (w' & Hrun & Hdirs & Hkeep').
    { apply (Forall_impl _ (P := fun d => d <> "" /\ noDotDot (resolve d) = true /\
                                 noFileOnPath (normalize d) (fs w) = true));
        [|exact Hrest].
      intros d (Hd & Hd' & Hd''). split; [exact Hd|]. split; [exact Hd'|].
      now apply Hnofile. }
    exists w'. rewrite createDirectories_cons, (bind_Returned _ _ _ _ _ Hstep).
    split; [exact Hrun|]. split.
    + constructor; [|exact Hdirs].
      destruct (Hkeep' _ _ Hdir) as (c' & Hc' & Hk). cbn [sameKind] in Hk.
      destruct c' as [s|es']; [discriminate|]. exists es'.
      exact (lookup_plain dir (fs w') es' Hplain Hc').
    + intros q c Hq. destruct (Hkeep q c Hq) as (c1 & Hq1 & Hk1).
      destruct (Hkeep' q c1 Hq1) as (c2 & Hq2 & Hk2).
      exists c2. split; [exact Hq2|exact (sameKind_trans _ _ _ Hk1 Hk2)].
Qed.

Lemma createDirectories_creates_all_witness :
  exists w',
    createDirectories ["./build/md"; "./build/xml/"] (mkWorld bareTree [])
    = (Returned tt, w')
    /\ Forall (fun dir => exists es, lookup (resolve dir) (fs w') = Some (Dir es))
              ["./build/md"; "./build/xml/"].
Proof.
  destruct (createDirectories_creates_all ["./build/md"; "./build/xml/"]
              (mkWorld bareTree [])) as (w' & Hrun & Hdirs & _).
  { repeat constructor; discriminate. }
  exists w'. split; assumption.
Defined.

(** A regular file where a directory is asked for: [createDirectories] sees
    that the path exists, creates nothing and reports nothing; the file
    stays. *)
Theorem createDirectories_skips_regular_file (dir : string) (w : World) (s : string) :
  dir <> "" ->
  lookup (resolve dir) (fs w) = Some (File s) ->
  createDirectories [dir] w =
  (Returned tt, mkWorld (fs w) (trace w ++ [FsExistsSync dir])%list).
Proof.
  intros Hne Hdir. exact (createDirectories_existing dir w (File s) Hne Hdir).
Qed.

Lemma createDirectories_skips_regular_file_witness :
  lookup (resolve "./build/xml") fileTree = Some (File "not a directory")
  /\ createDirectories ["./build/xml"] (mkWorld fileTree []) =
     (Returned tt, mkWorld fileTree [FsExistsSync "./build/xml"]).
Proof.
  split; [reflexivity|].
  exact (createDirectories_skips_regular_file "./build/xml" (mkWorld fileTree [])
           "not a directory" ltac:(discriminate) eq_refl).
Defined.

(** With a final slash the path of the regular file does not resolve:
    [mkdirSync] is called and throws. *)
Lemma createDirectories_on_file_with_slash :
  createDirectories ["./build/xml/"] (mkWorld fileTree []) =
  (Thrown (SystemError "ENOTDIR" "./build/xml/"),
   mkWorld fileTree [FsExistsSync "./build/xml/"; FsMkdirSync "./build/xml/"]).
Proof. vm_compute. reflexivity. Qed.

(** A regular file on a path without [..] that does not resolve: [mkdirSync]
    throws, and nothing is created. *)
Theorem createDirectories_throws_below_file (dir : string) (w : World) :
  dir <> "" -> noDotDot (resolve dir) = true ->
  lookup (resolve dir) (fs w) = None ->
  noFileOnPath (normalize dir) (fs w) = false ->
  exists e,
    createDirectories [dir] w =
    (Thrown e, mkWorld (fs w) (trace w ++ [FsExistsSync dir; FsMkdirSync dir])%list).
Proof.
  intros Hne Hplain Hdir Hno. eexists. rewrite createDirectories_cons.
  unfold bind at 1.
  rewrite (bind_Returned _ _ _ _ _ (existsSync_eq dir w Hne)), Hdir. cbn [negb].
  unfold mkdirSyncRecursive, syscall. cbn [fs trace].
  rewrite (proj2 (String.eqb_neq _ _) Hne), (mkdirWalk_plain _ _ _ Hplain).
  fold (normalize dir). rewrite (mkdirP_None _ _ Hno), Hdir.
  now rewrite <- app_assoc.
Qed.

Lemma createDirectories_throws_below_file_witness :
  exists e,
    createDirectories ["./build/xml/"] (mkWorld obstructedTree []) =
    (Thrown e, mkWorld obstructedTree [FsExistsSync "./build/xml/";
                                       FsMkdirSync "./build/xml/"]).
Proof.
  exact (createDirectories_throws_below_file "./build/xml/"
           (mkWorld obstructedTree []) ltac:(discriminate) eq_refl eq_refl eq_refl).
Defined.

(** Through a missing directory and [..] the recursive [mkdir] creates that
    directory before it fails at the regular file. *)
Lemma createDirectories_creates_before_dotdot :
  createDirectories ["nope/../build/xml"] (mkWorld obstructedTree []) =
  (Thrown (SystemError "ENOTDIR" "nope/../build/xml"),
   mkWorld (Dir [("build", File "not a directory"); ("src", Dir []);
                 ("nope", Dir [])])
           [FsExistsSync "nope/../build/xml"; FsMkdirSync "nope/../build/xml"]).
Proof. vm_compute. reflexivity. Qed.

(** What [mkdirSync] leaves: the trace with its event, and a tree with
    nothing removed. *)
Lemma mkdirSyncRecursive_keeps (path : string) (w : World) :
  trace (snd (mkdirSyncRecursive path w)) = (trace w ++ [FsMkdirSync path])%list
  /\ keeps (fs w) (fs (snd (mkdirSyncRecursive path w))).
Proof.
  unfold mkdirSyncRecursive, syscall.
  destruct (String.eqb path ""); [split; [reflexivity|apply keeps_refl]|].
  pose proof (mkdirWalk_keeps (resolve path) [] (fs w)) as Hk.
  destruct (mkdirWalk (resolve path) [] (fs w)) as [[|] t']; cbn [snd] in Hk.
  - split; [reflexivity|exact Hk].
  - destruct (lookup (resolve path) t') as [[|]|]; (split; [reflexivity|exact Hk]).
Qed.

(** A path that does not resolve does not exist, the empty path included. *)
Lemma existsSync_unresolved (path : string) (w : World) :
  lookup (resolve path) (fs w) = None ->
  existsSync path w =
  (Returned false, mkWorld (fs w) (trace w ++ [FsExistsSync path])%list).
Proof.
  intros H. unfold existsSync, syscall. rewrite H. now destruct (String.eqb path "").
Qed.

Lemma createDirectories_keeps (dirs : list string) (w : World) :
  keeps (fs w) (fs (snd (createDirectories dirs w))).
Proof.
  revert w. induction dirs as [|dir dirs IH]; intros w; [apply keeps_refl|].
  rewrite createDirectories_cons. unfold bind at 1.
  assert (Hstep : keeps (fs w)
                    (fs (snd ((present <- existsSync dir ;;
                               if negb present then mkdirSyncRecursive dir
                               else ret tt) w)))).
  { unfold bind, existsSync, syscall.
    destruct (if String.eqb dir "" then _ else _) as [[[|]|e|c] t] eqn:He;
      cbn [negb snd fs];
      destruct (String.eqb dir "");
      try destruct (lookup (resolve dir) (fs w));
      try discriminate; injection He as <-;
      first [apply keeps_refl
            |exact (proj2 (mkdirSyncRecursive_keeps dir
                             (mkWorld (fs w) (trace w ++ [FsExistsSync dir])%list)))]. }
  destruct ((present <- existsSync dir ;;
             if negb present then mkdirSyncRecursive dir else ret tt) w)
    as [[[]|e|c] w1]; cbn [snd] in *; try exact Hstep.
  exact (keeps_trans _ _ _ Hstep (IH w1)).
Qed.

(** [createDirectories] removes and replaces nothing, whatever the paths, the
    tree and its outcome: what was at a path is still there when it returns
    or throws, a file with its content, a directory as a directory. *)
Theorem createDirectories_removes_nothing
        (dirs : list string) (w : World) (q : list string) (c : node) :
  nodeAt q (fs w) = Some c ->
  exists c',
    nodeAt q (fs (snd (createDirectories dirs w))) = Some c' /\ sameKind c c'.
Proof. exact (createDirectories_keeps dirs w q c). Qed.

Lemma createDirectories_removes_nothing_witness :
  nodeAt ["nope"]
    (fs (snd (createDirectories ["nope/../build/xml"] (mkWorld obstructedTree []))))
  = Some (Dir [])
  /\ exists c',
       nodeAt ["build"]
         (fs (snd (createDirectories ["nope/../build/xml"]
                     (mkWorld obstructedTree []))))
       = Some c' /\ sameKind (File "not a directory") c'.
Proof.
  split; [vm_compute; reflexivity|].
  exact (createDirectories_removes_nothing ["nope/../build/xml"]
           (mkWorld obstructedTree []) ["build"] (File "not a directory") eq_refl).
Defined.

(** Clearing a directory and then creating one entry in it, as the command
    line script does with [./build] and [./build/md]: whatever the directory
    held, and whether it existed or not, it ends with this entry alone, an
    empty directory. *)
Theorem clean_then_create_child (dir x : string) (w : World) :
  dir <> "" -> noDotDot (resolve dir) = true -> validName x = true ->
  wfNames (fs w) = true -> noFileOnPath (normalize dir) (fs w) = true ->
  exists w',
    (cleanDirectory dir ;; createDirectories [dir ++ "/" ++ x]) w
    = (Returned tt, w')
    /\ lookup (resolve dir) (fs w') = Some (Dir [(x, Dir [])]).
Proof.
  intros Hne Hplain Hx Hwf Hno.
  pose proof (normalize_child dir x Hx) as Hpath.
  pose proof (noDotDot_child dir x Hx Hplain) as Hplain'.
  pose proof (child_path_not_empty dir x) as Hne'.
  destruct (nodeAt (normalize dir) (fs w)) as [[s|es]|] eqn:Hdir.
  - now apply noFileOnPath_nodeAt with (s := s) in Hno.
  - destruct (cleanDirectory_spec dir w es Hne Hplain Hdir Hwf) as (evs & Hclean & _).
    set (w1 := mkWorld (alterDir (normalize dir) (fun _ => []) (fs w))
                       (trace w ++ evs)%list) in *.
    assert (Hempty : nodeAt (normalize dir) (fs w1) = Some (Dir [])).
    { exact (nodeAt_alterDir _ (fun _ => []) _ _ Hdir). }
    destruct (mkdirP_snoc_existing _ x _ _ Hempty eq_refl) as (t & Hmk & Hl).
    rewrite <- Hpath in Hmk.
    assert (Hchild : lookup (resolve (dir ++ "/" ++ x)) (fs w1) = None).
    { apply lookup_missing. now rewrite Hpath, (nodeAt_snoc _ x _ _ Hempty). }
    eexists. rewrite (bind_Returned _ _ _ _ _ Hclean).
    split; [exact (createDirectories_missing _ w1 t Hne' Hplain' Hchild Hmk)|].
    exact (lookup_plain dir t _ Hplain Hl).
  - destruct (mkdirP_snoc_missing _ x _ Hdir Hno) as (t & Hmk & Hl).
    rewrite <- Hpath in Hmk.
    set (w1 := mkWorld (fs w) (trace w ++ [FsExistsSync dir])%list).
    assert (Hchild : lookup (resolve (dir ++ "/" ++ x)) (fs w1) = None).
    { apply lookup_missing. rewrite Hpath. now apply nodeAt_None_snoc. }
    eexists.
    rewrite (bind_Returned _ _ _ _ _
               (cleanDirectory_missing dir w Hne (lookup_missing dir (fs w) Hdir))).
    split; [exact (createDirectories_missing _ w1 t Hne' Hplain' Hchild Hmk)|].
    exact (lookup_plain dir t _ Hplain Hl).
Qed.

Lemma clean_then_create_child_witness :
  exists w',
    (cleanDirectory "./build" ;; createDirectories ["./build" ++ "/" ++ "md"])
      staleWorld = (Returned tt, w')
    /\ lookup (resolve "./build") (fs w') = Some (Dir [("md", Dir [])]).
Proof.
  exact (clean_then_create_child "./build" "md" staleWorld
           ltac:(discriminate) eq_refl eq_refl eq_refl eq_refl).
Defined.

End HelperFacts.

(** ** More on the runner *)

Module RunnerFacts.
Import JsString JsStringFacts ReplaceFacts JsRegExp RegExpFacts.
Import Fs FsFacts Js Js.Notations JsFacts Helpers CleanFacts.
Import DoxygenRunner Spec Samples ConfigFacts FilterFacts RunFacts.
Import Frames FsFrames.

(** The [try] statement of [run], by the outcome of Doxygen. *)
Lemma execute_eq (doxygen : Doxygen.Lib) (options : Options) (w : World) :
  execute doxygen options w =
  match Doxygen.run doxygen (doxygenConfigFile options) (doxygenVersion options)
                    (fs w) with
  | (Returned _, t) =>
      (Returned [],
       mkWorld t (trace w ++ [CallRun (doxygenConfigFile options)
                                      (doxygenVersion options)])%list)
  | (Thrown e, t) =>
      onRunError options e
        (mkWorld t (trace w ++ [CallRun (doxygenConfigFile options)
                                        (doxygenVersion options)])%list)
  | (Exited c, t) =>
      (Exited c,
       mkWorld t (trace w ++ [CallRun (doxygenConfigFile options)
                                      (doxygenVersion options)])%list)
  end.
Proof.
  unfold execute, tryCatch, bind, syscall, ret.
  destruct (Doxygen.run doxygen _ _ (fs w)) as [[[]|e|c] t]; reflexivity.
Qed.

Lemma run_without_xml (doxygen : Doxygen.Lib) (options : Options) (w w1 w2 : World) :
  outputXML options = false ->
  checkInstallation doxygen options w = (Returned tt, w1) ->
  prepare doxygen options w1 = (Returned tt, w2) ->
  run doxygen options w = execute doxygen options w2.
Proof.
  intros Hxml Hcheck Hprep. rewrite run_after_execution. unfold beforeOutputCheck.
  rewrite (bind_Returned _ _ _ _ _ Hcheck), (bind_Returned _ _ _ _ _ Hprep), Hxml.
  destruct (execute doxygen options w2) as [[msgs|e|c] w3]; reflexivity.
Qed.

(** A clean run without XML output returns the empty list: once the
    installation check and [prepare] have returned and Doxygen has run
    without error, nothing more is done. *)
Theorem run_clean_returns_empty
        (doxygen : Doxygen.Lib) (options : Options) (w w1 w2 : World) (t3 : node) :
  outputXML options = false ->
  checkInstallation doxygen options w = (Returned tt, w1) ->
  prepare doxygen options w1 = (Returned tt, w2) ->
  Doxygen.run doxygen (doxygenConfigFile options) (doxygenVersion options) (fs w2)
  = (Returned tt, t3) ->
  run doxygen options w =
  (Returned [],
   mkWorld t3 (trace w2 ++ [CallRun (doxygenConfigFile options)
                                    (doxygenVersion options)])%list).
Proof.
  intros Hxml Hcheck Hprep Hrun.
  rewrite (run_without_xml doxygen options w w1 w2 Hxml Hcheck Hprep).
  now rewrite execute_eq, Hrun.
Qed.

Lemma run_clean_returns_empty_witness :
  fst (run (sampleLib true true None) (sampleOptions false false) staleWorld)
  = Returned [].
Proof.
  now rewrite (run_clean_returns_empty
                 (sampleLib true true None) (sampleOptions false false)
                 staleWorld _ _ _ eq_refl eq_refl eq_refl eq_refl).
Defined.

(** A failing Doxygen does not fail the run: when its error does not carry
    the missing-library marker, a run without XML output returns the warning
    lines of its stderr and never exits, although the configuration asks
    Doxygen to fail on warnings. *)
Theorem run_returns_warnings_as_data
        (doxygen : Doxygen.Lib) (options : Options) (w w1 w2 : World) (t3 : node)
        (msg text : string) :
  outputXML options = false ->
  checkInstallation doxygen options w = (Returned tt, w1) ->
  prepare doxygen options w1 = (Returned tt, w2) ->
  Doxygen.run doxygen (doxygenConfigFile options) (doxygenVersion options) (fs w2)
  = (Thrown (mkError msg (Some text)), t3) ->
  includes missingLibsErrorMessage msg = false ->
  get "WARN_AS_ERROR" (doxyFileOptions options) = Some "FAIL_ON_WARNINGS"
  /\ fst (run doxygen options w) = Returned (filter isWarning (errorMessagesOf text))
  /\ fs (snd (run doxygen options w)) = t3.
Proof.
  intros Hxml Hcheck Hprep Hrun Hmark. split; [reflexivity|].
  rewrite (run_without_xml doxygen options w w1 w2 Hxml Hcheck Hprep).
  rewrite execute_eq, Hrun. unfold onRunError. cbn [message]. rewrite Hmark.
  rewrite extract_eq. split; reflexivity.
Qed.

Lemma run_returns_warnings_as_data_witness :
  fst (run (sampleLib true true (Some warningsError)) (sampleOptions false false)
           staleWorld)
  = Returned (filter isWarning (errorMessagesOf rawErrorText)).
Proof.
  exact (proj1 (proj2 (run_returns_warnings_as_data
                 (sampleLib true true (Some warningsError))
                 (sampleOptions false false) staleWorld _ _ _ _ _
                 eq_refl eq_refl eq_refl eq_refl eq_refl))).
Defined.

(** An error without [stderr] and without the marker is not handled: reading
    [error.stderr] throws a [TypeError] out of [run], and nothing is
    returned or printed by the [catch] block. *)
Theorem run_throws_on_error_without_stderr
        (doxygen : Doxygen.Lib) (options : Options) (w w1 w2 : World) (t3 : node)
        (msg : string) :
  checkInstallation doxygen options w = (Returned tt, w1) ->
  prepare doxygen options w1 = (Returned tt, w2) ->
  Doxygen.run doxygen (doxygenConfigFile options) (doxygenVersion options) (fs w2)
  = (Thrown (mkError msg None), t3) ->
  includes missingLibsErrorMessage msg = false ->
  run doxygen options w =
  (Thrown (TypeError "Cannot read properties of undefined (reading 'toString')"),
   mkWorld t3 (trace w2 ++ [CallRun (doxygenConfigFile options)
                                    (doxygenVersion options)])%list).
Proof.
  intros Hcheck Hprep Hrun Hmark. rewrite run_after_execution.
  unfold beforeOutputCheck.
  rewrite (bind_Returned _ _ _ _ _ Hcheck), (bind_Returned _ _ _ _ _ Hprep).
  rewrite execute_eq, Hrun. unfold onRunError. cbn [message]. now rewrite Hmark.
Qed.

Lemma run_throws_on_error_without_stderr_witness :
  fst (run (sampleLib true true (Some plainError)) (sampleOptions true false)
           staleWorld)
  = Thrown (TypeError "Cannot read properties of undefined (reading 'toString')").
Proof.
  refine (f_equal fst
            (run_throws_on_error_without_stderr
               (sampleLib true true (Some plainError)) (sampleOptions true false)
               staleWorld _ _ _ _ _ _ _ _));
    vm_compute; reflexivity.
Defined.

(** What a greedy class consumes: a run of characters of the class, up to
    the end of the text or a character outside the class. *)
Lemma takeClass_spec (k : cclass) (s : string) :
  exists rest,
    s = takeClass k s ++ rest
    /\ allInClass k (takeClass k s) = true
    /\ (rest = "" \/ exists c r, rest = String c r /\ inClass k c = false).
Proof.
  induction s as [|c s (rest & Hs & Hall & Hrest)].
  - exists "". repeat split. now left.
  - cbn [takeClass]. destruct (inClass k c) eqn:Hc.
    + exists rest. cbn [append allInClass]. rewrite Hc, Hall, <- Hs.
      now repeat split.
    + exists (String c s). repeat split. right. now exists c, s.
Qed.

(** The match array, when there is one: the group is what follows the first
    occurrence of the literal that has something on its line after it, up to
    the end of that line. *)
Lemma matchLitThenGroup_Some (lit s : string) (matches : list string) :
  matchLitThenGroup lit s = Some matches ->
  exists pre group rest,
    matches = [lit ++ group; group]
    /\ s = pre ++ lit ++ group ++ rest
    /\ group <> "" /\ allInClass Dot group = true
    /\ (rest = "" \/ exists c r, rest = String c r /\ isLineTerminator c = true).
Proof.
  induction s as [|c s IH]; cbn [matchLitThenGroup].
  - destruct (afterPrefix lit "") as [tl|] eqn:Ha; [|discriminate].
    apply afterPrefix_Some in Ha.
    destruct (takeClass_spec Dot tl) as (rest & Htl & Hall & Hrest).
    destruct (takeClass Dot tl) as [|g0 g] eqn:Hg; [discriminate|].
    intros H. injection H as <-. exists "", (String g0 g), rest.
    split; [reflexivity|].
    split; [exact (eq_trans Ha (f_equal (append lit) Htl))|].
    split; [discriminate|]. split; [exact Hall|].
    destruct Hrest as [->|(x & r & -> & Hx)]; [now left|right].
    exists x, r. split; [reflexivity|]. cbn [inClass] in Hx.
    now apply negb_false_iff in Hx.
  - destruct (afterPrefix lit (String c s)) as [tl|] eqn:Ha.
    + apply afterPrefix_Some in Ha.
      destruct (takeClass_spec Dot tl) as (rest & Htl & Hall & Hrest).
      destruct (takeClass Dot tl) as [|g0 g] eqn:Hg.
      * intros H. destruct (IH H) as (pre & group & rest' & -> & -> & Hrem).
        now exists (String c pre), group, rest'.
      * intros H. injection H as <-. exists "", (String g0 g), rest.
        split; [reflexivity|].
    split; [exact (eq_trans Ha (f_equal (append lit) Htl))|].
        split; [discriminate|]. split; [exact Hall|].
        destruct Hrest as [->|(x & r & -> & Hx)]; [now left|right].
        exists x, r. split; [reflexivity|]. cbn [inClass] in Hx.
        now apply negb_false_iff in Hx.
    + intros H. destruct (IH H) as (pre & group & rest' & -> & -> & Hrem).
      now exists (String c pre), group, rest'.
Qed.

(** Whenever the [catch] block ends the process, the status is 1 and what it
    printed is the rest of a line of the message after the marker and a
    space: a non-empty text without line terminator, followed in the message
    by a line terminator or nothing. *)
Theorem exit_reports_rest_of_marker_line
        (options : Options) (error : JsError) (w w' : World) (code : nat) :
  onRunError options error w = (Exited code, w') ->
  code = 1
  /\ exists pre group rest,
      message error = pre ++ missingLibsErrorMessage ++ " " ++ group ++ rest
      /\ group <> "" /\ allInClass Dot group = true
      /\ (rest = "" \/ exists c r, rest = String c r /\ isLineTerminator c = true)
      /\ w' = mkWorld (fs w)
                (trace w ++
                 [ConsoleError ("❌ Failed to run Doxygen due to missing libraries: "
                                ++ group)])%list.
Proof.
  unfold onRunError.
  destruct (includes missingLibsErrorMessage (message error)).
  - destruct (matchLitThenGroup _ (message error)) as [matches|] eqn:Hm;
      [|discriminate].
    destruct (matchLitThenGroup_Some _ _ _ Hm)
      as (pre & group & rest & -> & Hmsg & Hne & Hall & Hrest).
    unfold bind, console_error, emit, exit. cbn [length Nat.ltb Nat.leb nth].
    intros H. injection H as <- <-. split; [reflexivity|].
    exists pre, group, rest. rewrite Hmsg at 1.
    split; [now rewrite <- !JsStringFacts.append_assoc|].
    now repeat split.
  - unfold extractValidationMessages, throw.
    destruct (stderr error) as [text|]; [|discriminate].
    unfold bind. destruct (debug options).
    + unfold console_warn.
      rewrite (forOf_emit (fun m => ConsoleWarn ("🤔 " ++ m))). discriminate.
    + discriminate.
Qed.

Lemma exit_reports_rest_of_marker_line_witness :
  exists pre group rest,
    message missingLibError
    = pre ++ missingLibsErrorMessage ++ " " ++ group ++ rest
    /\ group <> "".
Proof.
  destruct (exit_reports_rest_of_marker_line
              (sampleOptions false false) missingLibError staleWorld _ 1 eq_refl)
    as (_ & pre & group & rest & Hmsg & Hne & _).
  now exists pre, group, rest.
Defined.

Lemma onRunError_missing_libs_witness :
  exists whole group,
    matchLitThenGroup (missingLibsErrorMessage ++ " ") (message missingLibError)
    = Some [whole; group]
    /\ fst (onRunError (sampleOptions false false) missingLibError staleWorld)
       = Exited 1.
Proof.
  destruct (onRunError_missing_libs (sampleOptions false false) missingLibError
              staleWorld eq_refl) as [(whole & group & Hm & Hrun)|[Hm _]].
  - exists whole, group. split; [exact Hm|now rewrite Hrun].
  - vm_compute in Hm. discriminate.
Defined.

(** [checkXMLOutput] where the XML folder is not a directory (missing, or a
    regular file): the listing throws; the process does not exit and nothing
    is printed. *)
Theorem checkXMLOutput_throws_without_folder (options : Options) (w : World) :
  (forall es, lookup (resolve (xmlFolder options)) (fs w) <> Some (Dir es)) ->
  exists e,
    checkXMLOutput options w =
    (Thrown e, mkWorld (fs w) (trace w ++ [FsReaddirSync (xmlFolder options)])%list).
Proof.
  intros Hdir. unfold checkXMLOutput, bind, readdirSync, syscall.
  destruct (String.eqb (xmlFolder options) ""); [now eexists|].
  destruct (lookup (resolve (xmlFolder options)) (fs w)) as [[s|es]|] eqn:Hl;
    try (now eexists).
  now destruct (Hdir es).
Qed.

Lemma checkXMLOutput_throws_without_folder_witness :
  exists e,
    checkXMLOutput (sampleOptions true true) (mkWorld bareTree []) =
    (Thrown e, mkWorld bareTree [FsReaddirSync "./build/xml/"]).
Proof.
  apply (checkXMLOutput_throws_without_folder (sampleOptions true true)
           (mkWorld bareTree [])).
  intros es. discriminate.
Defined.

(** [checkXMLOutput] on a folder with entries: with [debug] it prints their
    number and then one line per entry, in the order of the listing; without
    [debug] it prints nothing.  It returns in both cases. *)
Theorem checkXMLOutput_reports_entries
        (options : Options) (w : World) (es : list (string * node)) :
  xmlFolder options <> "" ->
  lookup (resolve (xmlFolder options)) (fs w) = Some (Dir es) ->
  es <> [] ->
  checkXMLOutput options w =
  (Returned tt,
   mkWorld (fs w)
     (trace w ++
      FsReaddirSync (xmlFolder options) ::
      (if debug options
       then ConsoleLog ("✅ Found " ++ ofNat (length es) ++ " XML files.")
            :: map (fun e => ConsoleLog ("📄 " ++ fst e)) es
       else []))%list).
Proof.
  intros Hne Hdir Hes. rewrite (checkXMLOutput_eq options w es Hne Hdir).
  destruct es as [|e es]; [contradiction|]. cbn [length Nat.eqb].
  now rewrite map_map.
Qed.

Lemma checkXMLOutput_reports_entries_witness :
  checkXMLOutput (sampleOptions true true) staleWorld =
  (Returned tt,
   mkWorld staleTree
     [FsReaddirSync "./build/xml/"; ConsoleLog "✅ Found 2 XML files.";
      ConsoleLog "📄 index.xml"; ConsoleLog "📄 old"]).
Proof.
  exact (checkXMLOutput_reports_entries (sampleOptions true true) staleWorld
           [("index.xml", File "<doxygenindex/>");
            ("old", Dir [("class_a.xml", File "<doxygen/>"); ("empty", Dir [])])]
           ltac:(discriminate) eq_refl ltac:(discriminate)).
Defined.

(** When [createConfig] throws, [prepare] throws the same error at once:
    it makes no call of Node's [fs] module, so the XML folder is not cleared
    even when XML output is requested. *)
Theorem prepare_stops_when_config_fails
        (doxygen : Doxygen.Lib) (options : Options) (w : World)
        (e : JsError) (t1 : node) :
  Doxygen.createConfig doxygen (doxyFileOptions options)
    (doxygenConfigFile options) (fs w) = (Thrown e, t1) ->
  exists evs,
    prepare doxygen options w = (Thrown e, mkWorld t1 (trace w ++ evs)%list)
    /\ filter isFsCall evs = []
    /\ filter isConsole evs
       = if debug options
         then [ConsoleLog ("🔧 Creating Doxygen config file "
                           ++ doxygenConfigFile options ++ " ...")]
         else [].
Proof.
  intros Hcfg. unfold prepare, bind, syscall, console_log, emit, ret.
  destruct (debug options); cbn [fs trace]; rewrite Hcfg; cbn [fs trace];
    rewrite <- ?app_assoc; eexists; (split; [reflexivity|split; reflexivity]).
Qed.

Lemma prepare_stops_when_config_fails_witness :
  exists e evs,
    prepare (sampleLib true true None) configBelowBuildOptions
            (mkWorld obstructedTree [])
    = (Thrown e, mkWorld obstructedTree evs)
    /\ filter isFsCall evs = [].
Proof.
  destruct (prepare_stops_when_config_fails
              (sampleLib true true None) configBelowBuildOptions
              (mkWorld obstructedTree []) _ _ eq_refl) as (evs & Hprep & Hfs & _).
  eexists. exists evs. split; [exact Hprep|exact Hfs].
Defined.

(** Clearing and creating the same directory, with what it leaves alone. *)
Lemma clean_then_create_frame (dir : string) (w : World) :
  dir <> "" -> noDotDot (resolve dir) = true ->
  wfNames (fs w) = true -> noFileOnPath (normalize dir) (fs w) = true ->
  exists w',
    (cleanDirectory dir ;; createDirectories [dir]) w = (Returned tt, w')
    /\ nodeAt (normalize dir) (fs w') = Some (Dir [])
    /\ forall q, diverges (normalize dir) q = true ->
                 nodeAt q (fs w') = nodeAt q (fs w).
Proof.
  intros Hne Hplain Hwf Hno.
  destruct (nodeAt (normalize dir) (fs w)) as [[s|es]|] eqn:Hdir.
  - now apply noFileOnPath_nodeAt with (s := s) in Hno.
  - destruct (cleanDirectory_spec dir w es Hne Hplain Hdir Hwf) as (evs & Hclean & _).
    pose proof (nodeAt_alterDir _ (fun _ => []) _ _ Hdir) as Hempty.
    cbv beta in Hempty.
    set (w1 := mkWorld (alterDir (normalize dir) (fun _ => []) (fs w))
                       (trace w ++ evs)%list) in *.
    eexists. rewrite (bind_Returned _ _ _ _ _ Hclean).
    split; [exact (createDirectories_existing dir w1 (Dir []) Hne
                     (lookup_plain dir (fs w1) [] Hplain Hempty))|].
    cbn [fs]. split; [exact Hempty|].
    intros q Hq. now apply nodeAt_alterDir_diverges.
  - destruct (mkdirP_missing _ _ Hdir Hno) as (t & Hmk & Hempty).
    pose proof (lookup_missing dir (fs w) Hdir) as Hlook.
    eexists.
    rewrite (bind_Returned _ _ _ _ _ (cleanDirectory_missing dir w Hne Hlook)).
    split; [exact (createDirectories_missing dir
                     (mkWorld (fs w) (trace w ++ [FsExistsSync dir])%list)
                     t Hne Hplain Hlook Hmk)|].
    cbn [fs]. split; [exact Hempty|].
    intros q Hq. exact (nodeAt_mkdirP_diverges _ _ _ _ Hmk Hq).
Qed.

(** [prepare] with XML output, once [createConfig] has returned. *)
Lemma prepare_with_xml_frame
      (doxygen : Doxygen.Lib) (options : Options) (w : World) (t1 : node) :
  outputXML options = true ->
  xmlFolder options <> "" ->
  noDotDot (resolve (xmlFolder options)) = true ->
  Doxygen.createConfig doxygen (doxyFileOptions options)
    (doxygenConfigFile options) (fs w) = (Returned tt, t1) ->
  wfNames t1 = true ->
  noFileOnPath (normalize (xmlFolder options)) t1 = true ->
  exists w',
    prepare doxygen options w = (Returned tt, w')
    /\ nodeAt (normalize (xmlFolder options)) (fs w') = Some (Dir [])
    /\ forall q, diverges (normalize (xmlFolder options)) q = true ->
                 nodeAt q (fs w') = nodeAt q t1.
Proof.
  intros Hxml Hne Hplain Hcfg Hwf Hno.
  set (pre := ((if debug options
                then [ConsoleLog ("🔧 Creating Doxygen config file "
                                  ++ doxygenConfigFile options ++ " ...")]
                else []) ++
               [CallCreateConfig (doxyFileOptions options) (doxygenConfigFile options)] ++
               (if debug options then [ConsoleLog "🏃 Running Doxygen ..."] else []))%list).
  set (w1 := mkWorld t1 (trace w ++ pre)%list).
  destruct (clean_then_create_frame (xmlFolder options) w1 Hne Hplain Hwf Hno)
    as (w2 & Hcc & Hempty & Hframe).
  exists (mkWorld (fs w2)
            (trace w2 ++ [ConsoleLog ("🔨 Generating XML documentation at "
                                      ++ xmlFolder options ++ " ...")])%list).
  split; [|split; [exact Hempty|exact Hframe]].
  unfold prepare. rewrite get_GENERATE_XML, Hxml.
  change (String.eqb "YES" "YES") with true. cbv iota.
  assert (Hpre : forall (k : M unit),
    ((if debug options
      then console_log ("🔧 Creating Doxygen config file "
                        ++ doxygenConfigFile options ++ " ...")
      else ret tt) ;;
     syscall (CallCreateConfig (doxyFileOptions options) (doxygenConfigFile options))
       (Doxygen.createConfig doxygen (doxyFileOptions options)
          (doxygenConfigFile options)) ;;
     (if debug options then console_log "🏃 Running Doxygen ..." else ret tt) ;;
     k) w = k w1).
  { intros k. unfold bind, syscall, console_log, emit, ret, w1, pre.
    destruct (debug options); cbn [fs trace]; rewrite Hcfg; cbn [fs trace app];
      rewrite <- ?app_assoc; reflexivity. }
  rewrite Hpre, <- PrepareFacts.bind_assoc, (bind_Returned _ _ _ _ _ Hcc).
  unfold console_log, emit. reflexivity.
Qed.

Lemma cleanDirectory_unresolved (dir : string) (w : World) :
  lookup (resolve dir) (fs w) = None ->
  cleanDirectory dir w =
  (Returned tt, mkWorld (fs w) (trace w ++ [FsExistsSync dir])%list).
Proof.
  intros H. unfold cleanDirectory. cbn [cleanDirectoryRec].
  now rewrite (bind_Returned _ _ _ _ _ (HelperFacts.existsSync_unresolved dir w H)).
Qed.

(** [prepare] with XML output where the XML folder does not resolve once
    [createConfig] has returned (a missing folder, or one named through a
    missing directory and [..]): whatever the outcome, nothing is deleted.
    The calls of Node's [fs] module are two tests of existence and one
    [mkdirSync]; no directory is listed, no file unlinked, and what
    [createConfig] left at a path is still there. *)
Theorem prepare_with_unresolved_folder_deletes_nothing
        (doxygen : Doxygen.Lib) (options : Options) (w : World) (t1 : node)
        (q : list string) (c : node) :
  outputXML options = true ->
  Doxygen.createConfig doxygen (doxyFileOptions options)
    (doxygenConfigFile options) (fs w) = (Returned tt, t1) ->
  lookup (resolve (xmlFolder options)) t1 = None ->
  nodeAt q t1 = Some c ->
  (exists c',
      nodeAt q (fs (snd (prepare doxygen options w))) = Some c' /\ sameKind c c')
  /\ filter isFsCall (trace (snd (prepare doxygen options w)))
     = (filter isFsCall (trace w) ++
        [FsExistsSync (xmlFolder options); FsExistsSync (xmlFolder options);
         FsMkdirSync (xmlFolder options)])%list.
Proof.
  intros Hxml Hcfg Hmiss Hq.
  set (pre := ((if debug options
                then [ConsoleLog ("🔧 Creating Doxygen config file "
                                  ++ doxygenConfigFile options ++ " ...")]
                else []) ++
               [CallCreateConfig (doxyFileOptions options) (doxygenConfigFile options)] ++
               (if debug options then [ConsoleLog "🏃 Running Doxygen ..."] else []))%list).
  set (w1 := mkWorld t1 (trace w ++ pre)%list).
  set (w2 := mkWorld (fs w1) (trace w1 ++ [FsExistsSync (xmlFolder options)])%list).
  set (w3 := mkWorld (fs w2) (trace w2 ++ [FsExistsSync (xmlFolder options)])%list).
  assert (Hpre : filter isFsCall pre = []).
  { unfold pre. now destruct (debug options). }
  assert (Hprep : prepare doxygen options w =
                  (mkdirSyncRecursive (xmlFolder options) ;;
                   console_log ("🔨 Generating XML documentation at "
                                ++ xmlFolder options ++ " ...")) w3).
  { unfold prepare. rewrite get_GENERATE_XML, Hxml.
    change (String.eqb "YES" "YES") with true. cbv iota.
    assert (Hstart : forall (k : M unit),
      ((if debug options
        then console_log ("🔧 Creating Doxygen config file "
                          ++ doxygenConfigFile options ++ " ...")
        else ret tt) ;;
       syscall (CallCreateConfig (doxyFileOptions options) (doxygenConfigFile options))
         (Doxygen.createConfig doxygen (doxyFileOptions options)
            (doxygenConfigFile options)) ;;
       (if debug options then console_log "🏃 Running Doxygen ..." else ret tt) ;;
       k) w = k w1).
    { intros k. unfold bind, syscall, console_log, emit, ret, w1, pre.
      destruct (debug options); cbn [fs trace]; rewrite Hcfg; cbn [fs trace app];
        rewrite <- ?app_assoc; reflexivity. }
    rewrite Hstart.
    rewrite (bind_Returned _ _ _ _ _
               (cleanDirectory_unresolved (xmlFolder options) w1 Hmiss)).
    fold w2. unfold createDirectories. cbn [forOf].
    assert (Hbody :
      (present <- existsSync (xmlFolder options) ;;
       if negb present then mkdirSyncRecursive (xmlFolder options) else ret tt) w2
      = mkdirSyncRecursive (xmlFolder options) w3).
    { now rewrite (bind_Returned _ _ _ _ _
                     (HelperFacts.existsSync_unresolved (xmlFolder options) w2 Hmiss)). }
    unfold bind at 1 2. rewrite Hbody. unfold bind, ret.
    destruct (mkdirSyncRecursive (xmlFolder options) w3) as [[[]|e|c0] w4];
      reflexivity. }
  destruct (HelperFacts.mkdirSyncRecursive_keeps (xmlFolder options) w3) as [Htrace Hkeep].
  rewrite Hprep. unfold bind, console_log, emit.
  destruct (mkdirSyncRecursive (xmlFolder options) w3) as [[[]|e|c0] w4];
    cbn [fst snd fs trace] in *;
    (split; [exact (Hkeep q c Hq)|]);
    rewrite ?filter_app, Htrace; cbn [trace w3 w2 w1];
    rewrite !filter_app, Hpre; cbn [filter isFsCall app];
    now rewrite ?app_nil_r, <- ?app_assoc.
Qed.

Lemma prepare_with_unresolved_folder_deletes_nothing_witness :
  lookup (resolve (xmlFolder dotDotOptions)) staleTree = None
  /\ exists c',
       nodeAt ["build"; "xml"; "index.xml"]
         (fs (snd (prepare (sampleLib true true None) dotDotOptions staleWorld)))
       = Some c' /\ sameKind (File "<doxygenindex/>") c'.
Proof.
  split; [reflexivity|].
  refine (proj1 (prepare_with_unresolved_folder_deletes_nothing
                   (sampleLib true true None) dotDotOptions staleWorld _
                   ["build"; "xml"; "index.xml"] (File "<doxygenindex/>")
                   eq_refl eq_refl _ _));
    vm_compute; reflexivity.
Defined.

(** After [prepare] with XML output, on an XML folder whose path has no
    [..], nothing exists below the XML folder.  In particular a config file
    placed inside the XML folder is deleted again by the [prepare] that has
    just written it, before Doxygen is run. *)
Theorem prepare_deletes_config_inside_xml_folder
        (doxygen : Doxygen.Lib) (options : Options) (w : World) (t1 : node)
        (q : list string) :
  outputXML options = true ->
  xmlFolder options <> "" ->
  noDotDot (resolve (xmlFolder options)) = true ->
  Doxygen.createConfig doxygen (doxyFileOptions options)
    (doxygenConfigFile options) (fs w) = (Returned tt, t1) ->
  wfNames t1 = true ->
  noFileOnPath (normalize (xmlFolder options)) t1 = true ->
  q <> [] ->
  normalize (doxygenConfigFile options) = (normalize (xmlFolder options) ++ q)%list ->
  fst (prepare doxygen options w) = Returned tt
  /\ lookup (resolve (doxygenConfigFile options))
            (fs (snd (prepare doxygen options w))) = None.
Proof.
  intros Hxml Hne Hplain Hcfg Hwf Hno Hq Hinside.
  destruct (prepare_with_xml_frame doxygen options w t1 Hxml Hne Hplain Hcfg Hwf Hno)
    as (w' & Hprep & Hempty & _).
  rewrite Hprep. cbn [fst snd]. split; [reflexivity|].
  apply lookup_missing. rewrite Hinside, nodeAt_app, Hempty. now destruct q.
Qed.

Lemma prepare_deletes_config_inside_xml_folder_witness :
  lookup (resolve "./build/xml/doxygen.config")
    (snd (Doxygen.createConfig (sampleLib true true None)
            (doxyFileOptions configInsideOptions) "./build/xml/doxygen.config"
            staleTree))
  = Some (File (renderConfig (doxyFileOptions configInsideOptions)))
  /\ lookup (resolve "./build/xml/doxygen.config")
       (fs (snd (prepare (sampleLib true true None) configInsideOptions
                         staleWorld)))
     = None.
Proof.
  split; [reflexivity|].
  refine (proj2 (prepare_deletes_config_inside_xml_folder
                   (sampleLib true true None) configInsideOptions staleWorld _
                   ["doxygen.config"]
                   eq_refl _ eq_refl _ _ _ _ eq_refl));
    [discriminate|vm_compute; reflexivity|vm_compute; reflexivity
    |vm_compute; reflexivity|discriminate].
Defined.

(** [prepare] with XML output, on an XML folder whose path has no [..],
    touches the XML folder only: every path that parts ways with it holds
    what [createConfig] left there. *)
Theorem prepare_with_xml_touches_xml_folder_only
        (doxygen : Doxygen.Lib) (options : Options) (w : World) (t1 : node)
        (q : list string) :
  outputXML options = true ->
  xmlFolder options <> "" ->
  noDotDot (resolve (xmlFolder options)) = true ->
  Doxygen.createConfig doxygen (doxyFileOptions options)
    (doxygenConfigFile options) (fs w) = (Returned tt, t1) ->
  wfNames t1 = true ->
  noFileOnPath (normalize (xmlFolder options)) t1 = true ->
  diverges (normalize (xmlFolder options)) q = true ->
  nodeAt q (fs (snd (prepare doxygen options w))) = nodeAt q t1.
Proof.
  intros Hxml Hne Hplain Hcfg Hwf Hno Hq.
  destruct (prepare_with_xml_frame doxygen options w t1 Hxml Hne Hplain Hcfg Hwf Hno)
    as (w' & Hprep & _ & Hframe).
  rewrite Hprep. exact (Hframe q Hq).
Qed.

Lemma prepare_with_xml_touches_xml_folder_only_witness :
  nodeAt ["build"; "md"]
    (fs (snd (prepare (sampleLib true true None) (sampleOptions true false)
                      staleWorld))) = Some (Dir [])
  /\ nodeAt ["doxygen.config"]
       (fs (snd (prepare (sampleLib true true None) (sampleOptions true false)
                         staleWorld)))
     = Some (File (renderConfig (doxyFileOptions (sampleOptions true false)))).
Proof.
  split.
  - exact (prepare_with_xml_touches_xml_folder_only
             (sampleLib true true None) (sampleOptions true false) staleWorld _
             ["build"; "md"]
             eq_refl ltac:(discriminate) eq_refl eq_refl eq_refl eq_refl eq_refl).
  - exact (prepare_with_xml_touches_xml_folder_only
             (sampleLib true true None) (sampleOptions true false) staleWorld _
             ["doxygen.config"]
             eq_refl ltac:(discriminate) eq_refl eq_refl eq_refl eq_refl eq_refl).
Defined.

(** Through a missing directory and [..] the recursive [mkdir] of [prepare]
    leaves that directory behind, away from the XML folder. *)
Lemma prepare_creates_directory_before_dotdot :
  nodeAt ["nope"] staleTree = None
  /\ nodeAt ["nope"]
       (fs (snd (prepare (sampleLib true true None) dotDotOptions staleWorld)))
     = Some (Dir []).
Proof. split; vm_compute; reflexivity. Qed.

(** Joining with a separator and splitting at it gives the list back, when
    the list is not empty and no element holds the separator. *)
Lemma split_join (sep : ascii) (l : list string) :
  l <> [] -> Forall (fun x => includes (char sep) x = false) l ->
  split sep (join (char sep) l) = l.
Proof.
  intros Hne Hall. induction Hall as [|x l Hx Hl IH]; [contradiction|].
  destruct l as [|y l].
  - cbn [join String.concat]. now apply split_no_sep.
  - change (join (char sep) (x :: y :: l))
      with (x ++ String sep (join (char sep) (y :: l))).
    rewrite split_app, (split_no_sep sep x Hx), IH; [reflexivity|discriminate].
Qed.

(** [FILE_PATTERNS] holds the file extensions joined by spaces: splitting it
    at the spaces gives the extensions back when there is at least one and
    none of them holds a space; with no extension it is the empty string. *)
Theorem file_patterns_round_trip (options : Options) :
  (fileExtensions options <> [] ->
   Forall (fun ext => includes " " ext = false) (fileExtensions options) ->
   exists v, get "FILE_PATTERNS" (doxyFileOptions options) = Some v
             /\ split " " v = fileExtensions options)
  /\ (fileExtensions options = [] ->
      get "FILE_PATTERNS" (doxyFileOptions options) = Some "").
Proof.
  split.
  - intros Hne Hall. eexists. split; [reflexivity|].
    exact (split_join " " (fileExtensions options) Hne Hall).
  - intros Hnil. cbn [get doxyFileOptions]. now rewrite Hnil.
Qed.

Lemma file_patterns_round_trip_witness :
  exists v, get "FILE_PATTERNS" (doxyFileOptions (sampleOptions true false)) = Some v
            /\ split " " v = [".h"; ".cpp"].
Proof.
  apply (proj1 (file_patterns_round_trip (sampleOptions true false)));
    [discriminate|repeat constructor].
Defined.

Lemma split_pieces_no_sep (sep : ascii) (s x : string) :
  In x (split sep s) -> includes (char sep) x = false.
Proof.
  revert x. induction s as [|c s IH]; intros x; cbn [split].
  - intros [<-|[]]. reflexivity.
  - destruct (Ascii.eqb c sep) eqn:Hc.
    + intros [<-|H]; [reflexivity|now apply IH].
    + pose proof (split_not_nil sep s) as Hnil.
      destruct (split sep s) as [|piece pieces]; [contradiction|].
      intros [<-|H].
      * rewrite includes_char_cons, Ascii.eqb_sym, Hc. apply IH. now left.
      * apply IH. now right.
Qed.

Lemma allInClass_NoneOf (cs : list ascii) (x : ascii) (s : string) :
  In x cs -> allInClass (NoneOf cs) s = true -> includes (char x) s = false.
Proof.
  intros Hx. induction s as [|c s IH]; [reflexivity|].
  cbn [allInClass inClass]. intros H. apply andb_true_iff in H as [Hc Hs].
  rewrite includes_char_cons, (IH Hs), orb_false_r.
  apply negb_true_iff in Hc. destruct (Ascii.eqb_spec x c) as [->|]; [|reflexivity].
  assert (existsb (Ascii.eqb c) cs = true); [|congruence].
  apply existsb_exists. exists c. split; [exact Hx|apply Ascii.eqb_refl].
Qed.

(** Every message the filter returns is one line (it holds no line feed) of
    the form locator, colon, digits, [": warning: "], text, where the
    locator is not empty and holds no colon, and digits and text are not
    empty. *)
Theorem extract_messages_are_warning_lines
        (options : Options) (msg text : string) (w : World)
        (msgs : list string) (m : string) :
  fst (extractValidationMessages options (mkError msg (Some text)) w)
  = Returned msgs ->
  In m msgs ->
  includes nl m = false
  /\ exists loc digits txt,
       m = loc ++ ":" ++ digits ++ ": warning: " ++ txt
       /\ loc <> "" /\ includes ":" loc = false
       /\ digits <> "" /\ allInClass Digit digits = true
       /\ txt <> "".
Proof.
  rewrite extract_eq. cbn [fst]. intros H. injection H as <-. intros Hin.
  apply filter_In in Hin as [Hline Hwarn]. split.
  - exact (split_pieces_no_sep LF _ m Hline).
  - apply isWarning_shape in Hwarn
      as (loc & digits & txt & -> & Hloc & Hcls & Hdig & Hdigs & Htxt & _).
    exists loc, digits, txt. repeat split; trivial.
    apply (allInClass_NoneOf [":"%char; LF]); [now left|exact Hcls].
Qed.

Lemma extract_messages_are_warning_lines_witness :
  includes nl "b.h:20: warning: Undocumented return value" = false
  /\ exists loc digits txt,
       "b.h:20: warning: Undocumented return value"
       = loc ++ ":" ++ digits ++ ": warning: " ++ txt
       /\ loc <> "" /\ includes ":" loc = false
       /\ digits <> "" /\ allInClass Digit digits = true
       /\ txt <> "".
Proof.
  apply (extract_messages_are_warning_lines (sampleOptions false false) "failed"
           rawErrorText staleWorld
           ["a.h:10: warning: Parameter 'x' not documented (see declaration)";
            "b.h:20: warning: Undocumented return value"]).
  - vm_compute. reflexivity.
  - right. now left.
Defined.

Lemma filter_three_way (p : string -> bool) (l : list string) :
  p "" = false ->
  length (filter p l)
  + length (filter (fun m => negb (p m) && negb (String.eqb m "")) l)
  + count_occ string_dec l ""
  = length l.
Proof.
  intros Hp. induction l as [|x l IH]; [reflexivity|].
  cbn [filter count_occ length].
  destruct (string_dec x "") as [->|Hne].
  - rewrite Hp. cbn [negb andb String.eqb length]. lia.
  - apply String.eqb_neq in Hne. rewrite Hne.
    destruct (p x); cbn [negb andb length]; lia.
Qed.

(** With [debug], no line of the normalised stderr is dropped silently
    except the empty ones: the messages returned, the lines printed as
    [console.warn] and the empty lines add up to all the lines. *)
Theorem extract_debug_accounts_for_every_line
        (options : Options) (msg text : string) (w : World) :
  exists msgs evs,
    extractValidationMessages (withDebug true options) (mkError msg (Some text)) w
    = (Returned msgs, mkWorld (fs w) (trace w ++ evs)%list)
    /\ forallb (fun e => match e with
                         | ConsoleWarn line => negb (String.eqb line "🤔 ")
                         | _ => false
                         end) evs = true
    /\ length msgs + length evs
       + count_occ string_dec (errorMessagesOf text) ""
       = length (errorMessagesOf text).
Proof.
  rewrite extract_eq. cbn [debug withDebug]. eexists. eexists.
  split; [reflexivity|]. split.
  - induction (errorMessagesOf text) as [|x l IH]; [reflexivity|].
    cbn [filter]. destruct (negb (isWarning x) && negb (String.eqb x "")) eqn:Hx;
      [|exact IH].
    cbn [map forallb]. rewrite IH, andb_true_r.
    apply andb_true_iff in Hx as [_ Hx]. destruct x; [discriminate|reflexivity].
  - rewrite length_map. now apply filter_three_way.
Qed.

Lemma allInClass_app (k : cclass) (a b : string) :
  allInClass k (a ++ b) = allInClass k a && allInClass k b.
Proof.
  induction a as [|c a IH]; [reflexivity|].
  cbn [append allInClass]. now rewrite IH, andb_assoc.
Qed.

Lemma allInClass_Dot_no_LF (s : string) :
  allInClass Dot s = true -> includes (char LF) s = false.
Proof.
  induction s as [|c s IH]; [reflexivity|].
  cbn [allInClass inClass]. intros H. apply andb_true_iff in H as [Hc Hs].
  rewrite includes_char_cons, (IH Hs), orb_false_r.
  apply negb_true_iff in Hc. unfold isLineTerminator in Hc.
  apply orb_false_iff in Hc as [Hc _]. now rewrite Ascii.eqb_sym.
Qed.

Lemma allInClass_Digit_no_LF (s : string) :
  allInClass Digit s = true -> includes (char LF) s = false.
Proof.
  induction s as [|c s IH]; [reflexivity|].
  cbn [allInClass inClass]. intros H. apply andb_true_iff in H as [Hc Hs].
  rewrite includes_char_cons, (IH Hs), orb_false_r.
  destruct (Ascii.eqb_spec LF c) as [<-|]; [discriminate|reflexivity].
Qed.

Lemma allInClass_melded (conts : list string) :
  Forall (fun c => allInClass Dot c = true) conts ->
  allInClass Dot (melded conts) = true.
Proof.
  induction 1 as [|c cs Hc _ IH]; [reflexivity|].
  cbn [melded]. change (" " ++ c ++ melded cs) with (String SP (c ++ melded cs)).
  cbn [allInClass]. now rewrite allInClass_app, Hc, IH.
Qed.

Lemma replaceIndent_wrapped (a : string) (conts : list string) :
  includes (char LF) a = false ->
  Forall (fun c => allInClass Dot c = true) conts ->
  replaceIndent (a ++ wrapped conts) = a ++ melded conts.
Proof.
  intros Ha Hall. revert a Ha. induction Hall as [|c cs Hc _ IH]; intros a Ha.
  - cbn [wrapped melded]. rewrite !JsStringFacts.append_nil_r.
    now apply replaceIndent_no_LF.
  - cbn [wrapped melded].
    change (a ++ char LF ++ "  " ++ c ++ wrapped cs)
      with (a ++ String LF (String SP (String SP (c ++ wrapped cs)))).
    rewrite replaceIndent_app_indent, (replaceIndent_no_LF a Ha).
    rewrite (IH c (allInClass_Dot_no_LF c Hc)). reflexivity.
Qed.

(** A warning wrapped over several lines comes back as one message: when
    stderr is a warning line followed by continuation lines, each indented
    by two spaces and free of line terminators, the filter returns the single
    message made of the warning and the continuations joined by one space
    each. *)
Theorem wrapped_warning_is_one_message
        (options : Options) (msg first : string) (conts : list string) (w : World) :
  isWarning first = true ->
  Forall (fun c => allInClass Dot c = true) conts ->
  fst (extractValidationMessages options
         (mkError msg (Some (first ++ wrapped conts))) w)
  = Returned [first ++ melded conts].
Proof.
  intros Hfirst Hconts. rewrite extract_eq. cbn [fst]. f_equal.
  apply isWarning_shape in Hfirst
    as (loc & digits & txt & -> & Hloc & Hcls & Hdig & Hdigs & Htxt & Hdot).
  assert (Hmeld : allInClass Dot (txt ++ melded conts) = true).
  { now rewrite allInClass_app, Hdot, allInClass_melded. }
  assert (Hline : loc ++ ":" ++ digits ++ ": warning: " ++ txt ++ melded conts
                  = (loc ++ ":" ++ digits ++ ": warning: " ++ txt) ++ melded conts).
  { now rewrite !JsStringFacts.append_assoc. }
  assert (Hwarn : isWarning ((loc ++ ":" ++ digits ++ ": warning: " ++ txt)
                             ++ melded conts) = true).
  { rewrite <- Hline. apply isWarning_shape.
    exists loc, digits, (txt ++ melded conts). repeat split; trivial.
    destruct txt; [contradiction|discriminate]. }
  assert (HnoLF : includes (char LF)
                    (loc ++ ":" ++ digits ++ ": warning: " ++ txt) = false).
  { rewrite !includes_char_app.
    rewrite (allInClass_NoneOf [":"%char; LF] LF loc); [|right; now left|exact Hcls].
    rewrite (allInClass_Digit_no_LF digits Hdigs), (allInClass_Dot_no_LF txt Hdot).
    reflexivity. }
  unfold errorMessagesOf. rewrite (replaceIndent_wrapped _ conts HnoLF Hconts).
  rewrite split_no_sep.
  - cbn [filter]. now rewrite Hwarn.
  - rewrite includes_char_app, HnoLF.
    apply allInClass_Dot_no_LF. now apply allInClass_melded.
Qed.

Lemma wrapped_warning_is_one_message_witness :
  fst (extractValidationMessages (sampleOptions false false)
         (mkError "failed"
            (Some ("a.h:10: warning: Parameter 'x' not documented"
                   ++ wrapped ["(see declaration)"; "of f"]))) staleWorld)
  = Returned ["a.h:10: warning: Parameter 'x' not documented"
              ++ melded ["(see declaration)"; "of f"]].
Proof.
  apply wrapped_warning_is_one_message; [reflexivity|repeat constructor].
Defined.

End RunnerFacts.

(** ** What the steps add to the trace *)

Module TraceFacts.
Import JsString Fs Js Js.Notations JsFacts Helpers CleanFacts.
Import DoxygenRunner Spec Samples ConfigFacts RunFacts Frames RunnerFacts.

Section Emits.

Context {P : event -> bool}.

Lemma emits_ret {A} (a : A) : emits P (ret a).
Proof. intros w. exists []. now rewrite app_nil_r. Qed.

Lemma emits_throw {A} (e : JsError) : emits P (@throw A e).
Proof. intros w. exists []. now rewrite app_nil_r. Qed.

Lemma emits_exit {A} (c : nat) : emits P (@exit A c).
Proof. intros w. exists []. now rewrite app_nil_r. Qed.

Lemma emits_emit (e : event) : P e = true -> emits P (emit e).
Proof. intros He w. exists [e]. cbn. now rewrite He. Qed.

Lemma emits_syscall {A} (e : event) (f : node -> outcome A * node) :
  P e = true -> emits P (syscall e f).
Proof.
  intros He w. exists [e]. unfold syscall. destruct (f (fs w)). cbn.
  now rewrite He.
Qed.

Lemma emits_bind {A B} (m : M A) (k : A -> M B) :
  emits P m -> (forall a, emits P (k a)) -> emits P (bind m k).
Proof.
  intros Hm Hk w. destruct (Hm w) as (e1 & H1 & P1). unfold bind.
  destruct (m w) as [[a|e|c] w1]; cbn [snd] in *; try (now exists e1).
  destruct (Hk a w1) as (e2 & H2 & P2). exists (e1 ++ e2)%list.
  rewrite H2, H1, app_assoc, forallb_app, P1, P2. now split.
Qed.

Lemma emits_tryCatch {A} (m : M A) (h : JsError -> M A) :
  emits P m -> (forall e, emits P (h e)) -> emits P (tryCatch m h).
Proof.
  intros Hm Hh w. destruct (Hm w) as (e1 & H1 & P1). unfold tryCatch.
  destruct (m w) as [[a|e|c] w1]; cbn [snd] in *; try (now exists e1).
  destruct (Hh e w1) as (e2 & H2 & P2). exists (e1 ++ e2)%list.
  rewrite H2, H1, app_assoc, forallb_app, P1, P2. now split.
Qed.

Lemma emits_forOf {A} (xs : list A) (body : A -> M unit) :
  (forall x, emits P (body x)) -> emits P (forOf xs body).
Proof.
  intros Hbody. induction xs as [|x xs IH]; cbn [forOf].
  - apply emits_ret.
  - apply emits_bind; [apply Hbody|intros _; exact IH].
Qed.

End Emits.

Lemma emits_weaken {A} (P Q : event -> bool) (m : M A) :
  (forall e, P e = true -> Q e = true) -> emits P m -> emits Q m.
Proof.
  intros HPQ Hm w. destruct (Hm w) as (evs & H & HP). exists evs.
  split; [exact H|]. apply forallb_forall. intros e He.
  apply HPQ. revert e He. now apply forallb_forall.
Qed.

Lemma cleanDirectoryRec_emits (depth : nat) (dir : string) :
  emits isFsCall (cleanDirectoryRec depth dir).
Proof.
  revert dir. induction depth as [|d IH]; intros dir; cbn [cleanDirectoryRec].
  - apply emits_throw.
  - apply emits_bind; [now apply emits_syscall|]. intros [|]; [|apply emits_ret].
    apply emits_bind; [now apply emits_syscall|]. intros files.
    apply emits_forOf. intros file. cbv zeta.
    apply emits_bind; [now apply emits_syscall|]. intros stat.
    destruct (isDirectory stat); [|now apply emits_syscall].
    apply emits_bind; [apply IH|intros _; now apply emits_syscall].
Qed.

Section NeverExits.

Lemma neverExits_ret {A} (a : A) : neverExits (ret a).
Proof. intros w c. discriminate. Qed.

Lemma neverExits_throw {A} (e : JsError) : neverExits (@throw A e).
Proof. intros w c. discriminate. Qed.

Lemma neverExits_bind {A B} (m : M A) (k : A -> M B) :
  neverExits m -> (forall a, neverExits (k a)) -> neverExits (bind m k).
Proof.
  intros Hm Hk w c. unfold bind. specialize (Hm w).
  destruct (m w) as [[a|e|c'] w1]; cbn [fst] in *.
  - apply Hk.
  - discriminate.
  - now destruct (Hm c').
Qed.

Lemma neverExits_forOf {A} (xs : list A) (body : A -> M unit) :
  (forall x, neverExits (body x)) -> neverExits (forOf xs body).
Proof.
  intros Hbody. induction xs as [|x xs IH]; cbn [forOf].
  - apply neverExits_ret.
  - apply neverExits_bind; [apply Hbody|intros _; exact IH].
Qed.

Lemma neverExits_syscall {A} (e : event) (f : node -> outcome A * node) :
  (forall t c, fst (f t) <> Exited c) -> neverExits (syscall e f).
Proof.
  intros Hf w c. unfold syscall. specialize (Hf (fs w) c).
  now destruct (f (fs w)).
Qed.

Lemma neverExits_existsSync (path : string) : neverExits (existsSync path).
Proof.
  apply neverExits_syscall. intros t c. destruct (String.eqb path "");
    [discriminate|]. destruct (lookup (resolve path) t); discriminate.
Qed.

Lemma neverExits_readdirSync (path : string) : neverExits (readdirSync path).
Proof.
  apply neverExits_syscall. intros t c. destruct (String.eqb path "");
    [discriminate|]. destruct (lookup (resolve path) t) as [[|]|]; discriminate.
Qed.

Lemma neverExits_statSync (path : string) : neverExits (statSync path).
Proof.
  apply neverExits_syscall. intros t c. destruct (String.eqb path "");
    [discriminate|]. destruct (lookup (resolve path) t); discriminate.
Qed.

Lemma neverExits_unlinkSync (path : string) : neverExits (unlinkSync path).
Proof.
  apply neverExits_syscall. intros t c. destruct (String.eqb path "");
    [discriminate|].
  destruct (realpath path t) as [p|]; [|discriminate].
  destruct (nodeAt p t) as [[|]|]; destruct (unsnoc p) as [[]|]; discriminate.
Qed.

Lemma neverExits_rmdirSync (path : string) : neverExits (rmdirSync path).
Proof.
  apply neverExits_syscall. intros t c. destruct (String.eqb path "");
    [discriminate|].
  destruct (realpath path t) as [p|]; [|discriminate].
  destruct (String.eqb (lastComponent (resolve path)) "."); [discriminate|].
  destruct (String.eqb (lastComponent (resolve path)) ".."); [discriminate|].
  destruct (nodeAt p t) as [[|[|]]|]; destruct (unsnoc p) as [[]|]; discriminate.
Qed.

Lemma neverExits_mkdirSyncRecursive (path : string) :
  neverExits (mkdirSyncRecursive path).
Proof.
  apply neverExits_syscall. intros t c. destruct (String.eqb path "");
    [discriminate|].
  destruct (mkdirWalk (resolve path) [] t) as [[|] t']; [discriminate|].
  destruct (lookup (resolve path) t') as [[|]|]; discriminate.
Qed.

Lemma cleanDirectoryRec_neverExits (depth : nat) (dir : string) :
  neverExits (cleanDirectoryRec depth dir).
Proof.
  revert dir. induction depth as [|d IH]; intros dir; cbn [cleanDirectoryRec].
  - apply neverExits_throw.
  - apply neverExits_bind; [apply neverExits_existsSync|].
    intros [|]; [|apply neverExits_ret].
    apply neverExits_bind; [apply neverExits_readdirSync|]. intros files.
    apply neverExits_forOf. intros file. cbv zeta.
    apply neverExits_bind; [apply neverExits_statSync|]. intros stat.
    destruct (isDirectory stat); [|apply neverExits_unlinkSync].
    apply neverExits_bind; [apply IH|intros _; apply neverExits_rmdirSync].
Qed.

End NeverExits.

Lemma cleanDirectory_emits (dir : string) : emits isFsCall (cleanDirectory dir).
Proof. intros w. apply (cleanDirectoryRec_emits (S (height (fs w))) dir w). Qed.

Lemma createDirectories_emits (dirs : list string) :
  emits isFsCall (createDirectories dirs).
Proof.
  apply emits_forOf. intros d.
  apply emits_bind; [now apply emits_syscall|].
  intros [|]; [apply emits_ret|now apply emits_syscall].
Qed.

(** On every tree, also where they throw half-way, [cleanDirectory] and
    [createDirectories] do nothing but call Node's [fs] module: they print
    nothing, call nothing of Doxygen, and never end the process. *)
Theorem helpers_only_call_fs (dir : string) (dirs : list string) :
  emits isFsCall (cleanDirectory dir)
  /\ emits isFsCall (createDirectories dirs)
  /\ neverExits (cleanDirectory dir)
  /\ neverExits (createDirectories dirs).
Proof.
  split; [apply cleanDirectory_emits|].
  split; [apply createDirectories_emits|]. split.
  - intros w. apply (cleanDirectoryRec_neverExits (S (height (fs w))) dir w).
  - apply neverExits_forOf. intros d.
    apply neverExits_bind; [apply neverExits_existsSync|].
    intros [|]; [apply neverExits_ret|apply neverExits_mkdirSyncRecursive].
Qed.

Lemma bind_Thrown {A B} (m : M A) (k : A -> M B) (w w' : World) (e : JsError) :
  m w = (Thrown e, w') -> bind m k w = (Thrown e, w').
Proof. intros H. unfold bind. now rewrite H. Qed.

Lemma bind_Exited {A B} (m : M A) (k : A -> M B) (w w' : World) (c : nat) :
  m w = (Exited c, w') -> bind m k w = (Exited c, w').
Proof. intros H. unfold bind. now rewrite H. Qed.

Lemma checkInstallation_events
      (doxygen : Doxygen.Lib) (options : Options) (w : World) :
  exists evs,
    trace (snd (checkInstallation doxygen options w)) = (trace w ++ evs)%list
    /\ forallb isInstallEvent evs = true
    /\ length (filter isDownload evs) <= 1.
Proof.
  unfold checkInstallation, bind, syscall, console_log, console_error, emit,
    exit, ret. cbn [fs trace].
  destruct (Doxygen.isDoxygenExecutableInstalled doxygen _ (fs w)); cbn [negb].
  - eexists. split; [reflexivity|]. split; [reflexivity|]. cbn. lia.
  - cbn [fs trace].
    destruct (Doxygen.downloadVersion doxygen _ (fs w)) as [[[]|e|c] t1];
      cbn [negb fs trace snd]; rewrite <- ?app_assoc;
      eexists; (split; [reflexivity|]); (split; [reflexivity|]); cbn; lia.
Qed.

Lemma prepare_events (doxygen : Doxygen.Lib) (options : Options) (w : World) :
  exists evs,
    trace (snd (prepare doxygen options w)) = (trace w ++ evs)%list
    /\ forallb isPrepareEvent evs = true
    /\ length (filter isCreateConfig evs) <= 1.
Proof.
  unfold prepare.
  set (rest := match get "GENERATE_XML" (doxyFileOptions options) with
               | Some v => _ | None => _ end).
  assert (Hrest : emits (fun e => isPrepareEvent e && negb (isCreateConfig e)) rest).
  { unfold rest. destruct (get "GENERATE_XML" (doxyFileOptions options)) as [v|];
      [|apply emits_ret].
    destruct (String.eqb v "YES"); [|apply emits_ret].
    apply emits_bind.
    - apply (emits_weaken isFsCall); [now intros []|].
      apply cleanDirectory_emits.
    - intros _. apply emits_bind.
      + apply (emits_weaken isFsCall); [now intros []|].
        apply createDirectories_emits.
      + intros _. now apply emits_emit. }
  assert (Hcount : forall evs,
             forallb (fun e => isPrepareEvent e && negb (isCreateConfig e)) evs = true ->
             forallb isPrepareEvent evs = true /\ filter isCreateConfig evs = []).
  { induction evs as [|e evs IH]; [now split|]. cbn [forallb filter].
    intros H. apply andb_true_iff in H as [He Hevs].
    apply andb_true_iff in He as [He1 He2]. apply negb_true_iff in He2.
    destruct (IH Hevs) as [-> ->]. now rewrite He1, He2. }
  unfold bind at 1 2 3. unfold syscall, console_log, emit, ret.
  destruct (debug options); cbn [fs trace];
    destruct (Doxygen.createConfig doxygen _ _ (fs w)) as [[[]|e|c] t1];
    cbn [fs trace snd];
    try (eexists; rewrite <- ?app_assoc; split; [reflexivity|];
         split; [reflexivity|]; cbn; lia).
  - match goal with |- context [rest ?w1] =>
      destruct (Hrest w1) as (evs & Hevs & HP) end.
    destruct (Hcount evs HP) as [HP' Hnone].
    rewrite Hevs. cbn [trace]. eexists. rewrite <- !app_assoc.
    split; [reflexivity|]. cbn [app forallb isPrepareEvent andb].
    split; [exact HP'|]. cbn [filter isCreateConfig]. rewrite Hnone. cbn. lia.
  - match goal with |- context [rest ?w1] =>
      destruct (Hrest w1) as (evs & Hevs & HP) end.
    destruct (Hcount evs HP) as [HP' Hnone].
    rewrite Hevs. cbn [trace]. eexists. rewrite <- !app_assoc.
    split; [reflexivity|]. cbn [app forallb isPrepareEvent andb].
    split; [exact HP'|]. cbn [filter isCreateConfig]. rewrite Hnone. cbn. lia.
Qed.

Lemma onRunError_emits (options : Options) (error : JsError) :
  emits (fun e => isExecuteEvent e && negb (isRun e)) (onRunError options error).
Proof.
  unfold onRunError.
  destruct (includes missingLibsErrorMessage (message error)).
  - destruct (JsRegExp.matchLitThenGroup _ _); [|apply emits_throw].
    apply emits_bind; [now apply emits_emit|intros _; apply emits_exit].
  - unfold extractValidationMessages. destruct (stderr error); [|apply emits_throw].
    apply emits_bind; [|intros _; apply emits_ret].
    destruct (debug options); [|apply emits_ret].
    apply emits_forOf. intros m. now apply emits_emit.
Qed.

Lemma execute_events (doxygen : Doxygen.Lib) (options : Options) (w : World) :
  exists evs,
    trace (snd (execute doxygen options w)) = (trace w ++ evs)%list
    /\ forallb isExecuteEvent evs = true
    /\ length (filter isRun evs) <= 1.
Proof.
  rewrite execute_eq.
  destruct (Doxygen.run doxygen _ _ (fs w)) as [[[]|e|c] t]; cbn [snd trace];
    try (eexists; split; [reflexivity|]; split; [reflexivity|]; cbn; lia).
  match goal with |- context [onRunError options e ?w1] =>
    destruct (onRunError_emits options e w1) as (evs & Hevs & HP) end.
  rewrite Hevs. cbn [trace]. eexists. rewrite <- app_assoc.
  split; [reflexivity|]. cbn [app forallb filter isExecuteEvent isRun andb].
  assert (forallb isExecuteEvent evs = true /\ filter isRun evs = []) as [-> ->].
  { clear Hevs. induction evs as [|x evs IH]; [now split|].
    cbn [forallb filter] in *. apply andb_true_iff in HP as [Hx HP].
    apply andb_true_iff in Hx as [Hx1 Hx2]. apply negb_true_iff in Hx2.
    destruct (IH HP) as [-> ->]. now rewrite Hx1, Hx2. }
  split; [reflexivity|]. cbn. lia.
Qed.

Lemma checkXMLOutput_emits (options : Options) :
  emits isOutputEvent (checkXMLOutput options).
Proof.
  unfold checkXMLOutput. apply emits_bind; [now apply emits_syscall|].
  intros xmlFiles. destruct (length xmlFiles =? 0)%nat.
  - apply emits_bind; [now apply emits_emit|intros _; apply emits_exit].
  - destruct (debug options); [|apply emits_ret].
    apply emits_bind; [now apply emits_emit|]. intros _.
    apply emits_forOf. intros file. now apply emits_emit.
Qed.

(** Events of one step are no key events of another. *)
Lemma blocks_keep_apart (e1 e2 e3 e4 : list event) :
  forallb isInstallEvent e1 = true -> forallb isPrepareEvent e2 = true ->
  forallb isExecuteEvent e3 = true -> forallb isOutputEvent e4 = true ->
  filter isCreateConfig e1 = [] /\ filter isRun (e1 ++ e2) = []
  /\ filter isDownload (e2 ++ e3 ++ e4) = []
  /\ filter isCreateConfig (e3 ++ e4) = [] /\ filter isRun e4 = [].
Proof.
  assert (Hnone : forall (P Q : event -> bool) (l : list event),
             (forall e, P e = true -> Q e = false) ->
             forallb P l = true -> filter Q l = []).
  { intros P Q l HPQ. induction l as [|e l IH]; [reflexivity|].
    cbn [forallb filter]. intros H. apply andb_true_iff in H as [He Hl].
    now rewrite (HPQ e He), (IH Hl). }
  intros P1 P2 P3 P4. rewrite !filter_app.
  rewrite (Hnone isInstallEvent isCreateConfig e1), (Hnone isInstallEvent isRun e1),
    (Hnone isPrepareEvent isRun e2), (Hnone isPrepareEvent isDownload e2),
    (Hnone isExecuteEvent isDownload e3), (Hnone isExecuteEvent isCreateConfig e3),
    (Hnone isOutputEvent isDownload e4), (Hnone isOutputEvent isCreateConfig e4),
    (Hnone isOutputEvent isRun e4)
    by first [assumption|now intros []].
  repeat split; reflexivity.
Qed.

(** The events of every run, whatever its outcome, come in four blocks, each
    the events of one step run in the world the step before it left: the
    installation check, [prepare], the execution and the check of the output.
    A step that does not return ends the run in the world it leaves, so every
    later block is empty.  [downloadVersion] is called at most once, in the
    first block only; [createConfig] at most once, in the second only;
    Doxygen is run at most once, in the third only. *)
Theorem run_events_in_order
        (doxygen : Doxygen.Lib) (options : Options) (w : World) :
  exists e1 e2 e3 e4,
    trace (snd (run doxygen options w)) = (trace w ++ e1 ++ e2 ++ e3 ++ e4)%list
    /\ (forallb isInstallEvent e1 = true /\ length (filter isDownload e1) <= 1)
    /\ (forallb isPrepareEvent e2 = true /\ length (filter isCreateConfig e2) <= 1)
    /\ (forallb isExecuteEvent e3 = true /\ length (filter isRun e3) <= 1)
    /\ forallb isOutputEvent e4 = true
    /\ (filter isCreateConfig e1 = [] /\ filter isRun (e1 ++ e2) = []
        /\ filter isDownload (e2 ++ e3 ++ e4) = []
        /\ filter isCreateConfig (e3 ++ e4) = [] /\ filter isRun e4 = [])
    /\ let checked := checkInstallation doxygen options w in
       let prepared := prepare doxygen options (snd checked) in
       let executed := execute doxygen options (snd prepared) in
       let verified := (if outputXML options then checkXMLOutput options
                        else ret tt) (snd executed) in
       trace (snd checked) = (trace w ++ e1)%list
       /\ if returns (fst checked) then
            trace (snd prepared) = (trace (snd checked) ++ e2)%list
            /\ if returns (fst prepared) then
                 trace (snd executed) = (trace (snd prepared) ++ e3)%list
                 /\ if returns (fst executed) then
                      trace (snd verified) = (trace (snd executed) ++ e4)%list
                      /\ snd (run doxygen options w) = snd verified
                      /\ returns (fst (run doxygen options w))
                         = returns (fst verified)
                    else e4 = []
                         /\ snd (run doxygen options w) = snd executed
                         /\ returns (fst (run doxygen options w)) = false
               else e3 = [] /\ e4 = []
                    /\ snd (run doxygen options w) = snd prepared
                    /\ returns (fst (run doxygen options w)) = false
          else e2 = [] /\ e3 = [] /\ e4 = []
               /\ snd (run doxygen options w) = snd checked
               /\ returns (fst (run doxygen options w)) = false.
Proof.
  destruct (checkInstallation_events doxygen options w) as (e1 & H1 & P1 & C1).
  unfold run. cbv zeta.
  destruct (checkInstallation doxygen options w) as [[[]|e|c] w1] eqn:Hc;
    cbn [fst snd returns] in *;
    [rewrite (bind_Returned _ _ _ _ _ Hc)
    |rewrite (bind_Thrown _ _ _ _ _ Hc)
    |rewrite (bind_Exited _ _ _ _ _ Hc)];
    try (exists e1, [], [], []; cbn [fst snd returns];
         split; [now rewrite H1, !app_nil_r|]; split; [now split|];
         split; [split; [reflexivity|cbn; lia]|];
         split; [split; [reflexivity|cbn; lia]|];
         split; [reflexivity|];
         split; [exact (blocks_keep_apart e1 [] [] [] P1 eq_refl eq_refl eq_refl)|];
         repeat split; trivial).
  destruct (prepare_events doxygen options w1) as (e2 & H2 & P2 & C2).
  destruct (prepare doxygen options w1) as [[[]|e|c] w2] eqn:Hp;
    cbn [fst snd returns] in *;
    [rewrite (bind_Returned _ _ _ _ _ Hp)
    |rewrite (bind_Thrown _ _ _ _ _ Hp)
    |rewrite (bind_Exited _ _ _ _ _ Hp)];
    try (exists e1, e2, [], []; cbn [fst snd returns];
         split; [now rewrite H2, H1, !app_nil_r, <- !app_assoc|];
         split; [now split|]; split; [now split|];
         split; [split; [reflexivity|cbn; lia]|];
         split; [reflexivity|];
         split; [exact (blocks_keep_apart e1 e2 [] [] P1 P2 eq_refl eq_refl)|];
         repeat split; trivial).
  destruct (execute_events doxygen options w2) as (e3 & H3 & P3 & C3).
  destruct (execute doxygen options w2) as [[msgs|e|c] w3] eqn:He;
    cbn [fst snd returns] in *;
    [rewrite (bind_Returned _ _ _ _ _ He)
    |rewrite (bind_Thrown _ _ _ _ _ He)
    |rewrite (bind_Exited _ _ _ _ _ He)];
    try (exists e1, e2, e3, []; cbn [fst snd returns];
         split; [now rewrite H3, H2, H1, !app_nil_r, <- !app_assoc|];
         split; [now split|]; split; [now split|];
         split; [now split|]; split; [reflexivity|];
         split; [exact (blocks_keep_apart e1 e2 e3 [] P1 P2 P3 eq_refl)|];
         repeat split; trivial).
  destruct (emits_bind (P := isOutputEvent)
              (if outputXML options then checkXMLOutput options else ret tt)
              (fun _ => ret tt)
              ltac:(destruct (outputXML options);
                    [apply checkXMLOutput_emits|apply emits_ret])
              ltac:(intros ?; apply emits_ret) w3) as (e4 & H4 & P4).
  assert (H4' : trace (snd ((if outputXML options then checkXMLOutput options
                             else ret tt) w3)) = (trace w3 ++ e4)%list).
  { rewrite <- H4. unfold bind.
    now destruct ((if outputXML options then checkXMLOutput options else ret tt) w3)
      as [[[]|e|c] w4]. }
  assert (Hend : snd (((if outputXML options then checkXMLOutput options
                        else ret tt) ;; ret msgs) w3)
                 = snd ((if outputXML options then checkXMLOutput options
                         else ret tt) w3)
                 /\ returns (fst (((if outputXML options then checkXMLOutput options
                                    else ret tt) ;; ret msgs) w3))
                    = returns (fst ((if outputXML options then checkXMLOutput options
                                     else ret tt) w3))).
  { unfold bind.
    now destruct ((if outputXML options then checkXMLOutput options else ret tt) w3)
      as [[[]|e|c] w4]. }
  destruct Hend as [Hworld Houtcome].
  exists e1, e2, e3, e4.
  split; [now rewrite Hworld, H4', H3, H2, H1, <- !app_assoc|].
  split; [now split|]. split; [now split|]. split; [now split|].
  split; [exact P4|].
  split; [exact (blocks_keep_apart e1 e2 e3 e4 P1 P2 P3 P4)|].
  repeat split; trivial.
Qed.

End TraceFacts.
